(** * SixSigmaMCP: the DMAIC phase workflow, its gates and its metrics

    A shallow embedding of the decision logic of the repository:

    - [Schema]: the Supabase tables the dashboard writes to
      (supabase/migrations, tables [projects], [fmea_items], [solutions]);
    - [Dashboard]: the React components [ProjectDetails], [DefinePhase],
      [MeasurePhase], [AnalyzePhase], [ImprovePhase] and [ControlPhase];
    - [Server]: the JavaScript protocol server (mcp-server/six-sigma-server.js);
    - [TsServer]: the TypeScript protocol server (mcp-server/src/index.ts);
    - [QualityGates]: the [QualityGateManager] of the modular server.

    JavaScript numbers are modelled by exact rationals ([Q]); integer
    columns of the database by [Z].  Clock readings and generated row
    identifiers are inputs of the operations that use them. *)

From Stdlib Require Import ZArith QArith Qround Qabs Qminmax Lia Lqa.
From Stdlib Require Import List String Sorting.Sorted Sorting.Permutation.
From stdpp Require Import gmap strings list fin_maps pretty.

Local Open Scope string_scope.
Local Open Scope Z_scope.

(* ===================================================================== *)
(** * Part I: the embedding                                               *)
(* ===================================================================== *)

(** ** JavaScript numbers *)

Module JS.

(** [x < y] and [x > y] on numbers. *)
Definition ltb (x y : Q) : bool := negb (Qle_bool y x).
Definition gtb (x y : Q) : bool := ltb y x.

(** [Math.round]: the integer closest to [x], the larger one on a tie. *)
Definition Math_round (x : Q) : Z := Qfloor (x + (1 # 2))%Q.

(** [Math.max] on two (non-NaN) numbers. *)
Definition Math_max (x y : Q) : Q := if Qle_bool x y then y else x.

(** The integer [n] of [Number.prototype.toFixed(1)]: for [x >= 0] the
    integer for which [n / 10 - x] is closest to zero, the larger one
    when there are two. *)
Definition tenths (x : Q) : Z := Qfloor (x * 10 + (1 # 2))%Q.

(** The digits [toFixed(1)] prints for [n] tenths: integer part, a
    point, one decimal. *)
Definition print_tenths (n : Z) : string :=
  String.append (pretty (n / 10)) (String.append "." (pretty (n mod 10))).

(** [x.toFixed(1)].  A negative [x] is printed as ["-"] followed by the
    digits of [-x].  From [10^21] on the method falls back to the
    exponent notation of [ToString], which is outside this model
    ([None]). *)
Definition toFixed1 (x : Q) : option string :=
  if Qle_bool (10 ^ 21)%Q (Qabs x) then None
  else if ltb x 0%Q then Some (String.append "-" (print_tenths (tenths (- x))))
  else Some (print_tenths (tenths x)).

(** A value that is either a number or a string. *)
Inductive value : Type :=
| Num (q : Q)
| Str (s : string).

End JS.

(** [Array.prototype.sort] with a comparator returning a number: the
    standard requires a stable sort, so for a consistent comparator the
    result is the one of a stable insertion sort. *)

Section ArraySort.
Context {A : Type}.
Variable cmp : A -> A -> Q.

Fixpoint sort_insert (x : A) (l : list A) : list A :=
  match l with
  | [] => [x]
  | y :: l' =>
      if JS.gtb (cmp x y) 0%Q then y :: sort_insert x l' else x :: y :: l'
  end.

Definition Array_sort (l : list A) : list A := foldr sort_insert [] l.

(** [precedes a b]: the comparator does not ask for [b] before [a]. *)
Definition precedes (a b : A) : Prop := (cmp a b <= 0)%Q.
End ArraySort.

(** ** The database schema (supabase/migrations) *)

Module Schema.

Inductive Phase : Type :=
| DEFINE | MEASURE | ANALYZE | IMPROVE | CONTROL | COMPLETED.

Inductive RiskLevel : Type := LOW | MEDIUM | HIGH.

(** A row of [projects]: the columns the workflow reads or writes, and
    the identifying ones.  ([deployment_target], [budget_limit],
    [timeline_days] and the time stamps are displayed only.) *)
Record Project : Type := mkProject {
  p_id : string;
  p_name : string;
  business_case : string;
  current_phase : Phase;
  quality_score : Q;
  risk_level : RiskLevel;
  phase_completion : Q
}.

(** The labels ['HIGH' | 'MEDIUM' | 'LOW'] also grade priorities and
    impacts. *)
Definition Priority : Type := RiskLevel.

Inductive Category : Type := functional | non_functional.

Inductive ConstraintType : Type := technical | business | regulatory | resource.

Record Requirement : Type := mkRequirement {
  req_id : string;
  requirement : string;
  category : Category;
  priority : Priority
}.

(** A row of [ctq_items]: [target] and [usl] are [numeric NOT NULL]. *)
Record CTQItem : Type := mkCTQItem {
  ctq_id : string;
  need : string;
  driver : string;
  ctq : string;
  ctq_target : Q;
  usl : Q
}.

Record Constraint : Type := mkConstraint {
  con_id : string;
  con_type : ConstraintType;
  con_description : string;
  impact : Priority
}.

(** A row of [kpis]: [target] is [numeric NOT NULL]. *)
Record KPI : Type := mkKPI {
  kpi_id : string;
  kpi_name : string;
  kpi_description : string;
  target : Q;
  current_value : Q;
  unit : string
}.

(** A row of [fmea_items]. *)
Record FMEAItem : Type := mkFMEAItem {
  fmea_id : string;
  failure_mode : string;
  effects : string;
  causes : string;
  severity : Z;
  occurrence : Z;
  detection : Z;
  rpn : Z
}.

Inductive Status : Type := proposed | approved | implemented.
Inductive Approach : Type := incremental | redesign | innovative.

(** A row of [solutions]. *)
Record Solution : Type := mkSolution {
  sol_id : string;
  title : string;
  sol_description : string;
  approach : Approach;
  impact_score : Q;
  effort_score : Q;
  risk_score : Q;
  cost_score : Q;
  total_score : Q;
  status : Status
}.

(** *** Table [fmea_items]

    [severity], [occurrence], [detection]:
    [integer NOT NULL CHECK (c >= 1 AND c <= 10)];
    [rpn integer GENERATED ALWAYS AS (severity * occurrence * detection)
    STORED]. *)

Definition check_1_10 (c : Z) : bool := (1 <=? c) && (c <=? 10).

(** The column values of an INSERT.  [ins_rpn] is a value supplied for
    the generated column, which PostgreSQL refuses. *)
Record fmea_insert : Type := mkFmeaInsert {
  ins_failure_mode : string;
  ins_effects : string;
  ins_causes : string;
  ins_severity : Z;
  ins_occurrence : Z;
  ins_detection : Z;
  ins_rpn : option Z
}.

(** The SET list of an UPDATE: [None] leaves the column alone. *)
Record fmea_update : Type := mkFmeaUpdate {
  set_severity : option Z;
  set_occurrence : option Z;
  set_detection : option Z;
  set_rpn : option Z
}.

(** The stored row of an accepted INSERT; [None] is a rejected
    statement. *)
Definition fmea_items_insert (id : string) (v : fmea_insert)
  : option FMEAItem :=
  match ins_rpn v with
  | Some _ => None
  | None =>
      if check_1_10 (ins_severity v) && check_1_10 (ins_occurrence v)
         && check_1_10 (ins_detection v)
      then Some (mkFMEAItem id (ins_failure_mode v) (ins_effects v)
                   (ins_causes v) (ins_severity v) (ins_occurrence v)
                   (ins_detection v)
                   (ins_severity v * ins_occurrence v * ins_detection v))
      else None
  end.

(** The stored row after an accepted UPDATE of one row. *)
Definition fmea_items_update (u : fmea_update) (r : FMEAItem)
  : option FMEAItem :=
  match set_rpn u with
  | Some _ => None
  | None =>
      let s := default (severity r) (set_severity u) in
      let o := default (occurrence r) (set_occurrence u) in
      let d := default (detection r) (set_detection u) in
      if check_1_10 s && check_1_10 o && check_1_10 d
      then Some (mkFMEAItem (fmea_id r) (failure_mode r) (effects r)
                   (causes r) s o d (s * o * d))
      else None
  end.

(** Statements on the table; a rejected statement leaves the table as
    it was. *)
Inductive fmea_stmt : Type :=
| Insert (id : string) (v : fmea_insert)
| Update (id : string) (u : fmea_update)
| Delete (id : string).

Fixpoint update_rows (id : string) (u : fmea_update) (t : list FMEAItem)
  : option (list FMEAItem) :=
  match t with
  | [] => Some []
  | r :: t' =>
      t'' ← update_rows id u t';
      if String.eqb (fmea_id r) id
      then r' ← fmea_items_update u r; Some (r' :: t'')
      else Some (r :: t'')
  end.

Definition fmea_exec (t : list FMEAItem) (s : fmea_stmt) : list FMEAItem :=
  match s with
  | Insert id v =>
      match fmea_items_insert id v with
      | Some r => t ++ [r]
      | None => t
      end
  | Update id u => default t (update_rows id u t)
  | Delete id => filter (fun r => negb (String.eqb (fmea_id r) id)) t
  end.

Definition fmea_run (ss : list fmea_stmt) : list FMEAItem :=
  fold_left fmea_exec ss [].

(** *** Table [solutions]

    The four scores are [numeric CHECK (c >= 0 AND c <= 10)];
    [total_score numeric DEFAULT 0] is an ordinary column;
    [status text DEFAULT 'proposed']. *)

Definition check_0_10 (c : Q) : bool :=
  Qle_bool 0%Q c && Qle_bool c 10%Q.

Record solution_insert : Type := mkSolutionInsert {
  ins_title : string;
  ins_description : string;
  ins_approach : Approach;
  ins_impact_score : Q;
  ins_effort_score : Q;
  ins_risk_score : Q;
  ins_cost_score : Q;
  ins_total_score : option Q;
  ins_status : option Status
}.

Definition solutions_insert (id : string) (v : solution_insert)
  : option Solution :=
  if check_0_10 (ins_impact_score v) && check_0_10 (ins_effort_score v)
     && check_0_10 (ins_risk_score v) && check_0_10 (ins_cost_score v)
  then Some (mkSolution id (ins_title v) (ins_description v)
               (ins_approach v) (ins_impact_score v) (ins_effort_score v)
               (ins_risk_score v) (ins_cost_score v)
               (default 0%Q (ins_total_score v))
               (default proposed (ins_status v)))
  else None.

End Schema.

(** ** The dashboard (React components over the Supabase tables) *)

Module Dashboard.
Import Schema.

#[global] Instance Phase_eq_dec : EqDecision Phase.
Proof. solve_decision. Defined.

#[global] Instance RiskLevel_eq_dec : EqDecision RiskLevel.
Proof. solve_decision. Defined.

#[global] Instance Status_eq_dec : EqDecision Status.
Proof. solve_decision. Defined.

(** *** ProjectDetails *)

Definition phases : list Phase := [DEFINE; MEASURE; ANALYZE; IMPROVE; CONTROL].

(** [Array.prototype.indexOf]: the first index of [x], [-1] when [x]
    does not occur. *)
Fixpoint indexOf (x : Phase) (l : list Phase) : Z :=
  match l with
  | [] => -1
  | y :: l' =>
      if decide (x = y) then 0
      else let i := indexOf x l' in if i <? 0 then -1 else i + 1
  end.

Definition currentPhaseIndex (project : Project) : Z :=
  indexOf (current_phase project) phases.

(** The row after [update({ current_phase, phase_completion })]. *)
Definition update_phase (project : Project) (ph : Phase) (pc : Q) : Project :=
  mkProject (p_id project) (p_name project) (business_case project)
    ph (quality_score project) (risk_level project) pc.

Definition advancePhase (project : Project) : Project :=
  let nextIndex := currentPhaseIndex project + 1 in
  if nextIndex <? Z.of_nat (length phases) then
    match phases !! Z.to_nat nextIndex with
    | Some ph =>
        update_phase project ph
          ((inject_Z (nextIndex + 1) / inject_Z (Z.of_nat (length phases)))
           * 100)%Q
    | None => project
    end
  else project.

Inductive phaseStatus : Type := st_completed | st_active | st_pending.

Definition getPhaseStatus (project : Project) (phaseIndex : Z) : phaseStatus :=
  if phaseIndex <? currentPhaseIndex project then st_completed
  else if phaseIndex =? currentPhaseIndex project then st_active
  else st_pending.

(** *** DefinePhase *)

Definition DefinePhase_canComplete (requirements : list Requirement)
    (ctqItems : list CTQItem) (constraints : list Constraint) : bool :=
  (0 <? Z.of_nat (length requirements))
  && (0 <? Z.of_nat (length ctqItems))
  && (0 <? Z.of_nat (length constraints)).

(** *** MeasurePhase *)

(** [calculatePerformance]: the number [0] for a zero target, else the
    [toFixed(1)] string of the percentage. *)
Definition calculatePerformance (kpi : KPI) : option JS.value :=
  if Qeq_bool (target kpi) 0 then Some (JS.Num 0)
  else s ← JS.toFixed1 ((current_value kpi / target kpi) * 100)%Q;
       Some (JS.Str s).

Definition MeasurePhase_canComplete (kpis : list KPI) : bool :=
  3 <=? Z.of_nat (length kpis).

(** *** AnalyzePhase *)

(** [fmeaItems.reduce((sum, item) => sum + item.rpn, 0)]. *)
Definition sumRpn (fmeaItems : list FMEAItem) : Z :=
  fold_left (fun sum item => sum + rpn item) fmeaItems 0.

(** [sum / (fmeaItems.length || 1)]. *)
Definition avgRpn (fmeaItems : list FMEAItem) : Q :=
  let n := Z.of_nat (length fmeaItems) in
  (inject_Z (sumRpn fmeaItems) / inject_Z (if n =? 0 then 1 else n))%Q.

Definition riskLevel (avgRpn : Q) : RiskLevel :=
  if JS.gtb avgRpn 300 then HIGH
  else if JS.gtb avgRpn 150 then MEDIUM
  else LOW.

Definition update_risk (project : Project) (r : RiskLevel) : Project :=
  mkProject (p_id project) (p_name project) (business_case project)
    (current_phase project) (quality_score project) r
    (phase_completion project).

(** [updateProjectRisk], as a function of the [fmeaItems] it reads. *)
Definition updateProjectRisk (fmeaItems : list FMEAItem) (project : Project)
  : Project :=
  update_risk project (riskLevel (avgRpn fmeaItems)).

Inductive rpnLabel : Type := L_CRITICAL | L_HIGH | L_MEDIUM | L_LOW.

Definition getRpnLabel (rpn : Z) : rpnLabel :=
  if 300 <? rpn then L_CRITICAL
  else if 150 <? rpn then L_HIGH
  else if 80 <? rpn then L_MEDIUM
  else L_LOW.

Definition AnalyzePhase_canComplete (fmeaItems : list FMEAItem) : bool :=
  2 <=? Z.of_nat (length fmeaItems).

(** The form state [newFmea]. *)
Record fmea_form : Type := mkFmeaForm {
  f_failure_mode : string;
  f_effects : string;
  f_causes : string;
  f_severity : Z;
  f_occurrence : Z;
  f_detection : Z
}.

(** What [AnalyzePhase] works on: the project row and the project's
    rows of [fmea_items] in the database, and the component state
    [fmeaItems] of the current render. *)
Record AnalyzeWorld : Type := mkAnalyzeWorld {
  db_project : Project;
  db_fmea_items : list FMEAItem;
  fmeaItems : list FMEAItem
}.

(** [(a, b) => b.rpn - a.rpn]. *)
Definition by_rpn_desc (a b : FMEAItem) : Q := inject_Z (rpn b - rpn a).

(** [addFmea].  [id] is the identifier the database generates for the
    new row.  [setFmeaItems] takes effect in the next render: the call
    of [updateProjectRisk] at the end still reads the [fmeaItems] of the
    render the handler was created in. *)
Definition addFmea (id : string) (newFmea : fmea_form) (w : AnalyzeWorld)
  : AnalyzeWorld :=
  if String.eqb (f_failure_mode newFmea) "" then w
  else
    let data :=
      fmea_items_insert id
        (mkFmeaInsert (f_failure_mode newFmea) (f_effects newFmea)
           (f_causes newFmea) (f_severity newFmea) (f_occurrence newFmea)
           (f_detection newFmea) None) in
    let project' := updateProjectRisk (fmeaItems w) (db_project w) in
    match data with
    | Some row =>
        mkAnalyzeWorld project' (db_fmea_items w ++ [row])
          (Array_sort by_rpn_desc (fmeaItems w ++ [row]))
    | None => mkAnalyzeWorld project' (db_fmea_items w) (fmeaItems w)
    end.

Definition deleteFmea (id : string) (w : AnalyzeWorld) : AnalyzeWorld :=
  let keep := fun f : FMEAItem => negb (String.eqb (fmea_id f) id) in
  mkAnalyzeWorld (updateProjectRisk (fmeaItems w) (db_project w))
    (filter keep (db_fmea_items w)) (filter keep (fmeaItems w)).

(** *** ImprovePhase *)

(** The form state [newSolution]. *)
Record solution_form : Type := mkSolutionForm {
  f_title : string;
  f_description : string;
  f_approach : Approach;
  f_impact_score : Q;
  f_effort_score : Q;
  f_risk_score : Q;
  f_cost_score : Q
}.

Definition calculateTotalScore (newSolution : solution_form) : Q :=
  ((f_impact_score newSolution * 2) - f_effort_score newSolution
   - f_risk_score newSolution - f_cost_score newSolution)%Q.

Record ImproveWorld : Type := mkImproveWorld {
  db_solutions : list Solution;
  solutions : list Solution
}.

(** [(a, b) => b.total_score - a.total_score]. *)
Definition by_total_score_desc (a b : Solution) : Q :=
  (total_score b - total_score a)%Q.

Definition addSolution (id : string) (newSolution : solution_form)
    (w : ImproveWorld) : ImproveWorld :=
  if String.eqb (f_title newSolution) "" then w
  else
    let total_score := calculateTotalScore newSolution in
    match solutions_insert id
            (mkSolutionInsert (f_title newSolution)
               (f_description newSolution) (f_approach newSolution)
               (f_impact_score newSolution) (f_effort_score newSolution)
               (f_risk_score newSolution) (f_cost_score newSolution)
               (Some total_score) None) with
    | Some data =>
        mkImproveWorld (db_solutions w ++ [data])
          (Array_sort by_total_score_desc (solutions w ++ [data]))
    | None => w
    end.

Definition set_status (st : Status) (s : Solution) : Solution :=
  mkSolution (sol_id s) (title s) (sol_description s) (approach s)
    (impact_score s) (effort_score s) (risk_score s) (cost_score s)
    (total_score s) st.

Definition updateStatus (id : string) (st : Status) (w : ImproveWorld)
  : ImproveWorld :=
  let upd := fun s : Solution =>
    if String.eqb (sol_id s) id then set_status st s else s in
  mkImproveWorld (map upd (db_solutions w)) (map upd (solutions w)).

Definition deleteSolution (id : string) (w : ImproveWorld) : ImproveWorld :=
  let keep := fun s : Solution => negb (String.eqb (sol_id s) id) in
  mkImproveWorld (filter keep (db_solutions w)) (filter keep (solutions w)).

Definition ImprovePhase_canComplete (solutions : list Solution) : bool :=
  existsb (fun s => bool_decide (status s = approved)
                    || bool_decide (status s = implemented)) solutions.

(** *** ControlPhase *)

Record ControlItems : Type := mkControlItems {
  monitoring : bool;
  documentation : bool;
  validation : bool;
  training : bool
}.

(** [Object.values(controlItems)]. *)
Definition control_values (c : ControlItems) : list bool :=
  [monitoring c; documentation c; validation c; training c].

Definition allItemsComplete (controlItems : ControlItems) : bool :=
  forallb (fun v => v) (control_values controlItems).

Definition markProjectComplete (project : Project) : Project :=
  mkProject (p_id project) (p_name project) (business_case project)
    COMPLETED 95 (risk_level project) 100.

(** *** The phase component rendered by ProjectDetails

    [ProjectDetails] renders the component of the current phase and
    nothing for COMPLETED.  Each component ends in a button with
    [disabled={!canComplete}]; a disabled button does not run its
    [onClick].  The first four components get [onComplete = advancePhase];
    [ControlPhase] runs [markProjectComplete] and gets
    [onComplete = () => onUpdate()], a reload. *)

Record Snapshot : Type := mkSnapshot {
  requirements : list Requirement;
  ctqItems : list CTQItem;
  constraints : list Constraint;
  kpis : list KPI;
  snap_fmeaItems : list FMEAItem;
  snap_solutions : list Solution;
  controlItems : ControlItems
}.

(** The [canComplete] of the component rendered for a phase. *)
Definition canComplete (ph : Phase) (s : Snapshot) : bool :=
  match ph with
  | DEFINE =>
      DefinePhase_canComplete (requirements s) (ctqItems s) (constraints s)
  | MEASURE => MeasurePhase_canComplete (kpis s)
  | ANALYZE => AnalyzePhase_canComplete (snap_fmeaItems s)
  | IMPROVE => ImprovePhase_canComplete (snap_solutions s)
  | CONTROL => allItemsComplete (controlItems s)
  | COMPLETED => false
  end.

(** A click on the button that completes the current phase. *)
Definition completeClick (s : Snapshot) (project : Project) : Project :=
  match current_phase project with
  | DEFINE | MEASURE | ANALYZE | IMPROVE =>
      if canComplete (current_phase project) s then advancePhase project
      else project
  | CONTROL =>
      if allItemsComplete (controlItems s) then markProjectComplete project
      else project
  | COMPLETED => project
  end.

End Dashboard.

(** ** Outcomes of a tool call: a result or a thrown [Error] *)

Inductive outcome (A : Type) : Type :=
| Ok (a : A)
| Throw (msg : string).
Arguments Ok {A} a.
Arguments Throw {A} msg.

(** A JavaScript object used as a record with insertion-ordered keys:
    assignment replaces the value of a key that is there and appends a
    new key. *)
Fixpoint obj_set {K V : Type} `{EqDecision K} (k : K) (v : V)
    (o : list (K * V)) : list (K * V) :=
  match o with
  | [] => [(k, v)]
  | (k', v') :: o' =>
      if decide (k = k') then (k, v) :: o' else (k', v') :: obj_set k v o'
  end.

Fixpoint obj_get {K V : Type} `{EqDecision K} (k : K) (o : list (K * V))
    : option V :=
  match o with
  | [] => None
  | (k', v') :: o' => if decide (k = k') then Some v' else obj_get k o'
  end.

(** ** The JavaScript protocol server (mcp-server/six-sigma-server.js) *)

Module Server.
Export Schema (Phase, DEFINE, MEASURE, ANALYZE, IMPROVE, CONTROL, COMPLETED).
Import Dashboard (Phase_eq_dec).

(** [metrics.risk_level]. *)
Inductive RiskLabel : Type := UNKNOWN | LOW | MEDIUM | HIGH.

#[global] Instance RiskLabel_eq_dec : EqDecision RiskLabel.
Proof. solve_decision. Defined.

Inductive Level : Type := lvLOW | lvMEDIUM | lvHIGH.

#[global] Instance Level_eq_dec : EqDecision Level.
Proof. solve_decision. Defined.

(** [initializePhaseGates]: the criteria names of each phase. *)
Definition phaseGates : list (Phase * list string) :=
  [ (DEFINE, ["voc_complete"; "ctq_defined"; "constraints_documented";
              "sipoc_created"]);
    (MEASURE, ["kpis_defined"; "baseline_established";
               "measurement_system_validated"]);
    (ANALYZE, ["root_cause_identified"; "fmea_complete";
               "statistical_analysis"]);
    (IMPROVE, ["solution_generated"; "pilot_tested"; "risk_mitigation"]);
    (CONTROL, ["control_plan"; "monitoring_setup"; "training_complete"]) ].

(** An entry of [phase_status]. *)
Inductive PhaseStatus : Type :=
| NOT_STARTED
| IN_PROGRESS (started_at : string)
| PHASE_COMPLETED (completed_at : string).

(** *** FMEA ([conductFMEA]) *)

Record FailureMode : Type := mkFailureMode {
  mode : string;
  severity : Z;
  occurrence : Z;
  detection : Z;
  rpn : Z;
  fm_risk_level : Level
}.

Record FMEA : Type := mkFMEA {
  failure_modes : list FailureMode;
  high_risk_count : Z;
  total_rpn : Z;
  average_rpn : Z
}.

Inductive Depth : Type := standard | comprehensive.

Definition conductFMEA (depth : Depth) : FMEA :=
  let failureModes :=
    ([ mkFailureMode "Database connection failure" 9 3 2 54 lvHIGH;
       mkFailureMode "API timeout" 7 5 3 105 lvHIGH;
       mkFailureMode "Memory leak" 8 2 7 112 lvHIGH;
       mkFailureMode "Authentication failure" 6 2 2 24 lvMEDIUM ]
     ++ match depth with
        | comprehensive => [mkFailureMode "Data corruption" 10 1 5 50 lvHIGH]
        | standard => []
        end)%list in
  let highRiskModes :=
    filter (fun fm => bool_decide (fm_risk_level fm = lvHIGH)) failureModes in
  let totalRPN := fold_left (fun sum fm => sum + rpn fm) failureModes 0 in
  mkFMEA failureModes (Z.of_nat (length highRiskModes)) totalRPN
    (JS.Math_round (inject_Z totalRPN
                    / inject_Z (Z.of_nat (length failureModes)))%Q).

(** [calculateRiskLevel]; [None] is a missing [fmea]. *)
Definition calculateRiskLevel (fmea : option FMEA) : RiskLabel :=
  match fmea with
  | None => UNKNOWN
  | Some fmea =>
      let avgRPN := average_rpn fmea in
      if 100 <? avgRPN then HIGH
      else if 50 <? avgRPN then MEDIUM
      else LOW
  end.

(** *** Solutions ([generateSolutions], [evaluateSolutions]) *)

Record Solution : Type := mkSolution {
  sol_name : string;
  expected_improvement : Q;
  effort : Level;
  risk : Level;
  cost : Q
}.

Inductive SolutionApproach : Type := incremental | redesign | innovative.

Definition generateSolutions (approach : SolutionApproach) : list Solution :=
  (match approach with
   | incremental =>
       [mkSolution "Quick Wins Package" 25 lvLOW lvLOW 10000]
   | redesign =>
       [mkSolution "Architecture Redesign" 60 lvHIGH lvMEDIUM 100000;
        mkSolution "Performance Optimization Suite" 45 lvMEDIUM lvLOW 50000]
   | innovative =>
       [mkSolution "AI-Powered Auto-Scaling" 70 lvHIGH lvHIGH 150000]
   end ++ [mkSolution "Monitoring Enhancement" 20 lvLOW lvLOW 20000])%list.

(** [{ ...solution, score }]. *)
Record ScoredSolution : Type := mkScored {
  scored : Solution;
  score : Q
}.

Definition scoreSolution (solution : Solution) : ScoredSolution :=
  let impactScore := (expected_improvement solution / 100)%Q in
  let effortScore :=
    match effort solution with
    | lvLOW => 1%Q | lvMEDIUM => (1 # 2)%Q | lvHIGH => (1 # 4)%Q
    end in
  let riskScore :=
    match risk solution with
    | lvLOW => 1%Q | lvMEDIUM => (7 # 10)%Q | lvHIGH => (4 # 10)%Q
    end in
  let costScore := (1 - cost solution / 200000)%Q in
  mkScored solution
    ((impactScore * (4 # 10)) + (effortScore * (2 # 10))
     + (riskScore * (2 # 10)) + (costScore * (2 # 10)))%Q.

(** [(a, b) => b.score - a.score]. *)
Definition by_score_desc (a b : ScoredSolution) : Q := (score b - score a)%Q.

Record Evaluation : Type := mkEvaluation {
  all_solutions : list ScoredSolution;
  selected_solution : option ScoredSolution
}.

Definition evaluateSolutions (solutions : list Solution) : Evaluation :=
  let scoredSolutions := Array_sort by_score_desc (map scoreSolution solutions) in
  mkEvaluation scoredSolutions (head scoredSolutions).

(** *** Project state *)

(** [project.artifacts].  The define, measure and control payloads are
    fixed text, simulated measurements and copies of project fields that
    never feed back into the phase or the metrics; they are represented
    by their [completed_at] stamp. *)
Record AnalyzeArtifacts : Type := mkAnalyzeArtifacts {
  fmea : FMEA;
  analysis_depth : Depth;
  analyze_completed_at : string
}.

Record ImproveArtifacts : Type := mkImproveArtifacts {
  proposed_solutions : list Solution;
  solution_evaluation : Evaluation;
  improve_approach : SolutionApproach;
  improve_completed_at : string
}.

Record Artifacts : Type := mkArtifacts {
  define : option string;
  measure : option string;
  analyze : option AnalyzeArtifacts;
  improve : option ImproveArtifacts;
  control : option string
}.

Record Metrics : Type := mkMetrics {
  quality_score : Z;
  phase_completion : Q;
  risk_level : RiskLabel
}.

Record Project : Type := mkProject {
  id : string;
  name : string;
  business_case : string;
  requirements : list string;
  deployment_target : string;
  budget_limit : Q;
  timeline_days : Q;
  created_at : string;
  current_phase : Phase;
  phase_status : list (Phase * PhaseStatus);
  artifacts : Artifacts;
  metrics : Metrics;
  gate_criteria : list (Phase * list (string * bool))
}.

Definition with_phase (ph : Phase) (p : Project) : Project :=
  mkProject (id p) (name p) (business_case p) (requirements p)
    (deployment_target p) (budget_limit p) (timeline_days p) (created_at p) ph (phase_status p) (artifacts p) (metrics p)
    (gate_criteria p).

Definition with_phase_status (k : Phase) (s : PhaseStatus) (p : Project)
  : Project :=
  mkProject (id p) (name p) (business_case p) (requirements p)
    (deployment_target p) (budget_limit p) (timeline_days p) (created_at p) (current_phase p) (obj_set k s (phase_status p))
    (artifacts p) (metrics p) (gate_criteria p).

Definition with_artifacts (a : Artifacts) (p : Project) : Project :=
  mkProject (id p) (name p) (business_case p) (requirements p)
    (deployment_target p) (budget_limit p) (timeline_days p) (created_at p) (current_phase p) (phase_status p) a (metrics p)
    (gate_criteria p).

Definition with_metrics (m : Metrics) (p : Project) : Project :=
  mkProject (id p) (name p) (business_case p) (requirements p)
    (deployment_target p) (budget_limit p) (timeline_days p) (created_at p) (current_phase p) (phase_status p) (artifacts p) m
    (gate_criteria p).

Definition with_gate_criteria (k : Phase) (c : list (string * bool))
    (p : Project) : Project :=
  mkProject (id p) (name p) (business_case p) (requirements p)
    (deployment_target p) (budget_limit p) (timeline_days p) (created_at p) (current_phase p) (phase_status p) (artifacts p)
    (metrics p) (obj_set k c (gate_criteria p)).

Definition with_phase_completion (pc : Q) (p : Project) : Project :=
  with_metrics (mkMetrics (quality_score (metrics p)) pc
                  (risk_level (metrics p))) p.

Definition with_quality_score (q : Z) (p : Project) : Project :=
  with_metrics (mkMetrics q (phase_completion (metrics p))
                  (risk_level (metrics p))) p.

Definition with_risk_level (r : RiskLabel) (p : Project) : Project :=
  with_metrics (mkMetrics (quality_score (metrics p))
                  (phase_completion (metrics p)) r) p.

(** *** [calculateQualityScore] *)

(** [Object.values(this.phaseGates).reduce((sum, phase) =>
    sum + phase.criteria.length, 0)]. *)
Definition totalGates : Z :=
  fold_left (fun sum phase => sum + Z.of_nat (length phase.2)) phaseGates 0.

(** [Object.values(project.gate_criteria).reduce((sum, phase) =>
    sum + Object.values(phase).filter(Boolean).length, 0)]. *)
Definition metGates (project : Project) : Z :=
  fold_left
    (fun sum phase =>
       sum + Z.of_nat (length (filter (fun c => Is_true c.2) phase.2)))
    (gate_criteria project) 0.

Definition riskScore (r : RiskLabel) : Q :=
  match r with
  | LOW => 30
  | MEDIUM => 20
  | _ => 10
  end.

(** The sum before rounding. *)
Definition rawQualityScore (project : Project) : Q :=
  (0 + phase_completion (metrics project) * (4 # 10)
   + (inject_Z (metGates project) / inject_Z totalGates) * 30
   + riskScore (risk_level (metrics project)))%Q.

Definition calculateQualityScore (project : Project) : Z :=
  JS.Math_round (rawQualityScore project).

(** *** The tools

    [projects] is [this.projects], a [Map] from project identifiers to
    project objects; a tool mutates the object it looks up.  [now] is
    the clock reading of the call. *)

Definition Projects : Type := gmap string Project.

Definition createProject (projectId now : string) (project_name : string)
    (case : string) (reqs : list string) (target : option string)
    (budget timeline : option Q) (projects : Projects) : Projects :=
  <[projectId :=
      mkProject projectId project_name case reqs
        (default "Not specified" target) (default 0%Q budget)
        (default 90%Q timeline) now DEFINE
        [ (DEFINE, IN_PROGRESS now); (MEASURE, NOT_STARTED);
          (ANALYZE, NOT_STARTED); (IMPROVE, NOT_STARTED);
          (CONTROL, NOT_STARTED) ]
        (mkArtifacts None None None None None)
        (mkMetrics 0 0 UNKNOWN) [] ]> projects.

Definition phase_name (ph : Phase) : string :=
  match ph with
  | DEFINE => "DEFINE" | MEASURE => "MEASURE" | ANALYZE => "ANALYZE"
  | IMPROVE => "IMPROVE" | CONTROL => "CONTROL" | COMPLETED => "COMPLETED"
  end.

Definition recompute_quality (p : Project) : Project :=
  with_quality_score (calculateQualityScore p) p.

Definition definePhase (now : string) (project_id : string)
    (projects : Projects) : outcome Projects :=
  match projects !! project_id with
  | None => Throw "Project not found"
  | Some project =>
      if negb (bool_decide (current_phase project = DEFINE))
      then Throw (String.append
                    "Cannot execute Define phase. Current phase is "
                    (phase_name (current_phase project)))
      else
        let a := artifacts project in
        let p1 := with_artifacts
                    (mkArtifacts (Some now) (measure a) (analyze a)
                       (improve a) (control a)) project in
        let p2 := with_gate_criteria DEFINE
                    [ ("voc_complete", true); ("ctq_defined", true);
                      ("constraints_documented", true);
                      ("sipoc_created", true) ] p1 in
        let p3 := with_phase_completion 20 p2 in
        Ok (<[project_id := recompute_quality p3]> projects)
  end.

Definition measurePhase (now : string) (project_id : string)
    (projects : Projects) : outcome Projects :=
  match projects !! project_id with
  | None => Throw "Project not found"
  | Some project =>
      if negb (bool_decide (current_phase project = DEFINE))
         && negb (bool_decide (current_phase project = MEASURE))
      then Throw (String.append
                    "Cannot execute Measure phase. Current phase is "
                    (phase_name (current_phase project)))
      else
        match define (artifacts project) with
        | None => Throw "TypeError: Cannot read properties of undefined"
        | Some _ =>
            let a := artifacts project in
            let p1 := with_artifacts
                        (mkArtifacts (define a) (Some now) (analyze a)
                           (improve a) (control a)) project in
            let p2 := with_phase ANALYZE p1 in
            let p3 := with_phase_status MEASURE (PHASE_COMPLETED now) p2 in
            let p4 := with_phase_status ANALYZE (IN_PROGRESS now) p3 in
            let p5 := with_phase_completion 40 p4 in
            Ok (<[project_id := recompute_quality p5]> projects)
        end
  end.

Definition analyzePhase (now : string) (project_id : string)
    (analysis_depth : option Depth) (projects : Projects)
  : outcome Projects :=
  match projects !! project_id with
  | None => Throw "Project not found"
  | Some project =>
      let analysisDepth := default standard analysis_depth in
      let fmea := conductFMEA analysisDepth in
      let a := artifacts project in
      let p1 := with_artifacts
                  (mkArtifacts (define a) (measure a)
                     (Some (mkAnalyzeArtifacts fmea analysisDepth now))
                     (improve a) (control a)) project in
      let p2 := with_phase IMPROVE p1 in
      let p3 := with_phase_status ANALYZE (PHASE_COMPLETED now) p2 in
      let p4 := with_phase_status IMPROVE (IN_PROGRESS now) p3 in
      let p5 := with_phase_completion 60 p4 in
      Ok (<[project_id :=
              with_risk_level (calculateRiskLevel (Some fmea)) p5]> projects)
  end.

Definition improvePhase (now : string) (project_id : string)
    (solution_approach : option SolutionApproach) (projects : Projects)
  : outcome Projects :=
  match projects !! project_id with
  | None => Throw "Project not found"
  | Some project =>
      let approach := default redesign solution_approach in
      let solutions := generateSolutions approach in
      let evaluation := evaluateSolutions solutions in
      let a := artifacts project in
      let p1 := with_artifacts
                  (mkArtifacts (define a) (measure a) (analyze a)
                     (Some (mkImproveArtifacts solutions evaluation
                              approach now))
                     (control a)) project in
      let p2 := with_phase CONTROL p1 in
      let p3 := with_phase_status IMPROVE (PHASE_COMPLETED now) p2 in
      let p4 := with_phase_status CONTROL (IN_PROGRESS now) p3 in
      let p5 := with_phase_completion 80 p4 in
      Ok (<[project_id := recompute_quality p5]> projects)
  end.

Definition controlPhase (now : string) (project_id : string)
    (projects : Projects) : outcome Projects :=
  match projects !! project_id with
  | None => Throw "Project not found"
  | Some project =>
      let a := artifacts project in
      let p1 := with_artifacts
                  (mkArtifacts (define a) (measure a) (analyze a)
                     (improve a) (Some now)) project in
      let p2 := with_phase COMPLETED p1 in
      let p3 := with_phase_status CONTROL (PHASE_COMPLETED now) p2 in
      let p4 := with_phase_completion 100 p3 in
      Ok (<[project_id := recompute_quality p4]> projects)
  end.

(** [checkPhaseGate]: [None] for a completed project, else whether all
    criteria of the current phase are recorded as met. *)
Definition checkPhaseGate (project_id : string) (projects : Projects)
  : outcome (option bool) :=
  match projects !! project_id with
  | None => Throw "Project not found"
  | Some project =>
      let currentPhase := current_phase project in
      if bool_decide (currentPhase = COMPLETED) then Ok None
      else
        let gateCriteria := default [] (obj_get currentPhase phaseGates) in
        let criteriaStatus :=
          default [] (obj_get currentPhase (gate_criteria project)) in
        Ok (Some (forallb
                    (fun criterion =>
                       default false (obj_get criterion criteriaStatus))
                    gateCriteria))
  end.

End Server.

(** ** The TypeScript protocol server (mcp-server/src/index.ts) *)

Module TsServer.

Inductive DMAICPhase : Type :=
| NONE | DEFINE | MEASURE | ANALYZE | IMPROVE | CONTROL.

#[global] Instance DMAICPhase_eq_dec : EqDecision DMAICPhase.
Proof. solve_decision. Defined.

Definition phase_name (ph : DMAICPhase) : string :=
  match ph with
  | NONE => "NONE" | DEFINE => "DEFINE" | MEASURE => "MEASURE"
  | ANALYZE => "ANALYZE" | IMPROVE => "IMPROVE" | CONTROL => "CONTROL"
  end.

(** *** Process capability *)

Record KPI : Type := mkKPI {
  name : string;
  target : Q
}.

(** The fields of [MeasureArtifacts] that [analyzeProcessCapability]
    reads. *)
Record MeasureArtifacts : Type := mkMeasureArtifacts {
  kpis : list KPI;
  baselines : gmap string Q
}.

Record ProcessCapability : Type := mkProcessCapability {
  cp : Q;
  cpk : Q;
  sigma_level : Z;
  defects_per_million : Q
}.

(** [measureData.baselines[kpi.name] || 0]. *)
Definition baseline_of (measureData : MeasureArtifacts) (kpi : KPI) : Q :=
  default 0%Q (baselines measureData !! name kpi).

(** The body of the [forEach]: the counters after one KPI. *)
Definition count_kpi (measureData : MeasureArtifacts) (acc : Z * Z)
    (kpi : KPI) : Z * Z :=
  let baseline := baseline_of measureData kpi in
  let totalDefects :=
    if JS.ltb baseline (target kpi * (9 # 10))%Q then acc.1 + 1 else acc.1 in
  (totalDefects, acc.2 + 1).

Definition sigmaLevel (dpmo : Q) : Z :=
  if JS.gtb dpmo 690000 then 1
  else if JS.gtb dpmo 308000 then 2
  else if JS.gtb dpmo 66800 then 3
  else if JS.gtb dpmo 6210 then 4
  else if JS.gtb dpmo 233 then 5
  else 6.

(** [analyzeProcessCapability].  With no KPI the rate is [0 / 0], a NaN,
    which rationals do not have: [None]. *)
Definition analyzeProcessCapability (measureData : MeasureArtifacts)
  : option ProcessCapability :=
  let '(totalDefects, totalOpportunities) :=
    fold_left (count_kpi measureData) (kpis measureData) (0, 0) in
  if totalOpportunities =? 0 then None
  else
    let defectRate := (inject_Z totalDefects / inject_Z totalOpportunities)%Q in
    let dpmo := (defectRate * 1000000)%Q in
    let cp := ((133 # 100) - (defectRate * 2))%Q in
    let cpk := (cp * (9 # 10))%Q in
    Some (mkProcessCapability (JS.Math_max (1 # 2) cp)
            (JS.Math_max (4 # 10) cpk) (sigmaLevel dpmo) dpmo).

(** *** The Define tool *)

(** The parts of the Define artifacts that the quality gate reads. *)
Record VOCAnalysis : Type := mkVOCAnalysis {
  functional_requirements : list string;
  non_functional_requirements : list string;
  must_have : list string
}.

(** The keys of the four records of the CTQ tree. *)
Record CTQTree : Type := mkCTQTree {
  performance : list string;
  reliability : list string;
  usability : list string;
  security : list string
}.

Record Constraints : Type := mkConstraints {
  deployment : string;
  budget : Q
}.

Record SIPOCDiagram : Type := mkSIPOCDiagram {
  process_steps : list string
}.

Record DefineArtifacts : Type := mkDefineArtifacts {
  voc_analysis : VOCAnalysis;
  ctq_tree : CTQTree;
  constraints : Constraints;
  sipoc_diagram : SIPOCDiagram
}.

Record QualityGateResult : Type := mkQualityGateResult {
  passed : bool;
  criteria_results : list (string * bool);
  missing_items : list string;
  recommendations : list string
}.

Definition gt0 {A : Type} (l : list A) : bool := 0 <? Z.of_nat (length l).

Definition checkDefinePhaseQualityGate (artifacts : DefineArtifacts)
  : QualityGateResult :=
  let criteriaResults :=
    [ ("VOC Analysis Complete",
       gt0 (functional_requirements (voc_analysis artifacts)));
      ("CTQ Tree Defined",
       gt0 (performance (ctq_tree artifacts))
       || gt0 (reliability (ctq_tree artifacts)));
      ("Constraints Documented",
       negb (String.eqb (deployment (constraints artifacts)) "Not specified"));
      ("SIPOC Diagram Created",
       gt0 (process_steps (sipoc_diagram artifacts)));
      ("Priority Matrix Defined", gt0 (must_have (voc_analysis artifacts))) ] in
  let result := fun k => default false (obj_get k criteriaResults) in
  mkQualityGateResult
    (forallb (fun result => result) (snd <$> criteriaResults))
    criteriaResults
    (fst <$> filter (fun c => Is_true (negb c.2)) criteriaResults)
    ((if negb (result "VOC Analysis Complete")
      then ["Complete Voice of Customer analysis with stakeholder input"]
      else [])
     ++ (if negb (result "CTQ Tree Defined")
         then ["Define measurable quality metrics in CTQ tree"] else [])
     ++ (if negb (result "Constraints Documented")
         then ["Specify deployment target and technical constraints"]
         else []))%list.

(** The project state; of the per-phase slots of [artifacts] and
    [quality_gates] only the ones the Define tool writes are kept. *)
Record ProjectState : Type := mkProjectState {
  id : string;
  project_name : string;
  business_case : string;
  requirements : list string;
  deployment_target : string;
  budget_limit : Q;
  created_at : string;
  current_phase : DMAICPhase;
  artifacts_define : option DefineArtifacts;
  quality_gates_define : option QualityGateResult
}.

(** An entry of [sharedResources].  The [_state] entry holds the project
    object itself, hence a reference. *)
Inductive Shared : Type :=
| SharedState (project_id : string)
| SharedEmpty
| SharedVOC (v : VOCAnalysis)
| SharedCTQ (c : CTQTree)
| SharedConstraints (c : Constraints).

Record ServerState : Type := mkServerState {
  projectState : gmap string ProjectState;
  sharedResources : gmap string Shared
}.

(** The builders of the Define artifacts classify requirement texts and
    fill in fixed tables; the tool is embedded over any such builders. *)
Section DefineTool.
Variable Stakeholders : Type.
Variable performVOCAnalysis :
  list string -> option Stakeholders -> VOCAnalysis.
Variable generateCTQTree : VOCAnalysis -> CTQTree.
Variable createSIPOCDiagram : ProjectState -> SIPOCDiagram.

Definition documentConstraints (project : ProjectState) : Constraints :=
  mkConstraints (deployment_target project) (budget_limit project).

Definition definePhase (project_id : string)
    (stakeholders : option Stakeholders) (st : ServerState)
  : outcome ServerState :=
  match projectState st !! project_id with
  | None => Throw "Project not found"
  | Some project =>
      if negb (bool_decide (current_phase project = DEFINE))
      then Throw (String.append "Project is in "
                    (String.append (phase_name (current_phase project))
                       " phase. Expected DEFINE phase."))
      else
        let vocAnalysis :=
          performVOCAnalysis (requirements project) stakeholders in
        let ctqTree := generateCTQTree vocAnalysis in
        let constraints := documentConstraints project in
        let sipocDiagram := createSIPOCDiagram project in
        let defineArtifacts :=
          mkDefineArtifacts vocAnalysis ctqTree constraints sipocDiagram in
        let qualityGate := checkDefinePhaseQualityGate defineArtifacts in
        let project' :=
          mkProjectState (id project) (project_name project)
            (business_case project) (requirements project)
            (deployment_target project) (budget_limit project)
            (created_at project)
            (if passed qualityGate then MEASURE else current_phase project)
            (Some defineArtifacts) (Some qualityGate) in
        Ok (mkServerState
              (<[project_id := project']> (projectState st))
              (<[String.append (id project) "_constraints" :=
                   SharedConstraints constraints]>
                 (<[String.append (id project) "_ctq" := SharedCTQ ctqTree]>
                    (<[String.append (id project) "_voc" :=
                         SharedVOC vocAnalysis]> (sharedResources st)))))
  end.
End DefineTool.

End TsServer.

(** ** The quality gate manager of the modular server
    (shared/quality-gates.ts) *)

Module QualityGates.

Inductive DMAICPhase : Type :=
| DEFINE | MEASURE | ANALYZE | IMPROVE | CONTROL | COMPLETE.

#[global] Instance DMAICPhase_eq_dec : EqDecision DMAICPhase.
Proof. solve_decision. Defined.

(** The artifacts the validators read; an absent or empty part is
    [None] (the validators test for truthiness). *)
Record VOCAnalysis : Type := mkVOCAnalysis {
  customer_needs : list string;
  must_have : list string
}.

(** [ctq_tree.customer_needs]: for each need the number of its
    metrics. *)
Record CTQTree : Type := mkCTQTree {
  ctq_customer_needs : list (string * Z)
}.

Record ProjectConstraints : Type := mkProjectConstraints {
  technical : bool;
  deployment : bool;
  budget : bool
}.

Record ProjectCharter : Type := mkProjectCharter {
  problem_statement : string;
  goal_statement : string;
  deliverables : list string
}.

Record DefineArtifacts : Type := mkDefineArtifacts {
  voc_analysis : option VOCAnalysis;
  ctq_tree : option CTQTree;
  constraints : option ProjectConstraints;
  project_charter : option ProjectCharter
}.

(** A KPI; [None] is an undefined [target]. *)
Record KPI : Type := mkKPI {
  kpi_name : string;
  target : option Q
}.

Record MeasureArtifacts : Type := mkMeasureArtifacts {
  kpis : option (list KPI)
}.

Record ProjectState : Type := mkProjectState {
  current_phase : DMAICPhase;
  define : option DefineArtifacts;
  measure : option MeasureArtifacts
}.

Record CriteriaResult : Type := mkCriteriaResult {
  criterion : string;
  passed : bool
}.

Definition nonempty {A : Type} (l : list A) : bool :=
  0 <? Z.of_nat (length l).

Definition truthy (s : string) : bool := negb (String.eqb s "").

Definition validateVOCComplete (project : ProjectState) : CriteriaResult :=
  let hasVOC :=
    match define project ≫= voc_analysis with
    | Some voc => nonempty (customer_needs voc) && nonempty (must_have voc)
    | None => false
    end in
  mkCriteriaResult "VOC_COMPLETE" hasVOC.

Definition validateCTQDefined (project : ProjectState) : CriteriaResult :=
  let tree := define project ≫= ctq_tree in
  let hasCTQ :=
    match tree with
    | Some t => nonempty (ctq_customer_needs t)
    | None => false
    end in
  let metricsCount :=
    match tree with
    | Some t =>
        if hasCTQ
        then fold_left (fun n need => n + need.2) (ctq_customer_needs t) 0
        else 0
    | None => 0
    end in
  mkCriteriaResult "CTQ_DEFINED" (hasCTQ && (0 <? metricsCount)).

Definition validateConstraintsDocumented (project : ProjectState)
  : CriteriaResult :=
  let hasConstraints :=
    match define project ≫= constraints with
    | Some c => technical c && deployment c && budget c
    | None => false
    end in
  mkCriteriaResult "CONSTRAINTS_DOCUMENTED" hasConstraints.

Definition validateProjectCharter (project : ProjectState) : CriteriaResult :=
  let hasCharter :=
    match define project ≫= project_charter with
    | Some c =>
        truthy (problem_statement c) && truthy (goal_statement c)
        && nonempty (deliverables c)
    | None => false
    end in
  mkCriteriaResult "PROJECT_CHARTER_APPROVED" hasCharter.

Definition validateKPIsDefined (project : ProjectState) : CriteriaResult :=
  let ks := measure project ≫= kpis in
  let kpiCount := Z.of_nat (length (default [] ks)) in
  let hasValidKPIs :=
    (0 <? kpiCount)
    && forallb (fun kpi => bool_decide (is_Some (target kpi))) (default [] ks) in
  mkCriteriaResult "KPIS_DEFINED" hasValidKPIs.

Definition createPlaceholderResult (criterion : string) (passed : bool)
  : CriteriaResult :=
  mkCriteriaResult criterion passed.

(** [initializeGateCriteria]: the validators of each gate; [None] for a
    key that was never set. *)
Definition gatesCriteria (fromPhase toPhase : DMAICPhase)
  : option (list (ProjectState -> CriteriaResult)) :=
  match fromPhase, toPhase with
  | DEFINE, MEASURE =>
      Some [validateVOCComplete; validateCTQDefined;
            validateConstraintsDocumented; validateProjectCharter]
  | MEASURE, ANALYZE =>
      Some [validateKPIsDefined;
            fun _ => createPlaceholderResult "BASELINES_ESTABLISHED" true;
            fun _ => createPlaceholderResult "MEASUREMENT_PLAN_COMPLETE" true]
  | ANALYZE, IMPROVE =>
      Some [fun _ => createPlaceholderResult "ROOT_CAUSES_IDENTIFIED" true;
            fun _ => createPlaceholderResult "FMEA_COMPLETE" true;
            fun _ => createPlaceholderResult "PROCESS_INEFFICIENCIES_MAPPED" true]
  | IMPROVE, CONTROL =>
      Some [fun _ => createPlaceholderResult "SOLUTION_VALIDATED" true;
            fun _ => createPlaceholderResult "PILOT_SUCCESSFUL" true;
            fun _ => createPlaceholderResult "IMPLEMENTATION_PLAN_READY" true]
  | CONTROL, COMPLETE =>
      Some [fun _ => createPlaceholderResult "CONTROL_PLAN_ACTIVE" true;
            fun _ => createPlaceholderResult "MONITORING_OPERATIONAL" true;
            fun _ => createPlaceholderResult "TRAINING_COMPLETE" true;
            fun _ => createPlaceholderResult "METRICS_STABLE" true]
  | _, _ => None
  end.

Record QualityGateResult : Type := mkQualityGateResult {
  gate_passed : bool;
  criteria_results : list CriteriaResult;
  overall_score : Q
}.

(** The loop of [evaluateGate] and its 80 percent threshold. *)
Definition evaluate (criteria : list (ProjectState -> CriteriaResult))
    (project : ProjectState) : QualityGateResult :=
  let criteriaResults := map (fun validator => validator project) criteria in
  let passedCount :=
    Z.of_nat (length (filter (fun r => Is_true (passed r)) criteriaResults)) in
  let overallScore :=
    ((inject_Z passedCount / inject_Z (Z.of_nat (length criteria))) * 100)%Q in
  mkQualityGateResult (Qle_bool 80 overallScore) criteriaResults overallScore.

Definition evaluateGate (project : ProjectState)
    (fromPhase toPhase : DMAICPhase) : outcome QualityGateResult :=
  match gatesCriteria fromPhase toPhase with
  | None => Throw "No quality gate defined"
  | Some criteria => Ok (evaluate criteria project)
  end.

End QualityGates.

(** ** The specification's formulas, in its own words *)

Module Spec.
Import Schema.

(** The fixed sequence DEFINE, MEASURE, ANALYZE, IMPROVE, CONTROL,
    COMPLETED: positions and immediate successors. *)
Definition phase_index (ph : Phase) : Z :=
  match ph with
  | DEFINE => 0 | MEASURE => 1 | ANALYZE => 2
  | IMPROVE => 3 | CONTROL => 4 | COMPLETED => 5
  end.

Definition successor (ph : Phase) : Phase :=
  match ph with
  | DEFINE => MEASURE | MEASURE => ANALYZE | ANALYZE => IMPROVE
  | IMPROVE => CONTROL | CONTROL => COMPLETED | COMPLETED => COMPLETED
  end.

(** [(newPhaseIndex + 1) / 5 × 100]. *)
Definition completion (newPhaseIndex : Z) : Q :=
  (inject_Z (newPhaseIndex + 1) / 5 * 100)%Q.




(** Risk level from the average risk priority number. *)
Definition total_rpn (items : list FMEAItem) : Z :=
  fold_right (fun i acc => rpn i + acc) 0 items.

Definition average_rpn (items : list FMEAItem) : Q :=
  (inject_Z (total_rpn items) / inject_Z (Z.of_nat (length items)))%Q.

Definition risk_level (items : list FMEAItem) : RiskLevel :=
  match items with
  | [] => LOW
  | _ =>
      if Qle_bool (average_rpn items) 150 then LOW
      else if Qle_bool (average_rpn items) 300 then MEDIUM
      else HIGH
  end.

(** Composite quality score. *)
Definition risk_contribution (r : RiskLevel) : Q :=
  match r with LOW => 30 | MEDIUM => 20 | HIGH => 10 end.

Definition clamp (lo hi x : Q) : Q := Qmax lo (Qmin hi x).

Definition quality_score (phase_completion : Q) (met total : Z)
    (r : RiskLevel) : Q :=
  clamp 0 100
    ((4 # 10) * phase_completion
     + (3 # 10) * (inject_Z met / inject_Z total * 100)
     + (3 # 10) * risk_contribution r)%Q.




(** Solution score. *)
Definition total_score (impact effort risk cost : Q) : Q :=
  (impact * 2 - effort - risk - cost)%Q.

End Spec.

(** ** The scenarios of the specification, as inputs *)

Module Scenarios.
Import Schema.

Definition no_items : Dashboard.ControlItems :=
  Dashboard.mkControlItems false false false false.

Definition all_items : Dashboard.ControlItems :=
  Dashboard.mkControlItems true true true true.

Definition project_in (ph : Phase) (pc : Q) : Project :=
  mkProject "p1" "Checkout latency" "Reduce latency" ph 0 LOW pc.

(** Scenario A: three requirements, two CTQ items, one constraint. *)
Definition snapshotA : Dashboard.Snapshot :=
  Dashboard.mkSnapshot
    [mkRequirement "r1" "fast" functional MEDIUM;
     mkRequirement "r2" "safe" functional MEDIUM;
     mkRequirement "r3" "cheap" functional MEDIUM]
    [mkCTQItem "c1" "speed" "latency" "p95" 200 500;
     mkCTQItem "c2" "uptime" "outages" "availability" 99 100]
    [mkConstraint "k1" business "budget" MEDIUM]
    [] [] [] no_items.

Definition projectA : Project := project_in DEFINE 0.

(** Scenario B: one risk item with severity 9, occurrence 6 and
    detection 7, entered in the form of [AnalyzePhase]. *)
Definition formB : Dashboard.fmea_form :=
  Dashboard.mkFmeaForm "Database connection timeout" "outage" "pool" 9 6 7.

Definition formB' : Dashboard.fmea_form :=
  Dashboard.mkFmeaForm "Stale cache" "wrong totals" "no invalidation" 5 5 5.

Definition worldB : Dashboard.AnalyzeWorld :=
  Dashboard.mkAnalyzeWorld (project_in ANALYZE 60) [] [].

(** Scenario C: impact 8, effort 4, risk 3, cost 3. *)
Definition formC : Dashboard.solution_form :=
  Dashboard.mkSolutionForm "Add indexes" "index the hot queries"
    incremental 8 4 3 3.

(** Scenario D: CONTROL with three of the four flags, and with all. *)
Definition snapshotD : Dashboard.Snapshot :=
  Dashboard.mkSnapshot [] [] [] [] [] []
    (Dashboard.mkControlItems true true true false).

Definition snapshotD_ready : Dashboard.Snapshot :=
  Dashboard.mkSnapshot [] [] [] [] [] [] all_items.

Definition projectD : Project := project_in CONTROL 100.


End Scenarios.

(** ** Invariants of the stored rows *)

Module Invariants.
Import Schema.

(** A risk item: the three inputs in [1,10], the risk priority number
    their product and in [1,1000]. *)
Definition risk_item_ok (r : FMEAItem) : Prop :=
  1 <= severity r <= 10 /\ 1 <= occurrence r <= 10
  /\ 1 <= detection r <= 10
  /\ rpn r = severity r * occurrence r * detection r
  /\ 1 <= rpn r <= 1000.

(** Descending order of the total score. *)
Definition score_ge (a b : Solution) : Prop :=
  (total_score b <= total_score a)%Q.

End Invariants.

(** States reached from the scenarios. *)

Module Reached.
Import Schema.

(** Scenario B after the item was added. *)
Definition worldB1 : Dashboard.AnalyzeWorld :=
  Dashboard.addFmea "f1" Scenarios.formB Scenarios.worldB.

(** ... and after a second item was added. *)
Definition worldB2 : Dashboard.AnalyzeWorld :=
  Dashboard.addFmea "f2" Scenarios.formB' worldB1.


End Reached.

(** Inputs for the measurements. *)

Module MeasureInputs.


(** A KPI without a target value. *)
Definition kpi_zero_target : Schema.KPI :=
  Schema.mkKPI "k2" "Open incidents" "backlog" 0 7 "count".


(** Four KPIs, one of them below 90 percent of its target. *)
Definition four_kpis : TsServer.MeasureArtifacts :=
  TsServer.mkMeasureArtifacts
    [TsServer.mkKPI "a" 100; TsServer.mkKPI "b" 100;
     TsServer.mkKPI "c" 100; TsServer.mkKPI "d" 100]
    (<["a" := 95%Q]> (<["b" := 100%Q]> (<["c" := 90%Q]> (<["d" := 50%Q]> ∅)))).

End MeasureInputs.

(** The defect rate of the process-capability analysis. *)

Module Capability.

(** A KPI counts as a defect when its baseline is below 90 percent of
    its target. *)
Definition defective (md : TsServer.MeasureArtifacts) (kpi : TsServer.KPI)
  : bool :=
  JS.ltb (TsServer.baseline_of md kpi) (TsServer.target kpi * (9 # 10))%Q.



End Capability.

(** A run of the JavaScript server: a project is created and taken
    through the five tools. *)

Module ServerRun.

Definition and_then {A B : Type} (o : outcome A) (f : A -> outcome B)
  : outcome B :=
  match o with
  | Ok a => f a
  | Throw msg => Throw msg
  end.

Definition pid : string := "proj_1".

Definition created : Server.Projects :=
  Server.createProject pid "t0" "Checkout latency" "Reduce latency"
    ["fast checkout"; "must be safe"] None (Some 5000%Q) None ∅.

Definition after_define : outcome Server.Projects :=
  Server.definePhase "t1" pid created.

Definition after_measure : outcome Server.Projects :=
  and_then after_define (Server.measurePhase "t2" pid).

Definition after_analyze : outcome Server.Projects :=
  and_then after_measure (Server.analyzePhase "t3" pid None).

Definition after_improve : outcome Server.Projects :=
  and_then after_analyze (Server.improvePhase "t4" pid None).




(** A field of the project after a run. *)
Definition field {A : Type} (f : Server.Project -> A)
    (o : outcome Server.Projects) : option A :=
  match o with
  | Ok projects => f <$> projects !! pid
  | Throw _ => None
  end.

End ServerRun.

(** What the tools of the JavaScript server leave behind. *)

Module ServerInv.
Import Server.

(** A tool that ends in the recomputation stores the score of the
    project it leaves behind. *)
Definition stores_score (pid : string) (o : outcome Projects) : Prop :=
  match o with
  | Ok projects' =>
      exists p', projects' !! pid = Some p'
                 /\ quality_score (metrics p') = calculateQualityScore p'
  | Throw _ => True
  end.

Definition blank : Project :=
  mkProject "" "" "" [] "" 0 0 "" DEFINE []
    (mkArtifacts None None None None None) (mkMetrics 0 0 UNKNOWN) [].

(** The project [pid] after a run ([blank] if there is none). *)
Definition project_after (pid : string) (o : outcome Projects) : Project :=
  match o with
  | Ok projects => default blank (projects !! pid)
  | Throw _ => blank
  end.

End ServerInv.

(** Inputs for the Define tool of the TypeScript server: a project with
    the requirements "export orders" and "performance under load" for the
    deployment target "vercel", and the artifacts its builders return for
    it. *)

Module TsInputs.
Import TsServer.

Definition voc (_ : list string) (_ : option unit) : VOCAnalysis :=
  mkVOCAnalysis ["export orders"] ["performance under load"]
    ["export orders"].

Definition ctq (_ : VOCAnalysis) : CTQTree :=
  mkCTQTree ["page_load_time"; "api_response_time"; "concurrent_users"] []
    ["task_completion_rate"; "user_satisfaction_score";
     "time_to_complete_task"] [].

Definition sipoc (_ : ProjectState) : SIPOCDiagram :=
  mkSIPOCDiagram
    ["Requirements Gathering"; "Architecture Design"; "Development";
     "Testing"; "Deployment"; "Monitoring & Control"].

Definition project_in (ph : DMAICPhase) : ProjectState :=
  mkProjectState "proj_1" "Order export" "Faster exports"
    ["export orders"; "performance under load"] "vercel" 100 "t0" ph
    None None.

Definition state_in (ph : DMAICPhase) : ServerState :=
  mkServerState (<["proj_1" := project_in ph]> ∅)
    (<["proj_1_state" := SharedState "proj_1"]> ∅).


End TsInputs.

(** Inputs for the quality gate manager. *)

Module GateInputs.
Import QualityGates.

(** A project in MEASURE with a single KPI that has a target. *)
Definition one_kpi_project : ProjectState :=
  mkProjectState MEASURE None
    (Some (mkMeasureArtifacts (Some [mkKPI "latency" (Some 200%Q)]))).

(** Five criteria of which the first fails. *)
Definition five_criteria : list (ProjectState -> CriteriaResult) :=
  [ fun _ => createPlaceholderResult "A" false;
    fun _ => createPlaceholderResult "B" true;
    fun _ => createPlaceholderResult "C" true;
    fun _ => createPlaceholderResult "D" true;
    fun _ => createPlaceholderResult "E" true ].

(** Descending order of the score of the JavaScript server. *)
Definition server_score_ge (a b : Server.ScoredSolution) : Prop :=
  (Server.score b <= Server.score a)%Q.

End GateInputs.

(** ** The shared resource manager of the modular server
    (shared/resource-manager.ts) and the agents' access to it
    (agents/base-agent.ts) *)

Module ResourceManager.

Record ResourcePermissions : Type := mkResourcePermissions {
  read : list string;
  write : list string
}.

(** [initializePermissions]: the constructor fills the table, and no
    method changes it afterwards. *)
Definition permissions : gmap string ResourcePermissions :=
  <["control-agent" :=
      mkResourcePermissions
        ["project_state"; "solution_design"; "implementation_plan"; "kpis"]
        ["control_plan"; "monitoring_dashboard"; "sop_documents";
         "training_materials"]]>
  (<["improve-agent" :=
      mkResourcePermissions
        ["project_state"; "requirements"; "constraints";
         "root_cause_analysis"; "fmea"]
        ["solution_design"; "pilot_results"; "implementation_plan";
         "code_artifacts"]]>
  (<["analyze-agent" :=
      mkResourcePermissions
        ["project_state"; "requirements"; "ctq_tree"; "kpis"; "baselines"]
        ["root_cause_analysis"; "fmea"; "statistical_analysis";
         "process_map"]]>
  (<["measure-agent" :=
      mkResourcePermissions
        ["project_state"; "requirements"; "ctq_tree"]
        ["kpis"; "baselines"; "measurement_plan"; "data_collection_plan"]]>
  (<["define-agent" :=
      mkResourcePermissions
        ["project_state"]
        ["requirements"; "ctq_tree"; "constraints"; "sipoc_diagram";
         "project_charter"]]>
  (<["orchestrator" :=
      mkResourcePermissions
        ["*"]
        ["project_state"; "phase_transitions"; "quality_decisions"]]>
   ∅))))).

(** [Array.prototype.includes] on strings. *)
Definition includes (x : string) (l : list string) : bool :=
  existsb (String.eqb x) l.

Section Manager.
(** The values agents store ([any]). *)
Variable value : Type.

Record ResourceUpdate : Type := mkResourceUpdate {
  resource_key : string;
  upd_value : value;
  updated_by : string;
  timestamp : string;
  version : Z
}.

(** The three fields a [SharedResourceManager] changes. *)
Record SharedResourceManager : Type := mkSharedResourceManager {
  resources : gmap string value;
  updateHistory : list ResourceUpdate;
  resourceVersions : gmap string Z
}.

(** The manager the constructor returns. *)
Definition new : SharedResourceManager :=
  mkSharedResourceManager ∅ [] ∅.

(** [getResource]: [None] is the [undefined] of a key that is not
    there. *)
Definition getResource (agentId resourceKey : string)
    (m : SharedResourceManager) : outcome (option value) :=
  match permissions !! agentId with
  | None => Throw (String.append "Unknown agent: " agentId)
  | Some perms =>
      if negb (includes "*" (read perms))
         && negb (includes resourceKey (read perms))
      then Throw (String.append "Agent "
                    (String.append agentId
                       (String.append " does not have read access to "
                          resourceKey)))
      else Ok (resources m !! resourceKey)
  end.

(** [updateResource]; [now] is the clock reading of the call.  Both
    errors are thrown before anything is changed. *)
Definition updateResource (agentId resourceKey : string) (v : value)
    (now : string) (m : SharedResourceManager)
  : outcome SharedResourceManager :=
  match permissions !! agentId with
  | None => Throw (String.append "Unknown agent: " agentId)
  | Some perms =>
      if negb (includes "*" (write perms))
         && negb (includes resourceKey (write perms))
      then Throw (String.append "Agent "
                    (String.append agentId
                       (String.append " does not have write access to "
                          resourceKey)))
      else
        let currentVersion := default 0 (resourceVersions m !! resourceKey) in
        let newVersion := currentVersion + 1 in
        Ok (mkSharedResourceManager
              (<[resourceKey := v]> (resources m))
              (updateHistory m
               ++ [mkResourceUpdate resourceKey v agentId now newVersion])
              (<[resourceKey := newVersion]> (resourceVersions m)))
  end.

(** [getProjectResources]: the entries whose key starts with the
    project identifier, collected into an object. *)
Definition getProjectResources (projectId : string)
    (m : SharedResourceManager) : gmap string value :=
  map_fold
    (fun key v projectResources =>
       if String.prefix projectId key
       then <[key := v]> projectResources else projectResources)
    ∅ (resources m).

(** [getUpdateHistory]: [None] is a call without argument; the empty
    string is falsy as well. *)
Definition getUpdateHistory (resourceKey : option string)
    (m : SharedResourceManager) : list ResourceUpdate :=
  match resourceKey with
  | Some k =>
      if negb (String.eqb k "")
      then List.filter (fun update => String.eqb (resource_key update) k)
             (updateHistory m)
      else updateHistory m
  | None => updateHistory m
  end.

(** [clearProjectResources]: the keys are collected first and deleted
    afterwards. *)
Definition clearProjectResources (projectId : string)
    (m : SharedResourceManager) : SharedResourceManager :=
  let keysToDelete :=
    map_fold
      (fun key _ keys =>
         if String.prefix projectId key then (keys ++ [key])%list else keys)
      [] (resources m) in
  mkSharedResourceManager
    (fold_left (fun r key => delete key r) keysToDelete (resources m))
    (updateHistory m) (resourceVersions m).

(** *** BaseAgent: the accessors every phase agent inherits *)

Definition getProjectState (agentId projectId : string)
    (m : SharedResourceManager) : outcome (option value) :=
  getResource agentId (String.append projectId "_state") m.

Definition updateProjectState (agentId projectId : string) (state : value)
    (now : string) (m : SharedResourceManager)
  : outcome SharedResourceManager :=
  updateResource agentId (String.append projectId "_state") state now m.

Definition getProjectResource (agentId projectId resourceKey : string)
    (m : SharedResourceManager) : outcome (option value) :=
  getResource agentId
    (String.append projectId (String.append "_" resourceKey)) m.

Definition updateProjectResource (agentId projectId resourceKey : string)
    (v : value) (now : string) (m : SharedResourceManager)
  : outcome SharedResourceManager :=
  updateResource agentId
    (String.append projectId (String.append "_" resourceKey)) v now m.

(** *** Sequences of calls

    The calls that can change a manager; a call that throws leaves it
    as it was. *)
Inductive call : Type :=
| Update (agentId resourceKey : string) (v : value) (now : string)
| Clear (projectId : string).

Definition step (m : SharedResourceManager) (c : call)
  : SharedResourceManager :=
  match c with
  | Update agentId resourceKey v now =>
      match updateResource agentId resourceKey v now m with
      | Ok m' => m'
      | Throw _ => m
      end
  | Clear projectId => clearProjectResources projectId m
  end.

(** The manager after a sequence of calls on a new one. *)
Definition run (calls : list call) : SharedResourceManager :=
  fold_left step calls new.

End Manager.

Arguments mkResourceUpdate {value} _ _ _ _ _.
Arguments resource_key {value} _.
Arguments upd_value {value} _.
Arguments updated_by {value} _.
Arguments timestamp {value} _.
Arguments version {value} _.
Arguments mkSharedResourceManager {value} _ _ _.
Arguments resources {value} _.
Arguments updateHistory {value} _.
Arguments resourceVersions {value} _.
Arguments new {value}.
Arguments getResource {value} _ _ _.
Arguments updateResource {value} _ _ _ _ _.
Arguments getProjectResources {value} _ _.
Arguments getUpdateHistory {value} _ _.
Arguments clearProjectResources {value} _ _.
Arguments getProjectState {value} _ _ _.
Arguments updateProjectState {value} _ _ _ _ _.
Arguments getProjectResource {value} _ _ _ _.
Arguments updateProjectResource {value} _ _ _ _ _ _.
Arguments Update {value} _ _ _ _.
Arguments Clear {value} _.
Arguments step {value} _ _.
Arguments run {value} _.

End ResourceManager.

(** Inputs for the resource manager: the Define agent stores the
    requirements twice, the resources of the prefix [req] are cleared,
    and the requirements are stored a third time. *)
Module ResourceInputs.
Import ResourceManager.

Definition measure_agent : ResourcePermissions :=
  mkResourcePermissions
    ["project_state"; "requirements"; "ctq_tree"]
    ["kpis"; "baselines"; "measurement_plan"; "data_collection_plan"].

Definition after_store : SharedResourceManager string :=
  mkSharedResourceManager
    (<["requirements" := "R1"]> ∅)
    [mkResourceUpdate "requirements" "R1" "define-agent" "t1" 1]
    (<["requirements" := 1]> ∅).

Definition calls : list (call string) :=
  [ Update "define-agent" "requirements" "R1" "t1";
    Update "define-agent" "requirements" "R2" "t2";
    Clear "req";
    Update "define-agent" "requirements" "R3" "t3" ].

End ResourceInputs.

(** ** The JavaScript server: sequences of tool calls, and the helpers of
    the Analyze and Improve tools whose results are stored as artifacts
    only *)

Module ServerCalls.
Import Server.

Inductive call : Type :=
| CreateProject (projectId now project_name case : string)
    (reqs : list string) (target : option string) (budget timeline : option Q)
| DefinePhase (now project_id : string)
| MeasurePhase (now project_id : string)
| AnalyzePhase (now project_id : string) (analysis_depth : option Depth)
| ImprovePhase (now project_id : string)
    (solution_approach : option SolutionApproach)
| ControlPhase (now project_id : string).

Definition tool (c : call) (projects : Projects) : outcome Projects :=
  match c with
  | CreateProject projectId now project_name case reqs target budget timeline =>
      Ok (createProject projectId now project_name case reqs target budget
            timeline projects)
  | DefinePhase now project_id => definePhase now project_id projects
  | MeasurePhase now project_id => measurePhase now project_id projects
  | AnalyzePhase now project_id analysis_depth =>
      analyzePhase now project_id analysis_depth projects
  | ImprovePhase now project_id solution_approach =>
      improvePhase now project_id solution_approach projects
  | ControlPhase now project_id => controlPhase now project_id projects
  end.

(** The project a call is made for. *)
Definition target_of (c : call) : string :=
  match c with
  | CreateProject projectId _ _ _ _ _ _ _ => projectId
  | DefinePhase _ project_id | MeasurePhase _ project_id
  | AnalyzePhase _ project_id _ | ImprovePhase _ project_id _
  | ControlPhase _ project_id => project_id
  end.

(** Every tool throws before it changes anything: a call that throws
    leaves [this.projects] as it was. *)
Definition step (projects : Projects) (c : call) : Projects :=
  match tool c projects with
  | Ok projects' => projects'
  | Throw _ => projects
  end.

(** The projects after a sequence of calls on a new server. *)
Definition run (calls : list call) : Projects := fold_left step calls ∅.

(** The five phase tools in their order, for one project. *)
Definition full_run (t1 t2 t3 t4 t5 pid : string) (depth : option Depth)
    (approach : option SolutionApproach) : list call :=
  [ DefinePhase t1 pid; MeasurePhase t2 pid; AnalyzePhase t3 pid depth;
    ImprovePhase t4 pid approach; ControlPhase t5 pid ].

End ServerCalls.

(** [s.includes(sub)] on strings. *)
Module JSString.

Definition includes (sub s : string) : bool :=
  bool_decide (is_Some (String.index 0 sub s)).

End JSString.

Module ServerAnalysis.
Import Server.

(** [establishBaselines]: the three scores; [r1], [r2], [r3] are the
    results of the three calls of [Math.random()].  (The
    [detailed_metrics] are constants.) *)
Record Baselines : Type := mkBaselines {
  performance_score : Q;
  reliability_score : Q;
  usability_score : Q
}.

Definition establishBaselines (r1 r2 r3 : Q) : Baselines :=
  mkBaselines (inject_Z (Qfloor (r1 * 30)) + 50)%Q
    (inject_Z (Qfloor (r2 * 20)) + 60)%Q
    (inject_Z (Qfloor (r3 * 25)) + 55)%Q.

Inductive SigmaLevel : Type :=
| sigma_1 | sigma_2 | sigma_3 | sigma_4 | sigma_5 | sigma_6.

Definition calculateSigmaLevel (processCap : Q) : SigmaLevel :=
  if Qle_bool (9973 # 10000) processCap then sigma_6
  else if Qle_bool (9937 # 10000) processCap then sigma_5
  else if Qle_bool (9332 # 10000) processCap then sigma_4
  else if Qle_bool (6827 # 10000) processCap then sigma_3
  else if Qle_bool (3085 # 10000) processCap then sigma_2
  else sigma_1.

(** [x || d] on numbers: [d] for a missing [x] and for zero. *)
Definition or_default (x : option Q) (d : Q) : Q :=
  match x with
  | Some x => if Qeq_bool x 0 then d else x
  | None => d
  end.

(** The numeric fields of the result of [performStatisticalAnalysis]. *)
Record StatisticalAnalysis : Type := mkStatisticalAnalysis {
  sigma_level : SigmaLevel;
  dpmo : Z
}.

(** [performStatisticalAnalysis], as a function of
    [project.artifacts.measure?.baselines] ([None] when there are no
    Measure artifacts). *)
Definition performStatisticalAnalysis (baselines : option Baselines)
  : StatisticalAnalysis :=
  let performanceRatio :=
    (or_default (performance_score <$> baselines) 70 / 100)%Q in
  let reliabilityRatio :=
    (or_default (reliability_score <$> baselines) 80 / 100)%Q in
  let processCap := ((performanceRatio + reliabilityRatio) / 2)%Q in
  mkStatisticalAnalysis (calculateSigmaLevel processCap)
    (JS.Math_round (1000000 * (1 - processCap))%Q).

Inductive Impact : Type := imp_MEDIUM | imp_HIGH | imp_CRITICAL.

#[global] Instance Impact_eq_dec : EqDecision Impact.
Proof. solve_decision. Defined.

Record RootCause : Type := mkRootCause {
  issue : string;
  cause : string;
  category : string;
  impact : Impact
}.

Record RootCauseAnalysis : Type := mkRootCauseAnalysis {
  critical_issues : list string;
  root_causes : list RootCause;
  overall_impact : Impact
}.

(** [x < y] where [x] may be [undefined]: false then. *)
Definition lt_undefined (x : option Q) (y : Q) : bool :=
  match x with
  | Some x => JS.ltb x y
  | None => false
  end.

(** [performRootCauseAnalysis], as a function of the baselines.  (The
    [recommendations] are constants.) *)
Definition performRootCauseAnalysis (baselines : option Baselines)
    (depth : Depth) : RootCauseAnalysis :=
  let performance := lt_undefined (performance_score <$> baselines) 70 in
  let reliability := lt_undefined (reliability_score <$> baselines) 90 in
  let issues :=
    ((if performance then ["Performance below target"] else [])
     ++ (if reliability then ["Reliability concerns"] else []))%list in
  let rootCauses :=
    ((if performance
      then [mkRootCause "Slow response times" "Inefficient database queries"
              "Technical" imp_HIGH]
      else [])
     ++ (if reliability
         then [mkRootCause "System downtime" "Lack of redundancy"
                 "Infrastructure" imp_CRITICAL]
         else [])
     ++ match depth with
        | comprehensive =>
            [mkRootCause "User satisfaction" "Poor UI/UX design" "Design"
               imp_MEDIUM]
        | standard => []
        end)%list in
  mkRootCauseAnalysis
    (List.filter
       (fun i => JSString.includes "Performance" i
                 || JSString.includes "Reliability" i) issues)
    rootCauses
    (if existsb (fun rc => bool_decide (impact rc = imp_CRITICAL)) rootCauses
     then imp_CRITICAL else imp_HIGH).

(** [createImplementationPlan]: the phases with their durations, and
    the timeline. *)
Record PlanPhase : Type := mkPlanPhase {
  phase : string;
  duration : Z
}.

Record ImplementationPlan : Type := mkImplementationPlan {
  phases : list PlanPhase;
  timeline : Z
}.

Definition createImplementationPlan (solution : ScoredSolution)
  : ImplementationPlan :=
  mkImplementationPlan
    [ mkPlanPhase "Planning" 5;
      mkPlanPhase "Development"
        (match effort (scored solution) with
         | lvLOW => 10 | lvMEDIUM => 20 | lvHIGH => 30
         end);
      mkPlanPhase "Testing" 10;
      mkPlanPhase "Deployment" 5 ]
    (match effort (scored solution) with
     | lvLOW => 30 | lvMEDIUM => 40 | lvHIGH => 50
     end).

End ServerAnalysis.

(** Inputs for the sequences of calls: a project is created and taken
    through the five tools, or through the Define tool only. *)
Module ServerCallInputs.
Import Server ServerCalls.

Definition create : call :=
  CreateProject "proj_1" "t0" "Checkout latency" "Reduce latency"
    ["fast checkout"; "must be safe"] None (Some 5000%Q) None.

Definition calls : list call :=
  create :: full_run "t1" "t2" "t3" "t4" "t5" "proj_1" None None.

Definition calls_define : list call := [create; DefinePhase "t1" "proj_1"].

(** The project [proj_1] after a sequence of calls. *)
Definition project_after (calls : list call) : Project :=
  default ServerInv.blank (run calls !! "proj_1").

End ServerCallInputs.

(** ** The dashboard: the overview metrics and the remaining handlers of
    the phase components *)

Module DashboardOverview.
Import Schema Dashboard.

(** [Dashboard.loadDashboardData]: the metrics computed from the list of
    projects.  ([recent_activity_count] compares time stamps, which the
    project rows of this development do not carry.) *)
Record DashboardMetrics : Type := mkDashboardMetrics {
  total_projects : Z;
  active_projects : Z;
  completed_projects : Z;
  average_quality_score : Q;
  high_risk_projects : Z;
  projects_on_track : Z
}.

(** [projectList.filter(f).length]. *)
Definition count (f : Project -> bool) (projectList : list Project) : Z :=
  Z.of_nat (length (List.filter f projectList)).

Definition dashboardMetrics (projectList : list Project) : DashboardMetrics :=
  mkDashboardMetrics
    (Z.of_nat (length projectList))
    (count (fun p => negb (bool_decide (current_phase p = COMPLETED)))
       projectList)
    (count (fun p => bool_decide (current_phase p = COMPLETED)) projectList)
    (if 0 <? Z.of_nat (length projectList)
     then (fold_left (fun sum p => sum + quality_score p) projectList 0
           / inject_Z (Z.of_nat (length projectList)))%Q
     else 0%Q)
    (count (fun p => bool_decide (risk_level p = HIGH)) projectList)
    (count (fun p => Qle_bool 70 (quality_score p)
                     && negb (bool_decide (risk_level p = HIGH)))
       projectList).

(** *** DefinePhase: the handlers

    [data] is the row the database returns for the insertion, [None]
    when it rejects it. *)

Definition addCTQ (newCtq_need newCtq_ctq : string) (data : option CTQItem)
    (ctqItems : list CTQItem) : list CTQItem :=
  if String.eqb newCtq_need "" || String.eqb newCtq_ctq "" then ctqItems
  else match data with
       | Some data => (ctqItems ++ [data])%list
       | None => ctqItems
       end.

Definition addConstraint (newConstraint_description : string)
    (data : option Constraint) (constraints : list Constraint)
  : list Constraint :=
  if String.eqb newConstraint_description "" then constraints
  else match data with
       | Some data => (constraints ++ [data])%list
       | None => constraints
       end.

Definition deleteRequirement (id : string) (requirements : list Requirement)
  : list Requirement :=
  List.filter (fun r => negb (String.eqb (req_id r) id)) requirements.

Definition deleteCtq (id : string) (ctqItems : list CTQItem) : list CTQItem :=
  List.filter (fun c => negb (String.eqb (ctq_id c) id)) ctqItems.

Definition deleteConstraint (id : string) (constraints : list Constraint)
  : list Constraint :=
  List.filter (fun c => negb (String.eqb (con_id c) id)) constraints.

(** *** MeasurePhase: the handlers *)

Definition addKpi (newKpi_name newKpi_unit : string) (data : option KPI)
    (kpis : list KPI) : list KPI :=
  if String.eqb newKpi_name "" || String.eqb newKpi_unit "" then kpis
  else match data with
       | Some data => (kpis ++ [data])%list
       | None => kpis
       end.

Definition deleteKpi (id : string) (kpis : list KPI) : list KPI :=
  List.filter (fun k => negb (String.eqb (kpi_id k) id)) kpis.

Definition updateKpiValue (id : string) (value : Q) (kpis : list KPI)
  : list KPI :=
  map (fun k =>
         if String.eqb (kpi_id k) id
         then mkKPI (kpi_id k) (kpi_name k) (kpi_description k) (target k)
                value (unit k)
         else k) kpis.

End DashboardOverview.

(** Inputs for the dashboard handlers. *)
Module DashboardInputs.
Import Schema.

(** A form with a detection of 11, which the table refuses. *)
Definition form_out_of_range : Dashboard.fmea_form :=
  Dashboard.mkFmeaForm "Stale cache" "wrong totals" "no invalidation" 5 5 11.

(** A solution form with an impact of 11, which the table refuses. *)
Definition solution_out_of_range : Dashboard.solution_form :=
  Dashboard.mkSolutionForm "Rewrite" "rewrite it all" redesign 11 4 3 3.

Definition no_solutions : Dashboard.ImproveWorld :=
  Dashboard.mkImproveWorld [] [].

(** The world of scenario C after the solution was added. *)
Definition worldC : Dashboard.ImproveWorld :=
  Dashboard.addSolution "s1" Scenarios.formC no_solutions.

Definition kpi1 : KPI := mkKPI "k1" "latency" "p95 latency" 200 250 "ms".

End DashboardInputs.

(** ** The TypeScript server: the Measure tool's artifacts and gate *)

Module TsMeasure.
Import Stdlib.Strings.Ascii.
Import TsServer (QualityGateResult, mkQualityGateResult, passed,
                 criteria_results, missing_items, recommendations, gt0).

Import JSString (includes).

(** [s.replace(/_/g, ' ')]. *)
Fixpoint replace_underscores (s : string) : string :=
  match s with
  | EmptyString => EmptyString
  | String c s' =>
      String (if Ascii.eqb c "_"%char then " "%char else c)
        (replace_underscores s')
  end.

(** [{ target, usl, lsl? }]. *)
Record CTQSpec : Type := mkCTQSpec {
  spec_target : Q;
  spec_usl : Q;
  spec_lsl : option Q
}.

(** The CTQ tree with its metric specifications; each category is an
    object keyed by the metric. *)
Record CTQTree : Type := mkCTQTree {
  performance : list (string * CTQSpec);
  reliability : list (string * CTQSpec);
  usability : list (string * CTQSpec);
  security : list (string * CTQSpec)
}.

(** The keys of the tree, which is what the Define gate looks at. *)
Definition keys (ctqTree : CTQTree) : TsServer.CTQTree :=
  TsServer.mkCTQTree (fst <$> performance ctqTree)
    (fst <$> reliability ctqTree) (fst <$> usability ctqTree)
    (fst <$> security ctqTree).

Record KPI : Type := mkKPI {
  name : string;
  description : string;
  unit : string;
  target : Q;
  measurement_frequency : string
}.

(** An entry of [args.custom_kpis]. *)
Record CustomKPI : Type := mkCustomKPI {
  custom_name : string;
  custom_unit : string;
  custom_target : Q
}.

Definition defineKPIs (ctqTree : CTQTree) (customKPIs : option (list CustomKPI))
  : list KPI :=
  (map (fun '(metric, spec) =>
          mkKPI (String.append "Performance: " (replace_underscores metric))
            (String.append "Measure " (String.append metric " performance"))
            (if includes "time" metric then "ms"
             else if includes "users" metric then "count" else "units")
            (spec_target spec) "Real-time")
     (performance ctqTree)
   ++ map (fun '(metric, spec) =>
             mkKPI (String.append "Reliability: " (replace_underscores metric))
               (String.append "Track "
                  (String.append metric " for system reliability"))
               (if includes "percentage" metric then "%"
                else if includes "hours" metric then "hours" else "%")
               (spec_target spec) "Daily")
        (reliability ctqTree)
   ++ map (fun '(metric, spec) =>
             mkKPI (String.append "Usability: " (replace_underscores metric))
               (String.append "Monitor "
                  (String.append metric " for user experience"))
               (if includes "rate" metric then "%"
                else if includes "score" metric then "points" else "seconds")
               (spec_target spec) "Weekly")
        (usability ctqTree)
   ++ map (fun '(metric, spec) =>
             mkKPI (String.append "Security: " (replace_underscores metric))
               (String.append "Assess "
                  (String.append metric " for security posture"))
               (if includes "coverage" metric then "%"
                else if includes "score" metric then "CVE score" else "%")
               (spec_target spec) "Weekly")
        (security ctqTree)
   ++ match customKPIs with
      | Some customKPIs =>
          map (fun kpi =>
                 mkKPI (custom_name kpi)
                   (String.append "Custom KPI: " (custom_name kpi))
                   (custom_unit kpi) (custom_target kpi) "As defined")
            customKPIs
      | None => []
      end)%list.

(** [establishBaselines]: [simulated kpi] is the number stored for the
    KPI, a random share of its target rounded to two decimals. *)
Definition establishBaselines (simulated : KPI -> Q) (kpis : list KPI)
  : list (string * Q) :=
  fold_left (fun baselines kpi => obj_set (name kpi) (simulated kpi) baselines)
    kpis [].

Record MSAResults : Type := mkMSAResults {
  repeatability : Q;
  reproducibility : Q;
  accuracy : Q;
  linearity : Q;
  stability : bool
}.

(** [performMSA]; [r1] to [r5] are the results of its five calls of
    [Math.random()]. *)
Definition performMSA (r1 r2 r3 r4 r5 : Q) : MSAResults :=
  mkMSAResults ((95 # 100) + r1 * (4 # 100))%Q ((93 # 100) + r2 * (5 # 100))%Q
    ((96 # 100) + r3 * (3 # 100))%Q ((2 # 100) + r4 * (3 # 100))%Q
    (JS.gtb r5 (2 # 10)).

Record DataCollectionPlan : Type := mkDataCollectionPlan {
  metrics : list string;
  collection_methods : list (string * string);
  frequency : list (string * string);
  responsible_parties : list (string * string)
}.

(** The body of the [forEach] of [createDataCollectionPlan]. *)
Definition plan_kpi (plan : DataCollectionPlan) (kpi : KPI)
  : DataCollectionPlan :=
  let assigned :=
    if includes "Performance" (name kpi)
    then Some ("Application Performance Monitoring (APM)", "DevOps Team")
    else if includes "Reliability" (name kpi)
    then Some ("System Monitoring Tools", "Operations Team")
    else if includes "Usability" (name kpi)
    then Some ("User Analytics & Surveys", "UX Team")
    else if includes "Security" (name kpi)
    then Some ("Security Scanning Tools", "Security Team")
    else None in
  mkDataCollectionPlan (metrics plan)
    (match assigned with
     | Some (method, _) => obj_set (name kpi) method (collection_methods plan)
     | None => collection_methods plan
     end)
    (obj_set (name kpi) (measurement_frequency kpi) (frequency plan))
    (match assigned with
     | Some (_, party) => obj_set (name kpi) party (responsible_parties plan)
     | None => responsible_parties plan
     end).

Definition createDataCollectionPlan (kpis : list KPI) : DataCollectionPlan :=
  fold_left plan_kpi kpis (mkDataCollectionPlan (map name kpis) [] [] []).

Record MeasureArtifacts : Type := mkMeasureArtifacts {
  kpis : list KPI;
  baselines : list (string * Q);
  measurement_system_analysis : MSAResults;
  data_collection_plan : DataCollectionPlan
}.

Definition checkMeasurePhaseQualityGate (artifacts : MeasureArtifacts)
  : QualityGateResult :=
  let msa_acceptable :=
    JS.gtb (repeatability (measurement_system_analysis artifacts)) (9 # 10)
    && JS.gtb (reproducibility (measurement_system_analysis artifacts))
         (9 # 10) in
  let criteriaResults :=
    [ ("KPIs Defined", gt0 (kpis artifacts));
      ("Baselines Established", gt0 (baselines artifacts));
      ("MSA Acceptable", msa_acceptable);
      ("Data Collection Plan",
       gt0 (metrics (data_collection_plan artifacts)));
      ("Measurement Frequency Defined",
       gt0 (frequency (data_collection_plan artifacts))) ] in
  mkQualityGateResult
    (forallb (fun result => result) (snd <$> criteriaResults))
    criteriaResults
    (fst <$> filter (fun c => Is_true (negb c.2)) criteriaResults)
    ((if negb msa_acceptable
      then ["Improve measurement system repeatability and reproducibility"]
      else [])
     ++ (if Z.of_nat (length (kpis artifacts)) <? 5
         then ["Consider adding more KPIs to cover all CTQ dimensions"]
         else []))%list.

(** The artifacts [measurePhase] builds from the CTQ tree of the Define
    phase and [args.custom_kpis], and hands to the gate. *)
Definition measureArtifacts (ctqTree : CTQTree)
    (custom_kpis : option (list CustomKPI)) (simulated : KPI -> Q)
    (r1 r2 r3 r4 r5 : Q) : MeasureArtifacts :=
  let kpis := defineKPIs ctqTree custom_kpis in
  let baselines := establishBaselines simulated kpis in
  let msaResults := performMSA r1 r2 r3 r4 r5 in
  let dataCollectionPlan := createDataCollectionPlan kpis in
  mkMeasureArtifacts kpis baselines msaResults dataCollectionPlan.

End TsMeasure.

(** Inputs for the Measure gate: the performance metrics the server
    generates. *)
Module TsMeasureInputs.
Import TsMeasure.

Definition tree : CTQTree :=
  mkCTQTree
    [ ("page_load_time", mkCTQSpec 2 3 (Some 0%Q));
      ("api_response_time", mkCTQSpec 200 500 (Some 0%Q));
      ("concurrent_users", mkCTQSpec 1000 2000 (Some 100%Q)) ]
    [] [] [].

Definition simulated (kpi : KPI) : Q := (target kpi * (3 # 4))%Q.

Definition define_artifacts : TsServer.DefineArtifacts :=
  TsServer.mkDefineArtifacts
    (TsServer.mkVOCAnalysis ["export orders"] ["performance under load"]
       ["export orders"])
    (keys tree)
    (TsServer.mkConstraints "vercel" 100)
    (TsServer.mkSIPOCDiagram ["Development"]).

End TsMeasureInputs.

(* ===================================================================== *)
(** * Part II: the properties                                             *)
(* ===================================================================== *)

(** ** Comparisons and rounding *)

Lemma ltb_lt (x y : Q) : JS.ltb x y = true <-> (x < y)%Q.
Proof.
  unfold JS.ltb. rewrite negb_true_iff.
  destruct (Qle_bool y x) eqn:E.
  - apply Qle_bool_iff in E. split; [discriminate | intros H; lra].
  - split; [intros _ | reflexivity].
    destruct (Qlt_le_dec x y) as [H | H]; [exact H | ].
    apply Qle_bool_iff in H. congruence.
Qed.

Lemma ltb_ge (x y : Q) : JS.ltb x y = false <-> (y <= x)%Q.
Proof.
  unfold JS.ltb. rewrite negb_false_iff. apply Qle_bool_iff.
Qed.

Lemma gtb_gt (x y : Q) : JS.gtb x y = true <-> (y < x)%Q.
Proof. unfold JS.gtb. apply ltb_lt. Qed.

Lemma gtb_le (x y : Q) : JS.gtb x y = false <-> (x <= y)%Q.
Proof. unfold JS.gtb. apply ltb_ge. Qed.

Lemma Qle_bool_false (x y : Q) : Qle_bool x y = false <-> (y < x)%Q.
Proof.
  split; intros H.
  - destruct (Qlt_le_dec y x) as [H1 | H1]; [exact H1 | ].
    apply Qle_bool_iff in H1. congruence.
  - destruct (Qle_bool x y) eqn:E; [ | reflexivity].
    apply Qle_bool_iff in E. lra.
Qed.


(** [Math.round] stays within one half of its argument. *)
Lemma Math_round_bounds (x : Q) :
  (x - (1 # 2) < inject_Z (JS.Math_round x) <= x + (1 # 2))%Q.
Proof.
  unfold JS.Math_round.
  pose proof (Qfloor_le (x + (1 # 2))) as H1.
  pose proof (Qlt_floor (x + (1 # 2))) as H2.
  rewrite inject_Z_plus in H2. change (inject_Z 1) with 1%Q in H2.
  split; lra.
Qed.

Lemma Math_round_range (x : Q) (lo hi : Z) :
  (inject_Z lo <= x)%Q -> (x <= inject_Z hi)%Q ->
  lo <= JS.Math_round x <= hi.
Proof.
  intros Hlo Hhi. unfold JS.Math_round. split.
  - rewrite <- (Qfloor_Z lo). apply Qfloor_resp_le. lra.
  - assert (H : Qfloor (x + (1 # 2)) < hi + 1).
    { rewrite Zlt_Qlt.
      apply Qle_lt_trans with (x + (1 # 2))%Q; [apply Qfloor_le | ].
      rewrite inject_Z_plus. change (inject_Z 1) with 1%Q. lra. }
    lia.
Qed.

(** ** The dashboard workflow *)

Section DashboardWorkflow.
Import Schema Dashboard.




Lemma ImprovePhase_canComplete_spec (l : list Solution) :
  ImprovePhase_canComplete l = true
  <-> exists x, In x l /\ (status x = approved \/ status x = implemented).
Proof.
  unfold ImprovePhase_canComplete. rewrite existsb_exists.
  split; intros [x [Hin H]]; exists x; split; try exact Hin.
  - apply orb_true_iff in H as [H | H]; apply bool_decide_eq_true in H; auto.
  - apply orb_true_iff.
    destruct H as [H | H]; [left | right]; now apply bool_decide_eq_true.
Qed.

(** The value [advancePhase] writes for each of the first four phases. *)
Lemma advancePhase_step (p : Project) :
  current_phase p <> CONTROL -> current_phase p <> COMPLETED ->
  current_phase (advancePhase p) = Spec.successor (current_phase p)
  /\ (phase_completion (advancePhase p)
      == Spec.completion (Spec.phase_index (Spec.successor (current_phase p))))%Q
  /\ quality_score (advancePhase p) = quality_score p
  /\ risk_level (advancePhase p) = risk_level p.
Proof.
  intros H1 H2. destruct p as [i n b ph q r pc]; simpl in *.
  destruct ph; try congruence; repeat split; vm_compute; reflexivity.
Qed.

Lemma advancePhase_CONTROL (p : Project) :
  current_phase p = CONTROL -> advancePhase p = p.
Proof.
  destruct p as [i n b ph q r pc]; simpl. intros ->. reflexivity.
Qed.

Lemma successor_neq (ph : Phase) : ph <> COMPLETED -> Spec.successor ph <> ph.
Proof. destruct ph; simpl; congruence. Qed.

End DashboardWorkflow.


(** C1 (amended): for a project that is not COMPLETED, the dashboard's
    completion action changes the project exactly when the gate of the
    current phase holds; it then moves the phase to its immediate
    successor and sets the completion to (new index + 1) / 5 x 100 for a
    new phase up to CONTROL and to 100 for COMPLETED; when the gate fails
    the project row is unchanged. *)
Theorem C1_completion_action (s : Dashboard.Snapshot) (p : Schema.Project) :
  Schema.current_phase p <> Schema.COMPLETED ->
  (Dashboard.completeClick s p <> p
   <-> Dashboard.canComplete (Schema.current_phase p) s = true)
  /\ (Dashboard.canComplete (Schema.current_phase p) s = true ->
      Schema.current_phase (Dashboard.completeClick s p)
      = Spec.successor (Schema.current_phase p)
      /\ (Schema.phase_completion (Dashboard.completeClick s p)
          == if decide (Schema.current_phase p = Schema.CONTROL) then 100
             else Spec.completion
                    (Spec.phase_index (Spec.successor (Schema.current_phase p))))%Q)
  /\ (Dashboard.canComplete (Schema.current_phase p) s = false ->
      Dashboard.completeClick s p = p).
Proof.
  intros Hnc.
  assert (Hpass : Dashboard.canComplete (Schema.current_phase p) s = true ->
      Schema.current_phase (Dashboard.completeClick s p)
      = Spec.successor (Schema.current_phase p)
      /\ (Schema.phase_completion (Dashboard.completeClick s p)
          == if decide (Schema.current_phase p = Schema.CONTROL) then 100
             else Spec.completion
                    (Spec.phase_index (Spec.successor (Schema.current_phase p))))%Q).
  { intros Hg. unfold Dashboard.completeClick.
    destruct (decide (Schema.current_phase p = Schema.CONTROL)) as [Hc | Hc].
    - rewrite Hc in *. simpl in Hg. rewrite Hg. simpl. split; reflexivity.
    - destruct (advancePhase_step p Hc Hnc) as [H1 [H2 _]].
      destruct (Schema.current_phase p) eqn:E; try congruence;
        rewrite Hg; split; assumption. }
  assert (Hfail : Dashboard.canComplete (Schema.current_phase p) s = false ->
      Dashboard.completeClick s p = p).
  { intros Hg. unfold Dashboard.completeClick.
    destruct (Schema.current_phase p) eqn:E; try congruence;
      try (rewrite Hg; reflexivity).
    simpl in Hg. rewrite Hg. reflexivity. }
  split; [ | split; assumption].
  destruct (Dashboard.canComplete (Schema.current_phase p) s) eqn:Hg.
  - split; [reflexivity | intros _ Heq].
    destruct (Hpass eq_refl) as [H1 _]. rewrite Heq in H1.
    now apply (successor_neq (Schema.current_phase p)).
  - split; [ | discriminate]. intros H. now specialize (Hfail eq_refl).
Qed.

(** Scenario A runs through [C1_completion_action]: the gate holds and
    the click moves the project to MEASURE with completion 40. *)
Lemma C1_completion_action_witness :
  Schema.current_phase (Dashboard.completeClick Scenarios.snapshotA Scenarios.projectA)
  = Schema.MEASURE
  /\ (Schema.phase_completion
        (Dashboard.completeClick Scenarios.snapshotA Scenarios.projectA) == 40)%Q.
Proof.
  destruct (C1_completion_action Scenarios.snapshotA Scenarios.projectA)
    as [_ [H _]]; [discriminate | ].
  destruct (H eq_refl) as [H1 H2]. split; [exact H1 | ].
  rewrite H2. reflexivity.
Defined.

(** C1 as stated fails at the last transition: with all four checklist
    flags set the project in CONTROL is completed with completion 100,
    not (5 + 1) / 5 x 100 = 120, and [advancePhase] itself does nothing
    there. *)
Lemma C1_counterexample :
  Schema.current_phase Scenarios.projectD <> Schema.COMPLETED
  /\ Dashboard.canComplete (Schema.current_phase Scenarios.projectD)
       Scenarios.snapshotD_ready = true
  /\ Schema.current_phase
       (Dashboard.completeClick Scenarios.snapshotD_ready Scenarios.projectD)
     = Schema.COMPLETED
  /\ (Schema.phase_completion
        (Dashboard.completeClick Scenarios.snapshotD_ready Scenarios.projectD)
      == 100)%Q
  /\ (Spec.completion (Spec.phase_index Schema.COMPLETED) == 120)%Q
  /\ Dashboard.advancePhase Scenarios.projectD = Scenarios.projectD.
Proof.
  repeat split; try reflexivity. discriminate.
Qed.

(** ** The table of risk items *)

Section FmeaTable.
Import Schema Invariants.

Lemma check_1_10_spec (c : Z) : check_1_10 c = true <-> 1 <= c <= 10.
Proof. unfold check_1_10. rewrite andb_true_iff, !Z.leb_le. tauto. Qed.

Lemma risk_item_ok_intro (id fm e c : string) (s o d : Z) :
  check_1_10 s && check_1_10 o && check_1_10 d = true ->
  risk_item_ok (mkFMEAItem id fm e c s o d (s * o * d)).
Proof.
  rewrite !andb_true_iff, !check_1_10_spec. intros [[Hs Ho] Hd].
  assert (Hso : 1 <= s * o <= 100) by nia.
  unfold risk_item_ok; simpl. repeat split; try lia; nia.
Qed.

Lemma fmea_items_insert_ok (id : string) (v : fmea_insert) (r : FMEAItem) :
  fmea_items_insert id v = Some r -> risk_item_ok r.
Proof.
  unfold fmea_items_insert. destruct (ins_rpn v); [discriminate | ].
  destruct (_ && _) eqn:E; [ | discriminate].
  intros [= <-]. now apply risk_item_ok_intro.
Qed.

Lemma fmea_items_update_ok (u : fmea_update) (r r' : FMEAItem) :
  fmea_items_update u r = Some r' -> risk_item_ok r'.
Proof.
  unfold fmea_items_update. destruct (set_rpn u); [discriminate | ].
  destruct (_ && _) eqn:E; [ | discriminate].
  intros [= <-]. now apply risk_item_ok_intro.
Qed.

Lemma update_rows_ok (id : string) (u : fmea_update) (t t' : list FMEAItem) :
  Forall risk_item_ok t -> update_rows id u t = Some t' ->
  Forall risk_item_ok t'.
Proof.
  revert t'. induction t as [ | r t IH]; simpl; intros t' Hok H.
  - injection H as <-. constructor.
  - inversion Hok as [ | ? ? Hr Ht]; subst.
    destruct (update_rows id u t) as [t'' | ]; simpl in H; [ | discriminate].
    specialize (IH t'' Ht eq_refl).
    destruct (String.eqb (fmea_id r) id).
    + destruct (fmea_items_update u r) as [r' | ] eqn:E; simpl in H;
        [ | discriminate].
      injection H as <-. constructor; [ | exact IH].
      now apply (fmea_items_update_ok u r).
    + injection H as <-. now constructor.
Qed.

Lemma fmea_exec_ok (t : list FMEAItem) (s : fmea_stmt) :
  Forall risk_item_ok t -> Forall risk_item_ok (fmea_exec t s).
Proof.
  intros Hok. destruct s as [id v | id u | id]; simpl.
  - destruct (fmea_items_insert id v) as [r | ] eqn:E; [ | exact Hok].
    apply Forall_app. split; [exact Hok | ].
    constructor; [ | constructor]. now apply (fmea_items_insert_ok id v).
  - destruct (update_rows id u t) as [t' | ] eqn:E; simpl; [ | exact Hok].
    now apply (update_rows_ok id u t).
  - apply Forall_forall. intros r Hr.
    apply list_elem_of_filter in Hr as [_ Hr].
    rewrite Forall_forall in Hok. now apply Hok.
Qed.

Lemma fold_fmea_exec_ok (ss : list fmea_stmt) (t : list FMEAItem) :
  Forall risk_item_ok t -> Forall risk_item_ok (fold_left fmea_exec ss t).
Proof.
  revert t. induction ss as [ | s ss IH]; simpl; intros t Hok.
  - exact Hok.
  - now apply IH, fmea_exec_ok.
Qed.

End FmeaTable.

(** C4: every row that a sequence of INSERT, UPDATE and DELETE statements
    leaves in [fmea_items] has severity, occurrence and detection in
    [1,10] and a risk priority number equal to their product, in
    [1,1000]; an UPDATE stores the product of the new inputs; a statement
    that supplies a value for the risk priority number itself is
    rejected. *)
Theorem C4_rpn_is_derived :
  (forall ss : list Schema.fmea_stmt,
      Forall Invariants.risk_item_ok (Schema.fmea_run ss))
  /\ (forall (u : Schema.fmea_update) (r : Schema.FMEAItem),
         match Schema.fmea_items_update u r with
         | Some r' =>
             Schema.severity r' = default (Schema.severity r) (Schema.set_severity u)
             /\ Schema.occurrence r'
                = default (Schema.occurrence r) (Schema.set_occurrence u)
             /\ Schema.detection r'
                = default (Schema.detection r) (Schema.set_detection u)
             /\ Schema.rpn r'
                = Schema.severity r' * Schema.occurrence r' * Schema.detection r'
         | None => True
         end)
  /\ (forall (id fm e c : string) (s o d x : Z),
         Schema.fmea_items_insert id (Schema.mkFmeaInsert fm e c s o d (Some x))
         = None)
  /\ (forall (s o d : option Z) (x : Z) (r : Schema.FMEAItem),
         Schema.fmea_items_update (Schema.mkFmeaUpdate s o d (Some x)) r = None).
Proof.
  split; [ | split; [ | split]].
  - intros ss. unfold Schema.fmea_run. apply fold_fmea_exec_ok. constructor.
  - intros u r. unfold Schema.fmea_items_update.
    destruct (Schema.set_rpn u); [exact I | ].
    destruct (_ && _); [ | exact I]. simpl. repeat split.
  - reflexivity.
  - reflexivity.
Qed.

(** Scenario B: severity 9, occurrence 6 and detection 7 are stored with
    the risk priority number 378, labelled CRITICAL. *)
Example scenario_B_rpn :
  Schema.rpn <$> Schema.fmea_items_insert "f1"
                   (Schema.mkFmeaInsert "timeout" "outage" "pool" 9 6 7 None)
  = Some 378
  /\ Dashboard.getRpnLabel 378 = Dashboard.L_CRITICAL.
Proof. split; reflexivity. Qed.

(** ** Risk level of the dashboard *)

Section DashboardRisk.
Import Schema Dashboard.

Lemma riskLevel_HIGH (avg : Q) : riskLevel avg = HIGH <-> (300 < avg)%Q.
Proof.
  unfold riskLevel. destruct (JS.gtb avg 300) eqn:E1.
  - apply gtb_gt in E1. tauto.
  - apply gtb_le in E1. destruct (JS.gtb avg 150);
      (split; [discriminate | intros H; lra]).
Qed.

Lemma riskLevel_MEDIUM (avg : Q) :
  riskLevel avg = MEDIUM <-> (150 < avg /\ avg <= 300)%Q.
Proof.
  unfold riskLevel. destruct (JS.gtb avg 300) eqn:E1.
  - apply gtb_gt in E1. split; [discriminate | intros [_ H]; lra].
  - apply gtb_le in E1. destruct (JS.gtb avg 150) eqn:E2.
    + apply gtb_gt in E2. tauto.
    + apply gtb_le in E2. split; [discriminate | intros [H _]; lra].
Qed.

Lemma riskLevel_LOW (avg : Q) : riskLevel avg = LOW <-> (avg <= 150)%Q.
Proof.
  unfold riskLevel. destruct (JS.gtb avg 300) eqn:E1.
  - apply gtb_gt in E1. split; [discriminate | intros H; lra].
  - destruct (JS.gtb avg 150) eqn:E2.
    + apply gtb_gt in E2. split; [discriminate | intros H; lra].
    + apply gtb_le in E2. tauto.
Qed.

Lemma fold_left_rpn (l : list FMEAItem) (a : Z) :
  fold_left (fun sum item => sum + rpn item) l a = a + Spec.total_rpn l.
Proof.
  revert a. induction l as [ | x l IH]; simpl; intros a; [lia | ].
  rewrite IH. lia.
Qed.

Lemma sumRpn_total (l : list FMEAItem) : sumRpn l = Spec.total_rpn l.
Proof. unfold sumRpn. rewrite fold_left_rpn. lia. Qed.

Lemma avgRpn_nil : avgRpn [] = 0%Q.
Proof. reflexivity. Qed.

Lemma avgRpn_average (l : list FMEAItem) :
  l <> [] -> avgRpn l = Spec.average_rpn l.
Proof.
  intros Hl. unfold avgRpn, Spec.average_rpn. rewrite sumRpn_total.
  destruct l as [ | x l]; [congruence | ]. reflexivity.
Qed.

(** The level [updateProjectRisk] writes is the specified level of the
    list it reads: thresholds 300 and 150 on the average, LOW for the
    empty list. *)
Lemma updateProjectRisk_level (l : list FMEAItem) (p : Project) :
  risk_level (updateProjectRisk l p) = Spec.risk_level l.
Proof.
  unfold updateProjectRisk; simpl. destruct l as [ | x l]; [reflexivity | ].
  rewrite avgRpn_average by discriminate.
  unfold Spec.risk_level.
  set (avg := Spec.average_rpn (x :: l)).
  destruct (Qle_bool avg 150) eqn:E1.
  - apply Qle_bool_iff in E1. now apply riskLevel_LOW.
  - apply Qle_bool_false in E1. destruct (Qle_bool avg 300) eqn:E2.
    + apply Qle_bool_iff in E2. now apply riskLevel_MEDIUM.
    + apply Qle_bool_false in E2. now apply riskLevel_HIGH.
Qed.

Lemma updateProjectRisk_keeps (l : list FMEAItem) (p : Project) :
  current_phase (updateProjectRisk l p) = current_phase p
  /\ phase_completion (updateProjectRisk l p) = phase_completion p
  /\ quality_score (updateProjectRisk l p) = quality_score p.
Proof. repeat split. Qed.

(** [addFmea] writes the level of the list of the render it was created
    in: the list before the insertion. *)
Lemma addFmea_risk (id : string) (f : fmea_form) (w : AnalyzeWorld) :
  f_failure_mode f <> "" ->
  risk_level (db_project (addFmea id f w)) = Spec.risk_level (fmeaItems w).
Proof.
  intros Hf. unfold addFmea.
  destruct (String.eqb_spec (f_failure_mode f) "") as [E | _]; [contradiction | ].
  destruct (fmea_items_insert _ _); cbn [db_project];
    apply updateProjectRisk_level.
Qed.


End DashboardRisk.

(** C3 at its failing input (scenario B): after the item with severity
    9, occurrence 6 and detection 7 was added to a project without risk
    items, the project has that one item, whose average is 378 and whose
    specified level is HIGH, while the risk level written to the project
    is LOW; after a second item the average is 251.5, the specified level
    MEDIUM and the written level HIGH. *)
Theorem C3_addFmea_writes_the_level_of_the_previous_list :
  Schema.rpn <$> Dashboard.db_fmea_items Reached.worldB1 = [378]
  /\ Spec.risk_level (Dashboard.db_fmea_items Reached.worldB1) = Schema.HIGH
  /\ Schema.risk_level (Dashboard.db_project Reached.worldB1) = Schema.LOW
  /\ Schema.rpn <$> Dashboard.db_fmea_items Reached.worldB2 = [378; 125]
  /\ Spec.risk_level (Dashboard.db_fmea_items Reached.worldB2) = Schema.MEDIUM
  /\ Schema.risk_level (Dashboard.db_project Reached.worldB2) = Schema.HIGH.
Proof. repeat split. Qed.

(** ** Sorting with a comparator *)

Section ArraySortFacts.
Context {A : Type}.
Variable cmp : A -> A -> Q.

Hypothesis cmp_anti : forall x y, (0 < cmp x y)%Q -> (cmp y x <= 0)%Q.

Lemma sort_insert_perm (x : A) (l : list A) :
  Permutation (x :: l) (sort_insert cmp x l).
Proof.
  induction l as [ | y l IH]; simpl; [reflexivity | ].
  destruct (JS.gtb (cmp x y) 0); [ | reflexivity].
  rewrite perm_swap. now constructor.
Qed.

Lemma Array_sort_perm (l : list A) : Permutation l (Array_sort cmp l).
Proof.
  induction l as [ | x l IH]; simpl; [reflexivity | ].
  rewrite <- sort_insert_perm. now constructor.
Qed.

Lemma sort_insert_HdRel (a x : A) (l : list A) :
  precedes cmp a x -> HdRel (precedes cmp) a l ->
  HdRel (precedes cmp) a (sort_insert cmp x l).
Proof.
  intros Hax Hal. destruct l as [ | y l]; simpl; [now constructor | ].
  destruct (JS.gtb (cmp x y) 0); constructor; [ | exact Hax].
  now inversion Hal.
Qed.

Lemma sort_insert_sorted (x : A) (l : list A) :
  Sorted (precedes cmp) l -> Sorted (precedes cmp) (sort_insert cmp x l).
Proof.
  induction l as [ | y l IH]; simpl; intros Hs.
  - repeat constructor.
  - inversion Hs as [ | ? ? Hl Hy]; subst.
    destruct (JS.gtb (cmp x y) 0) eqn:E.
    + apply gtb_gt in E. constructor; [now apply IH | ].
      apply sort_insert_HdRel; [ | exact Hy]. now apply cmp_anti.
    + apply gtb_le in E. constructor; [exact Hs | now constructor].
Qed.

Lemma Array_sort_sorted (l : list A) : Sorted (precedes cmp) (Array_sort cmp l).
Proof.
  induction l as [ | x l IH]; simpl; [constructor | ].
  now apply sort_insert_sorted.
Qed.

End ArraySortFacts.

(** ** Solutions *)

Section Solutions.
Import Schema Dashboard Invariants.





Lemma check_0_10_spec (c : Q) : check_0_10 c = true <-> (0 <= c <= 10)%Q.
Proof.
  unfold check_0_10. rewrite andb_true_iff, !Qle_bool_iff. tauto.
Qed.

End Solutions.



(** ** KPI performance *)





Example calculatePerformance_zero_target :
  Dashboard.calculatePerformance MeasureInputs.kpi_zero_target
  = Some (JS.Num 0).
Proof. reflexivity. Qed.

(** ** Process capability *)

Section ProcessCapability.
Import TsServer Capability.

Lemma fold_count_kpi (md : MeasureArtifacts) (l : list KPI) (d o : Z) :
  fold_left (count_kpi md) l (d, o)
  = (d + Z.of_nat (length (List.filter (defective md) l)),
     o + Z.of_nat (length l)).
Proof.
  revert d o. induction l as [ | k l IH]; intros d o; simpl.
  - f_equal; lia.
  - unfold count_kpi at 2; simpl. fold (defective md k).
    destruct (defective md k); rewrite IH; simpl; f_equal; lia.
Qed.


End ProcessCapability.




(** ** The quality score of the JavaScript server *)

Section QualityScore.
Import Server ServerInv.

Lemma totalGates_16 : totalGates = 16.
Proof. reflexivity. Qed.

Lemma fold_met_nonneg (g : list (Phase * list (string * bool))) (a : Z) :
  a <= fold_left
         (fun sum phase =>
            sum + Z.of_nat (length (filter (fun c => Is_true c.2) phase.2)))
         g a.
Proof.
  revert a. induction g as [ | x g IH]; simpl; intros a; [lia | ].
  etransitivity; [ | apply IH]. lia.
Qed.

Lemma metGates_nonneg (p : Project) : 0 <= metGates p.
Proof. apply fold_met_nonneg. Qed.

Lemma rawQualityScore_formula (p : Project) :
  (rawQualityScore p
   == (4 # 10) * phase_completion (metrics p)
      + 30 * (inject_Z (metGates p) / 16)
      + riskScore (risk_level (metrics p)))%Q.
Proof. unfold rawQualityScore. rewrite totalGates_16. field. Qed.

Lemma riskScore_range (r : RiskLabel) : (10 <= riskScore r <= 30)%Q.
Proof. destruct r; simpl; lra. Qed.

Lemma calculateQualityScore_range (p : Project) :
  (0 <= phase_completion (metrics p) <= 100)%Q -> metGates p <= 16 ->
  10 <= calculateQualityScore p <= 100.
Proof.
  intros Hpc Hmet. unfold calculateQualityScore.
  pose proof (metGates_nonneg p) as Hm0.
  pose proof (riskScore_range (risk_level (metrics p))) as Hr.
  assert (Hm : (0 <= inject_Z (metGates p) <= 16)%Q).
  { split; [change 0%Q with (inject_Z 0) | change 16%Q with (inject_Z 16)];
      now rewrite <- Zle_Qle. }
  apply Math_round_range; rewrite rawQualityScore_formula;
    [change (inject_Z 10) with 10%Q | change (inject_Z 100) with 100%Q];
    set (m := inject_Z (metGates p)) in *;
    assert (Hd : (m / 16 == m * (1 # 16))%Q) by (unfold Qdiv; reflexivity);
    rewrite Hd; lra.
Qed.

(** The score does not read the stored score. *)
Lemma calculateQualityScore_stored (q : Z) (p : Project) :
  calculateQualityScore (with_quality_score q p) = calculateQualityScore p.
Proof. reflexivity. Qed.

Lemma recompute_quality_stored (p : Project) :
  quality_score (metrics (recompute_quality p))
  = calculateQualityScore (recompute_quality p).
Proof. reflexivity. Qed.

Lemma insert_stores_score (pid : string) (p : Project) (projects : Projects) :
  stores_score pid (Ok (<[pid := recompute_quality p]> projects)).
Proof.
  simpl. exists (recompute_quality p). split.
  - apply lookup_insert_eq.
  - apply recompute_quality_stored.
Qed.

Lemma definePhase_stores_score (now pid : string) (projects : Projects) :
  stores_score pid (definePhase now pid projects).
Proof.
  unfold definePhase. destruct (projects !! pid); [ | exact I].
  destruct (negb _); [exact I | apply insert_stores_score].
Qed.

Lemma measurePhase_stores_score (now pid : string) (projects : Projects) :
  stores_score pid (measurePhase now pid projects).
Proof.
  unfold measurePhase. destruct (projects !! pid) as [p | ]; [ | exact I].
  destruct (_ && _); [exact I | ].
  destruct (define (artifacts p)); [apply insert_stores_score | exact I].
Qed.

Lemma improvePhase_stores_score (now pid : string)
    (a : option SolutionApproach) (projects : Projects) :
  stores_score pid (improvePhase now pid a projects).
Proof.
  unfold improvePhase. destruct (projects !! pid); [ | exact I].
  apply insert_stores_score.
Qed.

Lemma controlPhase_stores_score (now pid : string) (projects : Projects) :
  stores_score pid (controlPhase now pid projects).
Proof.
  unfold controlPhase. destruct (projects !! pid); [ | exact I].
  apply insert_stores_score.
Qed.

End QualityScore.

(** C6 (amended): the quality score is Math.round of
    0.4 x phase completion + 30 x (criteria recorded as met / 16, the
    criteria of all five phases) + risk points, where the points are 30
    for LOW, 20 for MEDIUM and 10 otherwise; no clamp is applied, and
    the score lies in [10,100] when the completion is in [0,100] and at
    most 16 criteria are recorded; the Define, Measure, Improve and
    Control tools store the score of the project they leave behind. *)
Theorem C6_quality_score (p : Server.Project) (now pid : string)
    (approach : option Server.SolutionApproach) (projects : Server.Projects) :
  Server.calculateQualityScore p
  = JS.Math_round (Server.rawQualityScore p)
  /\ (Server.rawQualityScore p
      == (4 # 10) * Server.phase_completion (Server.metrics p)
         + 30 * (inject_Z (Server.metGates p) / 16)
         + Server.riskScore (Server.risk_level (Server.metrics p)))%Q
  /\ Server.riskScore Server.LOW = 30%Q
  /\ Server.riskScore Server.MEDIUM = 20%Q
  /\ Server.riskScore Server.HIGH = 10%Q
  /\ Server.riskScore Server.UNKNOWN = 10%Q
  /\ ((0 <= Server.phase_completion (Server.metrics p) <= 100)%Q ->
      Server.metGates p <= 16 ->
      10 <= Server.calculateQualityScore p <= 100)
  /\ ServerInv.stores_score pid (Server.definePhase now pid projects)
  /\ ServerInv.stores_score pid (Server.measurePhase now pid projects)
  /\ ServerInv.stores_score pid (Server.improvePhase now pid approach projects)
  /\ ServerInv.stores_score pid (Server.controlPhase now pid projects).
Proof.
  split; [reflexivity | ]. split; [apply rawQualityScore_formula | ].
  repeat (split; [reflexivity | ]).
  split; [apply calculateQualityScore_range | ].
  split; [apply definePhase_stores_score | ].
  split; [apply measurePhase_stores_score | ].
  split; [apply improvePhase_stores_score | apply controlPhase_stores_score].
Qed.

(** The project of the run after the Improve tool runs through
    [C6_quality_score]: its score is 60, within [10,100]. *)
Lemma C6_quality_score_witness :
  10 <= Server.calculateQualityScore
          (ServerInv.project_after ServerRun.pid ServerRun.after_improve)
     <= 100
  /\ ServerInv.stores_score ServerRun.pid ServerRun.after_define.
Proof.
  destruct (C6_quality_score
              (ServerInv.project_after ServerRun.pid ServerRun.after_improve)
              "t1" ServerRun.pid None ServerRun.created)
    as [_ [_ [_ [_ [_ [_ [H [Hd _]]]]]]]].
  split; [ | exact Hd].
  apply H; [split; vm_compute; discriminate | vm_compute; discriminate].
Defined.

(** C6 as stated fails on the project of the run after the Improve tool:
    completion 80, 4 criteria recorded as met, risk MEDIUM; the stored
    score is 60, while the stated formula gives 45.5 with the 16 criteria
    of all phases, 68 with the 4 of the recorded phase and about 47.2
    with the 13 of the phases up to IMPROVE. *)
Lemma C6_counterexample :
  ServerRun.field (fun p => Server.phase_completion (Server.metrics p))
    ServerRun.after_improve = Some 80%Q
  /\ ServerRun.field (fun p => Server.risk_level (Server.metrics p))
       ServerRun.after_improve = Some Server.MEDIUM
  /\ ServerRun.field Server.metGates ServerRun.after_improve = Some 4
  /\ ServerRun.field (fun p => Server.quality_score (Server.metrics p))
       ServerRun.after_improve = Some 60
  /\ ~ (Spec.quality_score 80 4 16 Schema.MEDIUM == 60)%Q
  /\ ~ (Spec.quality_score 80 4 4 Schema.MEDIUM == 60)%Q
  /\ ~ (Spec.quality_score 80 4 13 Schema.MEDIUM == 60)%Q.
Proof.
  repeat (split; [reflexivity | ]).
  repeat split; intros H; vm_compute in H; discriminate H.
Qed.

(** The Analyze tool of the run advances the phase and leaves the stored
    score as it was. *)
Example analyzePhase_keeps_the_stored_score :
  ServerRun.field (fun p => Server.quality_score (Server.metrics p))
    ServerRun.after_measure = Some 34
  /\ ServerRun.field (fun p => Server.quality_score (Server.metrics p))
       ServerRun.after_analyze = Some 34
  /\ ServerRun.field Server.calculateQualityScore ServerRun.after_analyze
     = Some 52.
Proof. repeat split. Qed.

(** ** Completed projects *)







(** The Measure tool of the JavaScript server accepts a project in
    DEFINE and moves it to ANALYZE; the Define tool leaves the phase at
    DEFINE. *)
Example measurePhase_from_DEFINE :
  ServerRun.field Server.current_phase ServerRun.after_define
  = Some Schema.DEFINE
  /\ ServerRun.field Server.current_phase ServerRun.after_measure
     = Some Schema.ANALYZE
  /\ ServerRun.field (fun p => Server.phase_completion (Server.metrics p))
       ServerRun.after_measure = Some 40%Q.
Proof. repeat split. Qed.

(** ** Artifact writes and the phase *)

Section DefineTool.
Import TsServer.
Context {Stakeholders : Type}.
Variable performVOCAnalysis : list string -> option Stakeholders -> VOCAnalysis.
Variable generateCTQTree : VOCAnalysis -> CTQTree.
Variable createSIPOCDiagram : ProjectState -> SIPOCDiagram.

Let tool := definePhase Stakeholders performVOCAnalysis generateCTQTree
              createSIPOCDiagram.



End DefineTool.




(** ** The other variants of the gate, the risk level and the ranking *)

Section QualityGateManager.
Import QualityGates.

(** With at most four criteria the 80 percent threshold is met only
    when every criterion passed. *)
Lemma threshold_small (rs : list CriteriaResult) :
  (1 <= length rs <= 4)%nat ->
  Qle_bool 80
    (inject_Z (Z.of_nat (length (filter (fun r => Is_true (passed r)) rs)))
     / inject_Z (Z.of_nat (length rs)) * 100)%Q
  = forallb passed rs.
Proof.
  intros Hlen.
  destruct rs as [ | [c1 [ | ]] [ | [c2 [ | ]] [ | [c3 [ | ]] [ | [c4 [ | ]] rs]]]];
    simpl in Hlen; try lia; try reflexivity;
    destruct rs; simpl in Hlen; try lia; reflexivity.
Qed.

Lemma gatesCriteria_small (f t : DMAICPhase)
    (criteria : list (ProjectState -> CriteriaResult)) :
  gatesCriteria f t = Some criteria -> (1 <= length criteria <= 4)%nat.
Proof.
  destruct f, t; simpl; intros H; try discriminate;
    injection H as <-; simpl; lia.
Qed.

(** For the five gates that are configured, the gate passes exactly
    when all of its criteria pass. *)
Lemma evaluateGate_all_criteria (project : ProjectState)
    (f t : DMAICPhase) (r : QualityGateResult) :
  evaluateGate project f t = Ok r ->
  gate_passed r = forallb passed (criteria_results r).
Proof.
  unfold evaluateGate.
  destruct (gatesCriteria f t) as [criteria | ] eqn:E; [ | discriminate].
  intros [= <-]. unfold evaluate.
  cbn [gate_passed criteria_results].
  apply gatesCriteria_small in E.
  set (rs := map (fun validator => validator project) criteria).
  assert (Hlen : length criteria = length rs)
    by (unfold rs; now rewrite length_map).
  rewrite Hlen. apply threshold_small. now rewrite <- Hlen.
Qed.

(** Its criteria are not the ones of the dashboard: the gate out of
    MEASURE passes with a single KPI. *)
Example evaluateGate_one_kpi :
  gate_passed <$> (match evaluateGate GateInputs.one_kpi_project
                           MEASURE ANALYZE with
                   | Ok r => Some r
                   | Throw _ => None
                   end) = Some true.
Proof. reflexivity. Qed.

(** With five criteria the threshold lets one failure through. *)
Example threshold_five_criteria :
  gate_passed (evaluate GateInputs.five_criteria GateInputs.one_kpi_project)
  = true.
Proof. reflexivity. Qed.

End QualityGateManager.

Section ServerVariants.
Import Server.

(** The JavaScript server classifies the rounded average with the
    thresholds 100 and 50. *)
Lemma calculateRiskLevel_thresholds (fmea : FMEA) :
  (calculateRiskLevel (Some fmea) = HIGH <-> 100 < average_rpn fmea)
  /\ (calculateRiskLevel (Some fmea) = MEDIUM
      <-> 50 < average_rpn fmea <= 100)
  /\ (calculateRiskLevel (Some fmea) = LOW <-> average_rpn fmea <= 50).
Proof.
  unfold calculateRiskLevel.
  destruct (100 <? average_rpn fmea) eqn:E1;
    [apply Z.ltb_lt in E1 | apply Z.ltb_ge in E1];
    destruct (50 <? average_rpn fmea) eqn:E2;
    [apply Z.ltb_lt in E2 | apply Z.ltb_ge in E2 | apply Z.ltb_lt in E2
     | apply Z.ltb_ge in E2];
    repeat split; intros; try discriminate; try lia; reflexivity.
Qed.

Example calculateRiskLevel_of_the_run :
  average_rpn (conductFMEA standard) = 74
  /\ calculateRiskLevel (Some (conductFMEA standard)) = MEDIUM
  /\ calculateRiskLevel None = UNKNOWN.
Proof. repeat split. Qed.

(** The failure modes the servers list carry the product of their
    inputs. *)
Lemma conductFMEA_rpn (depth : Depth) :
  Forall (fun fm => rpn fm = severity fm * occurrence fm * detection fm)
    (failure_modes (conductFMEA depth)).
Proof. destruct depth; simpl; repeat constructor. Qed.

Lemma by_score_desc_anti (x y : ScoredSolution) :
  (0 < by_score_desc x y)%Q -> (by_score_desc y x <= 0)%Q.
Proof. unfold by_score_desc. intros H. lra. Qed.

(** [evaluateSolutions] ranks the scored solutions in descending order
    of score, selects the first, and hands every solution back as it
    was. *)
Lemma evaluateSolutions_ranking (solutions : list Solution) :
  Permutation (map scoreSolution solutions)
    (all_solutions (evaluateSolutions solutions))
  /\ Sorted GateInputs.server_score_ge
       (all_solutions (evaluateSolutions solutions))
  /\ selected_solution (evaluateSolutions solutions)
     = head (all_solutions (evaluateSolutions solutions))
  /\ Forall (fun s => s = scoreSolution (scored s))
       (all_solutions (evaluateSolutions solutions)).
Proof.
  unfold evaluateSolutions; simpl. split; [apply Array_sort_perm | ].
  split; [ | split; [reflexivity | ]].
  - eapply Sorted_ind with (P := Sorted GateInputs.server_score_ge);
      [constructor | | apply (Array_sort_sorted _ by_score_desc_anti)].
    intros a l' _ IH Hd. constructor; [exact IH | ].
    destruct Hd as [ | b l'' Hab]; constructor.
    unfold precedes, by_score_desc in Hab.
    unfold GateInputs.server_score_ge. lra.
  - eapply Permutation_Forall; [apply Array_sort_perm | ].
    apply Forall_forall. intros s Hs.
    apply list_elem_of_In, in_map_iff in Hs as [x [<- _]]. reflexivity.
Qed.

End ServerVariants.

(** ** The displayed ranking under the other actions of ImprovePhase *)

Section Ranking.
Import Schema Dashboard Invariants.

Lemma deleteSolution_sorted (id : string) (w : ImproveWorld) :
  StronglySorted score_ge (solutions w) ->
  StronglySorted score_ge (solutions (deleteSolution id w)).
Proof.
  unfold deleteSolution; cbn [solutions]. intros Hs.
  induction Hs as [ | a l Hl IH Ha]; [constructor | ].
  rewrite filter_cons. destruct (decide _); [ | exact IH].
  constructor; [exact IH | ].
  apply Forall_forall. intros b Hb.
  apply list_elem_of_filter in Hb as [_ Hb].
  rewrite Forall_forall in Ha. now apply Ha.
Qed.

(** [updateStatus] changes the status of the solution it is called for
    and nothing else: the scores, hence the ranking, stay. *)
Lemma updateStatus_scores (id : string) (st : Status) (w : ImproveWorld) :
  total_score <$> solutions (updateStatus id st w)
  = total_score <$> solutions w.
Proof.
  unfold updateStatus; cbn [solutions].
  induction (solutions w) as [ | a l IH]; [reflexivity | ].
  cbn [map fmap list_fmap]. f_equal; [ | exact IH].
  destruct (String.eqb (sol_id a) id); reflexivity.
Qed.

Lemma updateStatus_others (id : string) (st : Status) (w : ImproveWorld)
    (s : Solution) :
  In s (solutions w) -> sol_id s <> id ->
  In s (solutions (updateStatus id st w)).
Proof.
  unfold updateStatus; cbn [solutions]. intros Hin Hid.
  apply in_map_iff. exists s. split; [ | exact Hin].
  destruct (String.eqb_spec (sol_id s) id); [contradiction | reflexivity].
Qed.

End Ranking.


(** ** The shared resource manager *)

Section ResourceManagerFacts.
Import ResourceManager.
Context {value : Type}.
Implicit Types (m : SharedResourceManager value) (a b k : string).

(** A property of every row of the permission table holds for the
    permissions of every known agent. *)
Lemma permissions_ind (P : string -> ResourcePermissions -> Prop) :
  map_Forall P permissions ->
  forall a p, permissions !! a = Some p -> P a p.
Proof. intros H a p Hl. exact (H a p Hl). Qed.

Ltac each_agent :=
  unfold permissions;
  repeat (apply map_Forall_insert_2; [ | ]);
  [ .. | apply map_Forall_empty ].

Lemma includes_true (x : string) (l : list string) :
  includes x l = true <-> In x l.
Proof.
  unfold includes. rewrite existsb_exists. split.
  - intros [y [Hy E]]. apply String.eqb_eq in E. now subst.
  - intros H. exists x. split; [exact H | apply String.eqb_refl].
Qed.

(** No [write] list holds the wildcard. *)
Lemma no_write_wildcard a (p : ResourcePermissions) :
  permissions !! a = Some p -> includes "*" (write p) = false.
Proof.
  revert a p. apply permissions_ind. each_agent; reflexivity.
Qed.

Lemma updateResource_Ok a k (v : value) (now : string) m m' :
  updateResource a k v now m = Ok m' ->
  (exists p, permissions !! a = Some p /\ includes k (write p) = true)
  /\ m' = mkSharedResourceManager
            (<[k := v]> (resources m))
            (updateHistory m
             ++ [mkResourceUpdate k v a now
                   (default 0 (resourceVersions m !! k) + 1)])
            (<[k := default 0 (resourceVersions m !! k) + 1]>
               (resourceVersions m)).
Proof.
  unfold updateResource.
  destruct (permissions !! a) as [p | ] eqn:Hp; [ | discriminate].
  rewrite (no_write_wildcard a p Hp). cbn [negb andb].
  destruct (includes k (write p)) eqn:Hk; cbn [negb]; [ | discriminate].
  intros [= <-]. split; [ | reflexivity]. exists p. now split.
Qed.

(** Each key has one writer. *)
Lemma writer_unique :
  exists f : string -> string,
    forall a p k,
      permissions !! a = Some p -> includes k (write p) = true -> a = f k.
Proof.
  exists (fun k =>
    if includes k ["project_state"; "phase_transitions"; "quality_decisions"]
    then "orchestrator"
    else if includes k ["requirements"; "ctq_tree"; "constraints";
                        "sipoc_diagram"; "project_charter"]
    then "define-agent"
    else if includes k ["kpis"; "baselines"; "measurement_plan";
                        "data_collection_plan"]
    then "measure-agent"
    else if includes k ["root_cause_analysis"; "fmea";
                        "statistical_analysis"; "process_map"]
    then "analyze-agent"
    else if includes k ["solution_design"; "pilot_results";
                        "implementation_plan"; "code_artifacts"]
    then "improve-agent"
    else "control-agent").
  intros a p k Hp. revert a p Hp k.
  apply (permissions_ind
           (fun a p => forall k, includes k (write p) = true -> a = _)).
  each_agent; intros k H; apply includes_true in H; cbn [write In] in H;
    repeat (destruct H as [<- | H]; [reflexivity | ]); destruct H.
Qed.


Lemma getResource_allowed b k m (pb : ResourcePermissions) :
  permissions !! b = Some pb ->
  includes "*" (read pb) || includes k (read pb) = true ->
  getResource b k m = Ok (resources m !! k).
Proof.
  intros Hb Hr. unfold getResource. rewrite Hb.
  destruct (includes "*" (read pb)), (includes k (read pb));
    try discriminate; reflexivity.
Qed.

(** X1: a value an agent stores is what every agent with read access
    to the key gets back; the store bumps the version of the key by
    one, appends one entry to the history and leaves the other keys
    alone. *)
Theorem updateResource_then_getResource a b k (v : value) (now : string)
    m m' (pb : ResourcePermissions) :
  updateResource a k v now m = Ok m' ->
  permissions !! b = Some pb ->
  includes "*" (read pb) || includes k (read pb) = true ->
  getResource b k m' = Ok (Some v)
  /\ resourceVersions m' !! k
     = Some (default 0 (resourceVersions m !! k) + 1)
  /\ updateHistory m'
     = (updateHistory m
        ++ [mkResourceUpdate k v a now
              (default 0 (resourceVersions m !! k) + 1)])%list
  /\ (forall k', k' <> k ->
        resources m' !! k' = resources m !! k'
        /\ resourceVersions m' !! k' = resourceVersions m !! k').
Proof.
  intros Hu Hb Hr. apply updateResource_Ok in Hu as [_ ->].
  rewrite (getResource_allowed b k _ pb Hb Hr).
  cbn [resources resourceVersions updateHistory].
  rewrite !lookup_insert_eq. repeat split; [ | ].
  - now rewrite lookup_insert_ne by congruence.
  - now rewrite lookup_insert_ne by congruence.
Qed.

(** X2: every resource key has at most one writer: two stores under
    the same key that both succeed, in whatever states, were made by
    the same agent. *)
Theorem each_key_has_one_writer a b k (v v' : value) (now now' : string)
    m1 m2 m1' m2' :
  updateResource a k v now m1 = Ok m1' ->
  updateResource b k v' now' m2 = Ok m2' ->
  a = b.
Proof.
  intros Ha Hb.
  apply updateResource_Ok in Ha as [[pa [Hpa Hka]] _].
  apply updateResource_Ok in Hb as [[pb [Hpb Hkb]] _].
  destruct writer_unique as [f Hf].
  now rewrite (Hf a pa k Hpa Hka), (Hf b pb k Hpb Hkb).
Qed.

(** *** Clearing *)

Lemma prefix_empty (s : string) : String.prefix "" s = true.
Proof. now destruct s. Qed.

Lemma lookup_fold_delete (ks : list string) (r : gmap string value) k :
  fold_left (fun r key => delete key r) ks r !! k
  = if includes k ks then None else r !! k.
Proof.
  revert r. induction ks as [ | k0 ks IH]; intros r; [reflexivity | ].
  cbn [fold_left]. rewrite IH. unfold includes. cbn [existsb].
  destruct (existsb (String.eqb k) ks); [now rewrite orb_true_r | ].
  rewrite orb_false_r.
  destruct (String.eqb_spec k k0) as [-> | Hne].
  - apply lookup_delete_eq.
  - apply lookup_delete_ne. congruence.
Qed.

Lemma keysToDelete_spec (projectId : string) (r : gmap string value) k :
  In k (map_fold
          (fun key (_ : value) keys =>
             if String.prefix projectId key then (keys ++ [key])%list
             else keys) [] r)
  <-> is_Some (r !! k) /\ String.prefix projectId k = true.
Proof.
  revert k.
  apply (map_fold_weak_ind
           (fun keys (r : gmap string value) =>
              forall k, In k keys
                        <-> is_Some (r !! k)
                            /\ String.prefix projectId k = true)).
  - intros k. rewrite lookup_empty. split; [intros [] | ].
    intros [[? ?] _]; discriminate.
  - intros i x r' keys Hi IH k.
    destruct (decide (i = k)) as [-> | Hne].
    + rewrite lookup_insert_eq.
      destruct (String.prefix projectId k) eqn:Hp.
      * rewrite in_app_iff. split; [now eauto | ]. intros _. right. now left.
      * rewrite IH. split; intros [_ ?]; congruence.
    + rewrite lookup_insert_ne by exact Hne.
      destruct (String.prefix projectId i) eqn:Hp; [ | apply IH].
      rewrite in_app_iff, IH. split; [ | now left].
      intros [H | [H | []]]; [exact H | contradiction].
Qed.

Lemma clearProjectResources_lookup (projectId : string) m k :
  resources (clearProjectResources projectId m) !! k
  = if String.prefix projectId k then None else resources m !! k.
Proof.
  unfold clearProjectResources. cbn [resources].
  rewrite lookup_fold_delete.
  destruct (includes k _) eqn:Hin.
  - apply includes_true, keysToDelete_spec in Hin as [_ ->]. reflexivity.
  - destruct (String.prefix projectId k) eqn:Hp; [ | reflexivity].
    destruct (resources m !! k) as [x | ] eqn:Hk; [ | reflexivity].
    assert (H : includes k
                  (map_fold
                     (fun key (_ : value) keys =>
                        if String.prefix projectId key
                        then (keys ++ [key])%list else keys) []
                     (resources m)) = true)
      by (apply includes_true, keysToDelete_spec; rewrite Hk; eauto).
    congruence.
Qed.

Lemma getProjectResources_lookup (projectId : string) m k :
  getProjectResources projectId m !! k
  = if String.prefix projectId k then resources m !! k else None.
Proof.
  unfold getProjectResources. revert k.
  apply (map_fold_weak_ind
           (fun (acc r : gmap string value) =>
              forall k, acc !! k
                        = if String.prefix projectId k then r !! k
                          else None)).
  - intros k. rewrite !lookup_empty. now destruct (String.prefix _ _).
  - intros i x r acc Hi IH k.
    destruct (decide (i = k)) as [-> | Hne].
    + destruct (String.prefix projectId k) eqn:Hp.
      * now rewrite !lookup_insert_eq.
      * rewrite IH, Hp. reflexivity.
    + rewrite (lookup_insert_ne r) by exact Hne.
      destruct (String.prefix projectId i);
        [rewrite lookup_insert_ne by exact Hne | ]; apply IH.
Qed.

(** X3: [clearProjectResources] removes exactly the keys that start
    with the project identifier, so that [getProjectResources] of it is
    empty afterwards; the version counters and the history stay, and a
    later store under a cleared key continues the old numbering. *)
Theorem clearProjectResources_keeps_the_versions (projectId : string) m
    a k (v : value) (now : string) :
  getProjectResources projectId (clearProjectResources projectId m) = ∅
  /\ (forall k',
        resources (clearProjectResources projectId m) !! k'
        = if String.prefix projectId k' then None else resources m !! k')
  /\ resourceVersions (clearProjectResources projectId m)
     = resourceVersions m
  /\ updateHistory (clearProjectResources projectId m) = updateHistory m
  /\ (forall m'',
        updateResource a k v now (clearProjectResources projectId m) = Ok m''
        -> resourceVersions m'' !! k
           = Some (default 0 (resourceVersions m !! k) + 1)).
Proof.
  split.
  { apply map_eq. intros k'.
    rewrite getProjectResources_lookup, clearProjectResources_lookup,
      lookup_empty.
    now destruct (String.prefix projectId k'). }
  split; [apply clearProjectResources_lookup | ].
  split; [reflexivity | ]. split; [reflexivity | ].
  intros m'' Hu. apply updateResource_Ok in Hu as [_ ->].
  cbn [resourceVersions clearProjectResources]. apply lookup_insert_eq.
Qed.

(** *** Sequences of calls *)

Lemma run_snoc (calls : list (call value)) (c : call value) :
  run (calls ++ [c]) = step (run calls) c.
Proof. unfold run. now rewrite fold_left_app. Qed.

Lemma step_cases m (c : call value) :
  step m c = m
  \/ (exists projectId, step m c = clearProjectResources projectId m)
  \/ (exists a k v now,
        updateResource a k v now m = Ok (step m c)).
Proof.
  destruct c as [a k v now | projectId]; cbn [step]; [ | eauto].
  destruct (updateResource a k v now m) eqn:E; [ | now left].
  right. right. exists a, k, v, now. exact E.
Qed.

(** What holds of a new manager and is kept by a successful store and
    by a clearing holds after every sequence of calls. *)
Lemma run_ind (P : SharedResourceManager value -> Prop) :
  P new ->
  (forall m a k v now m', P m -> updateResource a k v now m = Ok m' -> P m') ->
  (forall m projectId, P m -> P (clearProjectResources projectId m)) ->
  forall calls, P (run calls).
Proof.
  intros Hnew Hupd Hclear calls.
  induction calls as [ | c calls IH] using rev_ind; [exact Hnew | ].
  rewrite run_snoc.
  destruct (step_cases (run calls) c) as [-> | [[pid ->] | [a [k [v [now E]]]]]].
  - exact IH.
  - now apply Hclear.
  - exact (Hupd _ _ _ _ _ _ IH E).
Qed.


(** X4: after any sequence of calls the history entries of a key carry
    the versions 1, 2, ... up to the stored version of the key, in this
    order, and a value that is stored under the key is the value of the
    latest entry. *)
Theorem history_versions_are_consecutive (calls : list (call value)) k :
  k <> "" ->
  version <$> getUpdateHistory (Some k) (run calls)
  = seqZ 1 (default 0 (resourceVersions (run calls) !! k))
  /\ (forall v,
        resources (run calls) !! k = Some v ->
        upd_value <$> last (getUpdateHistory (Some k) (run calls)) = Some v).
Proof.
  intros Hk. unfold getUpdateHistory.
  destruct (String.eqb_spec k "") as [E | _]; [contradiction | ].
  cbn [negb]. clear Hk.
  enough (H : forall k,
             (version <$> List.filter
                            (fun update => String.eqb (resource_key update) k)
                            (updateHistory (run calls))
              = seqZ 1 (default 0 (resourceVersions (run calls) !! k))
              /\ 0 <= default 0 (resourceVersions (run calls) !! k))
             /\ (forall v,
                   resources (run calls) !! k = Some v ->
                   upd_value <$> last (List.filter
                                         (fun update =>
                                            String.eqb (resource_key update) k)
                                         (updateHistory (run calls)))
                   = Some v)).
  { destruct (H k) as [[H1 _] H2]. now split. }
  clear k. apply run_ind with (calls := calls); clear calls.
  - intros k. cbn [new resources resourceVersions updateHistory List.filter].
    rewrite !lookup_empty. repeat split; [cbn; lia | discriminate].
  - intros m a k0 v now m' IH Hu k.
    apply updateResource_Ok in Hu as [_ ->].
    cbn [resources resourceVersions updateHistory].
    rewrite List.filter_app. cbn [List.filter resource_key].
    destruct (IH k) as [[IH1 IH2] IH3].
    destruct (String.eqb_spec k0 k) as [-> | Hne].
    + set (n := default 0 (resourceVersions m !! k)) in *.
      rewrite !lookup_insert_eq. cbn [from_option id].
      rewrite fmap_app, IH1. cbn [fmap list_fmap version].
      split; [split | ].
      * rewrite (seqZ_app 1 _ 1) by lia. f_equal.
        rewrite seqZ_cons, seqZ_nil by lia. f_equal. lia.
      * lia.
      * intros v' [= <-]. now rewrite last_snoc.
    + rewrite !lookup_insert_ne by exact Hne.
      rewrite app_nil_r. now repeat split.
  - intros m projectId IH k. destruct (IH k) as [[IH1 IH2] IH3].
    split; [split; [exact IH1 | exact IH2] | ].
    intros v Hv. apply (IH3 v).
    rewrite clearProjectResources_lookup in Hv.
    now destruct (String.prefix projectId k).
Qed.

(** *** Project keys *)

Lemma project_key_not_listed a (p : ResourcePermissions) (s : string) :
  permissions !! a = Some p ->
  includes (String.append "proj_" s) (write p) = false
  /\ (a <> "orchestrator" ->
      includes "*" (read p) = false
      /\ includes (String.append "proj_" s) (read p) = false).
Proof.
  revert a p. apply permissions_ind. each_agent;
    (split; [reflexivity | ]); intros H;
    try (split; reflexivity); contradiction.
Qed.

Lemma prefix_project_key (s k : string) :
  String.prefix (String.append "proj_" s) k = true ->
  exists s', k = String.append "proj_" s'.
Proof.
  intros H. cbv [String.append] in H.
  repeat (destruct k as [ | ? k]; cbn [String.prefix] in H;
          [discriminate H | ];
          destruct (Ascii.ascii_dec _ _) as [<- | _]; [ | discriminate H]).
  now exists k.
Qed.

Lemma stored_keys_are_listed (calls : list (call value)) k (v : value) :
  resources (run calls) !! k = Some v ->
  exists a p, permissions !! a = Some p /\ includes k (write p) = true.
Proof.
  revert k v. apply run_ind with (calls := calls); clear calls.
  - intros k v. cbn. now rewrite lookup_empty.
  - intros m a k0 v0 now m' IH Hu k v.
    apply updateResource_Ok in Hu as [[p [Hp Hk]] ->]. cbn [resources].
    destruct (decide (k0 = k)) as [-> | Hne]; [now eauto | ].
    rewrite lookup_insert_ne by exact Hne. apply IH.
  - intros m projectId IH k v.
    rewrite clearProjectResources_lookup.
    destruct (String.prefix projectId k); [discriminate | apply IH].
Qed.

(** X5: no agent, the orchestrator included, can store anything under a
    key that starts with [proj_], the form of the project identifiers
    the server generates.  Hence after any sequence of calls no such key
    holds a value, [getProjectResources] of such an identifier is empty,
    and the orchestrator reads [undefined] there. *)
Theorem project_keys_cannot_be_written a (s : string) (v : value)
    (now : string) m (calls : list (call value)) :
  (exists msg, updateResource a (String.append "proj_" s) v now m = Throw msg)
  /\ resources (run calls) !! String.append "proj_" s = None
  /\ getProjectResources (String.append "proj_" s) (run calls) = ∅
  /\ getResource "orchestrator" (String.append "proj_" s) (run calls)
     = Ok None.
Proof.
  assert (Hnone : forall s', resources (run calls) !! String.append "proj_" s'
                             = None).
  { intros s'.
    destruct (resources (run calls) !! String.append "proj_" s') as [x | ] eqn:E;
      [ | reflexivity].
    apply stored_keys_are_listed in E as [a' [p [Hp Hk]]].
    destruct (project_key_not_listed a' p s' Hp) as [Hw _]. congruence. }
  split.
  { destruct (updateResource a _ v now m) as [m' | msg] eqn:E; [ | eauto].
    apply updateResource_Ok in E as [[p [Hp Hk]] _].
    destruct (project_key_not_listed a p s Hp) as [Hw _]. congruence. }
  split; [apply Hnone | ]. split.
  - apply map_eq. intros k. rewrite getProjectResources_lookup, lookup_empty.
    destruct (String.prefix _ k) eqn:Hp; [ | reflexivity].
    apply prefix_project_key in Hp as [s' ->]. apply Hnone.
  - unfold getResource. cbn. now rewrite Hnone.
Qed.

(** X6: the accessors a phase agent inherits from [BaseAgent] all throw
    for a project identifier that starts with [proj_]: the keys they
    build are in no [read] and no [write] list. *)
Theorem phase_agents_cannot_reach_a_project a (t key : string)
    (state v : value) (now : string) m :
  a <> "orchestrator" ->
  (exists msg, getProjectState a (String.append "proj_" t) m = Throw msg)
  /\ (exists msg,
        getProjectResource a (String.append "proj_" t) key m = Throw msg)
  /\ (exists msg,
        updateProjectState a (String.append "proj_" t) state now m
        = Throw msg)
  /\ (exists msg,
        updateProjectResource a (String.append "proj_" t) key v now m
        = Throw msg).
Proof.
  intros Ha.
  assert (Hr : forall s, exists msg,
               getResource a (String.append "proj_" s) m = Throw msg).
  { intros s. unfold getResource.
    destruct (permissions !! a) as [p | ] eqn:Hp; [ | eauto].
    destruct (project_key_not_listed a p s Hp) as [_ H].
    destruct (H Ha) as [-> ->]. cbn. eauto. }
  assert (Hw : forall s x, exists msg,
               updateResource a (String.append "proj_" s) x now m = Throw msg).
  { intros s x. unfold updateResource.
    destruct (permissions !! a) as [p | ] eqn:Hp; [ | eauto].
    destruct (project_key_not_listed a p s Hp) as [-> _].
    rewrite (no_write_wildcard a p Hp). cbn. eauto. }
  unfold getProjectState, getProjectResource, updateProjectState,
    updateProjectResource.
  repeat split; [apply (Hr (String.append t "_state"))
                | apply (Hr (String.append t (String.append "_" key)))
                | apply (Hw (String.append t "_state"))
                | apply (Hw (String.append t (String.append "_" key)))].
Qed.

End ResourceManagerFacts.

(** The requirements the Define agent stores in a new manager are what
    the Measure agent reads. *)
Lemma updateResource_then_getResource_witness :
  ResourceManager.getResource "measure-agent" "requirements"
    ResourceInputs.after_store = Ok (Some "R1")
  /\ ResourceManager.resourceVersions ResourceInputs.after_store
     !! "requirements" = Some 1.
Proof.
  destruct (updateResource_then_getResource
              "define-agent" "measure-agent" "requirements" "R1" "t1"
              ResourceManager.new ResourceInputs.after_store
              ResourceInputs.measure_agent)
    as [H1 [H2 _]]; [reflexivity | reflexivity | reflexivity | ].
  split; [exact H1 | exact H2].
Defined.

(** Two stores of the requirements, in different states. *)
Lemma each_key_has_one_writer_witness :
  ResourceManager.updateResource "define-agent" "requirements" "R1" "t1"
    ResourceManager.new = Ok ResourceInputs.after_store
  /\ "define-agent" = "define-agent".
Proof.
  split; [reflexivity | ].
  apply (each_key_has_one_writer "define-agent" "define-agent" "requirements"
           "R1" "R2" "t1" "t2" ResourceManager.new ResourceInputs.after_store
           ResourceInputs.after_store
           (ResourceManager.step ResourceInputs.after_store
              (ResourceManager.Update "define-agent" "requirements" "R2"
                 "t2")));
    reflexivity.
Defined.

(** Three stores with a clearing in between: the versions are 1, 2, 3
    and the stored value is the third. *)
Lemma history_versions_are_consecutive_witness :
  ResourceManager.version
    <$> ResourceManager.getUpdateHistory (Some "requirements")
          (ResourceManager.run ResourceInputs.calls)
  = seqZ 1 3
  /\ ResourceManager.resources (ResourceManager.run ResourceInputs.calls)
     !! "requirements" = Some "R3".
Proof.
  destruct (history_versions_are_consecutive ResourceInputs.calls
              "requirements") as [H _]; [discriminate | ].
  split; [exact H | reflexivity].
Defined.

(** The Define agent and a project identifier as the server generates
    them. *)
Lemma phase_agents_cannot_reach_a_project_witness :
  exists msg,
    ResourceManager.getProjectState (value := string) "define-agent"
      "proj_1700000000000" ResourceManager.new = Throw msg.
Proof.
  destruct (phase_agents_cannot_reach_a_project (value := string)
              "define-agent" "1700000000000" "ctq_tree" "S" "V" "t1"
              ResourceManager.new) as [H _]; [discriminate | exact H].
Defined.


(** ** The quality gate manager: threshold, placeholders, KPIs *)

Section QualityGateFacts.
Import QualityGates.

Lemma threshold_as_integers (k n : Z) :
  0 <= k -> 0 <= n ->
  Qle_bool 80 (inject_Z k / inject_Z n * 100)%Q = true
  <-> 0 < n /\ 4 * n <= 5 * k.
Proof.
  intros Hk Hn. rewrite Qle_bool_iff.
  destruct n as [ | p | p]; [ | | lia].
  - split; [ | lia]. intros H. exfalso.
    unfold Qle, Qdiv, Qmult, Qinv, inject_Z in H. cbn in H. lia.
  - unfold Qle, Qdiv, Qmult, Qinv, inject_Z.
    cbn [Qnum Qden Z.mul Pos.mul]. split; [intros H; split; lia | lia].
Qed.

(** X7: a gate evaluated over any list of criteria passes exactly when
    the list is not empty and at least four fifths of the criteria
    pass. *)
Theorem evaluate_passes_from_four_fifths
    (criteria : list (ProjectState -> CriteriaResult))
    (project : ProjectState) :
  gate_passed (evaluate criteria project) = true
  <-> criteria <> []
      /\ 4 * Z.of_nat (length criteria)
         <= 5 * Z.of_nat
                  (length (List.filter passed
                             (criteria_results (evaluate criteria project)))).
Proof.
  unfold evaluate. cbn [gate_passed criteria_results].
  set (rs := map (fun validator => validator project) criteria).
  assert (Hf : length (filter (fun r => Is_true (passed r)) rs)
               = length (List.filter passed rs)).
  { clear. induction rs as [ | r rs IH]; [reflexivity | ].
    rewrite filter_cons. cbn [List.filter].
    destruct (passed r); cbn; [ | exact IH].
    destruct (decide _) as [_ | H]; [cbn; now rewrite IH | ].
    exfalso. apply H. exact I. }
  rewrite Hf, threshold_as_integers by lia.
  destruct criteria; [cbn; split; [lia | intros [[] _]; reflexivity] | ].
  cbn [length]. split; intros [_ H]; (split; [try discriminate; lia | exact H]).
Qed.

(** X8: the gates out of ANALYZE, IMPROVE and CONTROL hold placeholders
    only: whenever the manager evaluates one of them, it passes with a
    score of 100, whatever the project and its phase. *)
Theorem placeholder_gates_always_pass (project : ProjectState)
    (f t : DMAICPhase) (r : QualityGateResult) :
  evaluateGate project f t = Ok r ->
  f <> DEFINE -> f <> MEASURE ->
  gate_passed r = true
  /\ (overall_score r == 100)%Q
  /\ Forall (fun c => passed c = true) (criteria_results r).
Proof.
  unfold evaluateGate. intros H Hd Hm.
  destruct f, t; cbn in H; try discriminate; try contradiction;
    injection H as <-; repeat split; repeat constructor.
Qed.

(** X9: the gate out of MEASURE passes exactly when the project has at
    least one KPI and every KPI has a target; baselines and measurement
    plan are not looked at. *)
Theorem measure_gate_needs_one_kpi_with_target (project : ProjectState) :
  exists r,
    evaluateGate project MEASURE ANALYZE = Ok r
    /\ (gate_passed r = true
        <-> exists ks,
              measure project ≫= kpis = Some ks
              /\ ks <> []
              /\ Forall (fun kpi => is_Some (target kpi)) ks).
Proof.
  eexists. split; [reflexivity | ].
  unfold evaluate, validateKPIsDefined, createPlaceholderResult.
  cbn [map gate_passed passed].
  destruct (measure project ≫= kpis) as [ks | ]; cbn [default length].
  - destruct ks as [ | k ks].
    + cbn. split; [discriminate | ]. intros [ks [[= <-] [H _]]]. contradiction.
    + assert (Hpos : (0 <? Z.of_nat (length (k :: ks))) = true)
        by (apply Z.ltb_lt; cbn [length]; lia).
      unfold id. rewrite Hpos. cbn [andb].
      destruct (forallb _ (k :: ks)) eqn:Hall;
        match goal with
        | |- context [Qle_bool ?a ?b] =>
            let v := eval vm_compute in (Qle_bool a b) in
            change (Qle_bool a b) with v
        end.
      * split; [intros _ | reflexivity].
        exists (k :: ks). repeat split; [discriminate | ].
        rewrite forallb_forall in Hall. apply Forall_forall.
        intros x Hx. apply list_elem_of_In, Hall in Hx.
        now apply bool_decide_eq_true in Hx.
      * split; [discriminate | ]. intros [ks' [[= <-] [_ HF]]].
        exfalso. apply not_true_iff_false in Hall. apply Hall.
        apply forallb_forall. intros x Hx. apply bool_decide_eq_true.
        rewrite Forall_forall in HF. apply HF. now apply list_elem_of_In.
  - cbn. split; [discriminate | ]. intros [ks [[=] _]].
Qed.

End QualityGateFacts.

(** The gate out of CONTROL, evaluated for a project in MEASURE. *)
Lemma placeholder_gates_always_pass_witness :
  exists r,
    QualityGates.evaluateGate GateInputs.one_kpi_project QualityGates.CONTROL
      QualityGates.COMPLETE = Ok r
    /\ QualityGates.gate_passed r = true.
Proof.
  eexists. split; [reflexivity | ].
  eapply (placeholder_gates_always_pass GateInputs.one_kpi_project
            QualityGates.CONTROL QualityGates.COMPLETE);
    [reflexivity | discriminate | discriminate].
Defined.

(** ** The JavaScript server: what every sequence of tool calls keeps *)

Section ServerCallFacts.
Import Server ServerCalls.

Lemma server_run_snoc (calls : list call) (c : call) :
  run (calls ++ [c]) = step (run calls) c.
Proof. unfold run. now rewrite fold_left_app. Qed.

(** A successful phase tool replaces the project it was called for by
    an updated one. *)
Lemma tool_Ok (c : call) (projects projects' : Projects) :
  tool c projects = Ok projects' ->
  exists p', projects' = <[target_of c := p']> projects
             /\ match c with
                | CreateProject _ _ _ _ _ _ _ _ => True
                | _ => is_Some (projects !! target_of c)
                end.
Proof.
  destruct c; cbn [tool target_of];
    [intros [= <-]; unfold createProject; eauto | .. ];
    unfold definePhase, measurePhase, analyzePhase, improvePhase,
      controlPhase;
    (destruct (projects !! project_id) as [p | ] eqn:Hp; [ | discriminate]);
    try (destruct (negb _ && negb _); [discriminate | ]);
    try (destruct (negb _); [discriminate | ]);
    try (destruct (define (artifacts p)); [ | discriminate]);
    intros [= <-]; eauto.
Qed.

(** X10: a phase tool acts on the project it is called for and on no
    other: it throws when the project does not exist, and after any
    call, successful or not, every other project is as it was.  Only
    [createProject] adds a project. *)
Theorem tools_act_on_one_project (c : call) (projects : Projects)
    (pid : string) :
  (pid <> target_of c -> step projects c !! pid = projects !! pid)
  /\ (projects !! target_of c = None ->
      match c with
      | CreateProject _ _ _ _ _ _ _ _ => True
      | _ => tool c projects = Throw "Project not found"
      end)
  /\ (is_Some (step projects c !! pid)
      <-> is_Some (projects !! pid)
          \/ exists id now name case reqs target budget timeline,
               c = CreateProject id now name case reqs target budget timeline
               /\ pid = id).
Proof.
  unfold step. split; [ | split].
  - intros Hne. unfold Projects in *. destruct (tool c projects) as [projects' | ] eqn:E;
      [ | reflexivity].
    apply tool_Ok in E as [p' [-> _]]. now apply lookup_insert_ne.
  - intros Hnone. destruct c; cbn [tool target_of] in *; [exact I | .. ];
      unfold definePhase, measurePhase, analyzePhase, improvePhase,
        controlPhase; now rewrite Hnone.
  - destruct (tool c projects) as [projects' | ] eqn:E.
    + apply tool_Ok in E as [p' [-> Hsome]]. unfold Projects in *.
      destruct (decide (target_of c = pid)) as [<- | Hne].
      * rewrite lookup_insert_eq. split; [intros _ | eauto].
        destruct c; cbn [target_of] in *;
          [right; repeat eexists | left; exact Hsome ..].
      * rewrite lookup_insert_ne by exact Hne.
        split; [now left | ]. intros [H | H]; [exact H | ].
        destruct H as (? & ? & ? & ? & ? & ? & ? & ? & -> & ->).
        now contradiction Hne.
    + split; [now left | ]. intros [H | H]; [exact H | ].
      destruct H as (? & ? & ? & ? & ? & ? & ? & ? & -> & _). discriminate E.
Qed.


(** *** What is recorded for a project after any sequence of calls *)

Let define_criteria : list (string * bool) :=
  [ ("voc_complete", true); ("ctq_defined", true);
    ("constraints_documented", true); ("sipoc_created", true) ].

(** Criteria are recorded for DEFINE and together with the Define
    artifacts only; the risk level is UNKNOWN or MEDIUM; MEASURE is
    never the current phase. *)
Let recorded (p : Project) : Prop :=
  ((define (artifacts p) = None /\ gate_criteria p = [])
   \/ (is_Some (define (artifacts p))
       /\ gate_criteria p = [(DEFINE, define_criteria)]))
  /\ (risk_level (metrics p) = UNKNOWN \/ risk_level (metrics p) = MEDIUM)
  /\ (0 <= phase_completion (metrics p) <= 100)%Q
  /\ current_phase p <> MEASURE.

Lemma recorded_score (p : Project) :
  recorded p -> 10 <= calculateQualityScore p <= 68.
Proof.
  intros [Hg [Hr [Hpc _]]]. unfold calculateQualityScore.
  assert (Hm : metGates p = 0 \/ metGates p = 4).
  { unfold metGates. destruct Hg as [[_ ->] | [_ ->]]; [now left | now right]. }
  assert (Hs : (riskScore (risk_level (metrics p)) == 10
                \/ riskScore (risk_level (metrics p)) == 20)%Q).
  { destruct Hr as [-> | ->]; [now left | now right]. }
  assert (HmQ : (inject_Z (metGates p) == 0 \/ inject_Z (metGates p) == 4)%Q).
  { destruct Hm as [-> | ->]; [now left | now right]. }
  apply Math_round_range; rewrite rawQualityScore_formula;
    [change (inject_Z 10) with 10%Q | change (inject_Z 68) with 68%Q];
    set (m := inject_Z (metGates p)) in *;
    assert (Hd : (m / 16 == m * (1 # 16))%Q) by (unfold Qdiv; reflexivity);
    rewrite Hd; destruct HmQ as [E | E], Hs as [E' | E']; rewrite E, E'; lra.
Qed.

Lemma calculateRiskLevel_conductFMEA (depth : Depth) :
  calculateRiskLevel (Some (conductFMEA depth)) = MEDIUM.
Proof. now destruct depth. Qed.

Lemma recorded_kept (c : call) (projects projects' : Projects) :
  map_Forall (fun _ p => recorded p /\ 0 <= quality_score (metrics p) <= 68)
    projects ->
  tool c projects = Ok projects' ->
  map_Forall (fun _ p => recorded p /\ 0 <= quality_score (metrics p) <= 68)
    projects'.
Proof.
  intros Hall.
  assert (Hscore : forall p q,
            recorded p ->
            recorded (with_quality_score q p)) by (intros p q H; exact H).
  destruct c as [id0 now nm cs reqs tg bd tl | now pid0 | now pid0
                | now pid0 depth | now pid0 approach | now pid0]; cbn [tool].
  - intros [= <-]. unfold createProject.
    apply map_Forall_insert_2; [ | exact Hall].
    repeat split; cbn; try lia; try discriminate; try lra; auto.
  - unfold definePhase.
    destruct (projects !! pid0) as [p | ] eqn:Hp; [ | discriminate].
    destruct (bool_decide (current_phase p = DEFINE)) eqn:Hph;
      cbn [negb]; [ | discriminate].
    apply bool_decide_eq_true in Hph. intros [= <-].
    apply map_Forall_insert_2; [ | exact Hall].
    destruct (Hall _ _ Hp) as [[Hg [Hr [Hpc Hm]]] _].
    match goal with
    | |- recorded (recompute_quality ?q) /\ _ =>
        assert (Hq : recorded q)
    end.
    { repeat split; cbn; try lra; try exact Hr; try exact Hm.
      right. split; [eauto | ].
      destruct Hg as [[_ ->] | [_ ->]]; reflexivity. }
    split; [exact Hq | ]. apply recorded_score in Hq.
    cbn [recompute_quality with_quality_score with_metrics metrics
           quality_score]. lia.
  - unfold measurePhase.
    destruct (projects !! pid0) as [p | ] eqn:Hp; [ | discriminate].
    destruct (negb _ && negb _); [discriminate | ].
    destruct (define (artifacts p)) as [d | ] eqn:Hd; [ | discriminate].
    intros [= <-]. apply map_Forall_insert_2; [ | exact Hall].
    destruct (Hall _ _ Hp) as [[Hg [Hr [Hpc Hm]]] _].
    match goal with
    | |- recorded (recompute_quality ?q) /\ _ =>
        assert (Hq : recorded q)
    end.
    { repeat split; cbn; try lra; try exact Hr; try discriminate.
      rewrite Hd in *. exact Hg. }
    split; [exact Hq | ]. apply recorded_score in Hq.
    cbn [recompute_quality with_quality_score with_metrics metrics
           quality_score]. lia.
  - unfold analyzePhase.
    destruct (projects !! pid0) as [p | ] eqn:Hp; [ | discriminate].
    intros [= <-]. apply map_Forall_insert_2; [ | exact Hall].
    destruct (Hall _ _ Hp) as [[Hg [Hr [Hpc Hm]]] Hq].
    destruct depth as [[ | ] | ];
    repeat split; cbn; try lra; try lia; try discriminate; auto.
  - unfold improvePhase.
    destruct (projects !! pid0) as [p | ] eqn:Hp; [ | discriminate].
    intros [= <-]. apply map_Forall_insert_2; [ | exact Hall].
    destruct (Hall _ _ Hp) as [[Hg [Hr [Hpc Hm]]] _].
    match goal with
    | |- recorded (recompute_quality ?q) /\ _ =>
        assert (Hq : recorded q)
    end.
    { repeat split; cbn; try lra; try exact Hr; try discriminate.
      exact Hg. }
    split; [exact Hq | ]. apply recorded_score in Hq.
    cbn [recompute_quality with_quality_score with_metrics metrics
           quality_score]. lia.
  - unfold controlPhase.
    destruct (projects !! pid0) as [p | ] eqn:Hp; [ | discriminate].
    intros [= <-]. apply map_Forall_insert_2; [ | exact Hall].
    destruct (Hall _ _ Hp) as [[Hg [Hr [Hpc Hm]]] _].
    match goal with
    | |- recorded (recompute_quality ?q) /\ _ =>
        assert (Hq : recorded q)
    end.
    { repeat split; cbn; try lra; try exact Hr; try discriminate.
      exact Hg. }
    split; [exact Hq | ]. apply recorded_score in Hq.
    cbn [recompute_quality with_quality_score with_metrics metrics
           quality_score]. lia.
Qed.

Lemma recorded_run (calls : list call) :
  map_Forall (fun _ p => recorded p /\ 0 <= quality_score (metrics p) <= 68)
    (run calls).
Proof.
  induction calls as [ | c calls IH] using rev_ind.
  - apply map_Forall_empty.
  - rewrite server_run_snoc. unfold step.
    destruct (tool c (run calls)) as [projects' | ] eqn:E; [ | exact IH].
    exact (recorded_kept c _ _ IH E).
Qed.

(** X11: whatever tools are called in whatever order, the stored
    quality score of a project never exceeds 68, its risk level is
    UNKNOWN or MEDIUM, never LOW or HIGH, at most the four criteria of
    DEFINE are recorded as met, and MEASURE is never its current
    phase. *)
Theorem server_score_never_exceeds_68 (calls : list call) (pid : string)
    (p : Project) :
  run calls !! pid = Some p ->
  0 <= quality_score (metrics p) <= 68
  /\ (risk_level (metrics p) = UNKNOWN \/ risk_level (metrics p) = MEDIUM)
  /\ metGates p <= 4
  /\ current_phase p <> MEASURE.
Proof.
  intros Hp. destruct (recorded_run calls pid p Hp) as [[Hg [Hr [_ Hm]]] Hq].
  assert (Hmet : metGates p = 0 \/ metGates p = 4).
  { unfold metGates. destruct Hg as [[_ ->] | [_ ->]]; [now left | now right]. }
  repeat split; try lia; assumption.
Qed.

(** X12: after any sequence of calls the gate check answers that all
    criteria are met exactly for a project that is in DEFINE and has its
    Define artifacts; in no later phase can it be passed. *)
Theorem gate_check_passes_in_DEFINE_only (calls : list call) (pid : string)
    (p : Project) :
  run calls !! pid = Some p ->
  checkPhaseGate pid (run calls) = Ok (Some true)
  <-> current_phase p = DEFINE /\ is_Some (define (artifacts p)).
Proof.
  intros Hp. destruct (recorded_run calls pid p Hp) as [[Hg [_ [_ Hm]]] _].
  unfold checkPhaseGate. rewrite Hp.
  destruct (current_phase p) eqn:Hph; try contradiction;
    destruct Hg as [[Hd ->] | [Hd ->]]; cbn;
    (split; [intros [=] | intros [[=] Hs]]); try (split; [reflexivity | ]);
    try assumption; try reflexivity.
  rewrite Hd in Hs. now destruct Hs.
Qed.


(** *** A full run *)

Lemma step_insert (c : call) (pid : string) (p p' : Project)
    (projects : Projects) :
  tool c (<[pid := p]> projects)
  = Ok (<[pid := p']> (<[pid := p]> projects)) ->
  step (<[pid := p]> projects) c = <[pid := p']> projects.
Proof.
  unfold step. intros ->. unfold Projects. apply insert_insert_eq.
Qed.

Ltac normal_project :=
  match goal with
  | |- context [<[_ := ?q]> _] =>
      let q' := eval vm_compute in q in
      replace q with q' by (vm_compute; reflexivity)
  end.

(** X13: the five phase tools called in their order for a project that
    was just created all succeed, whatever the inputs: the project ends
    in COMPLETED with completion 100, risk level MEDIUM and the stored
    quality score 68, and its DEFINE entry of [phase_status] still says
    IN_PROGRESS. *)
Theorem full_run_ends_with_score_68
    (pid t0 t1 t2 t3 t4 t5 project_name case : string) (reqs : list string)
    (target : option string) (budget timeline : option Q)
    (depth : option Depth) (approach : option SolutionApproach)
    (projects : Projects) :
  exists p,
    fold_left step (full_run t1 t2 t3 t4 t5 pid depth approach)
      (createProject pid t0 project_name case reqs target budget timeline
         projects) !! pid = Some p
    /\ current_phase p = COMPLETED
    /\ phase_completion (metrics p) = 100%Q
    /\ risk_level (metrics p) = MEDIUM
    /\ quality_score (metrics p) = 68
    /\ phase_status p
       = [ (DEFINE, IN_PROGRESS t0); (MEASURE, PHASE_COMPLETED t2);
           (ANALYZE, PHASE_COMPLETED t3); (IMPROVE, PHASE_COMPLETED t4);
           (CONTROL, PHASE_COMPLETED t5) ].
Proof.
  unfold full_run, createProject. cbn [fold_left].
  destruct depth as [[ | ] | ], approach as [[ | | ] | ];
    (erewrite (step_insert (DefinePhase t1 pid) pid);
       [ | cbn [tool]; unfold definePhase, Projects;
           rewrite lookup_insert_eq; reflexivity ]);
    normal_project;
    (erewrite (step_insert (MeasurePhase t2 pid) pid);
       [ | cbn [tool]; unfold measurePhase, Projects;
           rewrite lookup_insert_eq; reflexivity ]);
    normal_project;
    (erewrite (step_insert (AnalyzePhase t3 pid _) pid);
       [ | cbn [tool]; unfold analyzePhase, Projects;
           rewrite lookup_insert_eq; reflexivity ]);
    normal_project;
    (erewrite (step_insert (ImprovePhase t4 pid _) pid);
       [ | cbn [tool]; unfold improvePhase, Projects;
           rewrite lookup_insert_eq; reflexivity ]);
    normal_project;
    (erewrite (step_insert (ControlPhase t5 pid) pid);
       [ | cbn [tool]; unfold controlPhase, Projects;
           rewrite lookup_insert_eq; reflexivity ]);
    normal_project;
    unfold Projects; rewrite lookup_insert_eq;
    eexists; (split; [reflexivity | ]); repeat split.
Qed.

(** *** The Define tool can be repeated *)

Lemma obj_set_twice {K V : Type} `{EqDecision K} (k : K) (v v' : V)
    (o : list (K * V)) :
  obj_set k v (obj_set k v' o) = obj_set k v o.
Proof.
  induction o as [ | [k0 v0] o IH]; cbn.
  - now rewrite decide_True by reflexivity.
  - destruct (decide (k = k0)) as [-> | Hne]; cbn.
    + now rewrite decide_True by reflexivity.
    + rewrite decide_False by exact Hne. now rewrite IH.
Qed.

Lemma obj_get_set {K V : Type} `{EqDecision K} (k : K) (v : V)
    (o : list (K * V)) :
  obj_get k (obj_set k v o) = Some v.
Proof.
  induction o as [ | [k0 v0] o IH]; cbn.
  - now rewrite decide_True by reflexivity.
  - destruct (decide (k = k0)) as [-> | Hne]; cbn.
    + now rewrite decide_True by reflexivity.
    + now rewrite decide_False by exact Hne.
Qed.

(** X14: the Define tool leaves the project in DEFINE, so it can be
    called again: the second call gives the state the first call would
    have given with the later clock reading.  After it the gate check
    reports all criteria as met. *)
Theorem definePhase_can_be_repeated (t1 t2 pid : string)
    (projects projects1 : Projects) :
  definePhase t1 pid projects = Ok projects1 ->
  definePhase t2 pid projects1 = definePhase t2 pid projects
  /\ current_phase <$> projects1 !! pid = Some DEFINE
  /\ checkPhaseGate pid projects1 = Ok (Some true).
Proof.
  unfold definePhase at 1.
  destruct (projects !! pid) as [p | ] eqn:Hp; [ | discriminate].
  destruct (bool_decide (current_phase p = DEFINE)) eqn:Hph;
    cbn [negb]; [ | discriminate].
  intros [= <-]. apply bool_decide_eq_true in Hph.
  unfold definePhase, checkPhaseGate, Projects in *.
  rewrite Hp, lookup_insert_eq.
  cbn [current_phase recompute_quality with_quality_score with_metrics
         with_phase_completion with_gate_criteria with_artifacts fmap
         option_fmap option_map].
  rewrite Hph. cbn [bool_decide decide_rel negb].
  rewrite !bool_decide_eq_true_2 by reflexivity. cbn [negb].
  rewrite insert_insert_eq. split; [ | split; [reflexivity | ]].
  - do 2 f_equal.
    destruct p as [? ? ? ? ? ? ? ? ? ? [? ? ? ? ?] [? ? ?] g].
    cbv [recompute_quality calculateQualityScore rawQualityScore metGates
           with_quality_score with_metrics with_phase_completion
           with_gate_criteria with_artifacts gate_criteria metrics artifacts
           phase_completion risk_level quality_score id name business_case
           requirements deployment_target budget_limit timeline_days
           created_at current_phase phase_status define measure analyze
           improve control].
    now rewrite obj_set_twice.
  - rewrite bool_decide_eq_false_2 by discriminate.
    change (gate_criteria (recompute_quality ?q)) with (gate_criteria q).
    change (gate_criteria (with_phase_completion ?c ?q))
      with (gate_criteria q).
    change (gate_criteria (with_gate_criteria ?k ?c ?q))
      with (obj_set k c (gate_criteria q)).
    rewrite obj_get_set. reflexivity.
Qed.

End ServerCallFacts.

(** ** The JavaScript server: simulated baselines, plans and the
    selected solution *)

Section ServerAnalysisFacts.
Import Server ServerAnalysis.

Lemma random_floor (r : Q) (n : Z) :
  0 < n -> (0 <= r < 1)%Q ->
  (0 <= inject_Z (Qfloor (r * inject_Z n)) <= inject_Z (n - 1))%Q.
Proof.
  intros Hn [H0 H1].
  assert (Hq : (0 < inject_Z n)%Q)
    by (change 0%Q with (inject_Z 0); now rewrite <- Zlt_Qlt).
  assert (Hlo : 0 <= Qfloor (r * inject_Z n)).
  { change 0 with (Qfloor 0). apply Qfloor_resp_le. nra. }
  assert (Hhi : Qfloor (r * inject_Z n) < n).
  { rewrite Zlt_Qlt.
    apply Qle_lt_trans with (r * inject_Z n)%Q; [apply Qfloor_le | nra]. }
  split; [change 0%Q with (inject_Z 0) | ]; rewrite <- Zle_Qle; lia.
Qed.

Lemma calculateSigmaLevel_middle (processCap : Q) :
  ((55 # 100) <= processCap <= (79 # 100))%Q ->
  calculateSigmaLevel processCap = sigma_2
  \/ calculateSigmaLevel processCap = sigma_3.
Proof.
  intros [Hlo Hhi]. unfold calculateSigmaLevel.
  destruct (Qle_bool (9973 # 10000) processCap) eqn:E6;
    [apply Qle_bool_iff in E6; lra | ].
  destruct (Qle_bool (9937 # 10000) processCap) eqn:E5;
    [apply Qle_bool_iff in E5; lra | ].
  destruct (Qle_bool (9332 # 10000) processCap) eqn:E4;
    [apply Qle_bool_iff in E4; lra | ].
  destruct (Qle_bool (6827 # 10000) processCap) eqn:E3; [now right | ].
  destruct (Qle_bool (3085 # 10000) processCap) eqn:E2; [now left | ].
  apply Qle_bool_false in E2. lra.
Qed.

(** X15: with the baselines the Measure tool simulates, whatever the
    random draws, the statistical analysis reports 2 or 3 sigma and
    between 210000 and 450000 defects per million, and the root cause
    analysis always finds the reliability below target, with overall
    impact CRITICAL. *)
Theorem simulated_baselines_stay_at_2_or_3_sigma (r1 r2 r3 : Q)
    (depth : Depth) :
  (0 <= r1 < 1)%Q -> (0 <= r2 < 1)%Q -> (0 <= r3 < 1)%Q ->
  (50 <= performance_score (establishBaselines r1 r2 r3) <= 79)%Q
  /\ (60 <= reliability_score (establishBaselines r1 r2 r3) <= 79)%Q
  /\ (55 <= usability_score (establishBaselines r1 r2 r3) <= 79)%Q
  /\ (sigma_level
        (performStatisticalAnalysis (Some (establishBaselines r1 r2 r3)))
      = sigma_2
      \/ sigma_level
           (performStatisticalAnalysis (Some (establishBaselines r1 r2 r3)))
         = sigma_3)
  /\ 210000
     <= dpmo (performStatisticalAnalysis (Some (establishBaselines r1 r2 r3)))
     <= 450000
  /\ In "Reliability concerns"
       (critical_issues
          (performRootCauseAnalysis (Some (establishBaselines r1 r2 r3))
             depth))
  /\ overall_impact
       (performRootCauseAnalysis (Some (establishBaselines r1 r2 r3)) depth)
     = imp_CRITICAL.
Proof.
  intros H1 H2 H3.
  pose proof (random_floor r1 30 eq_refl H1) as B1.
  pose proof (random_floor r2 20 eq_refl H2) as B2.
  pose proof (random_floor r3 25 eq_refl H3) as B3.
  change (inject_Z 30) with 30%Q in B1. change (inject_Z (30 - 1)) with 29%Q in B1.
  change (inject_Z 20) with 20%Q in B2. change (inject_Z (20 - 1)) with 19%Q in B2.
  change (inject_Z 25) with 25%Q in B3. change (inject_Z (25 - 1)) with 24%Q in B3.
  unfold establishBaselines, performStatisticalAnalysis,
    performRootCauseAnalysis.
  cbn [performance_score reliability_score usability_score fmap option_fmap
         option_map or_default lt_undefined sigma_level dpmo critical_issues
         overall_impact].
  set (f1 := inject_Z (Qfloor (r1 * 30))) in *.
  set (f2 := inject_Z (Qfloor (r2 * 20))) in *.
  set (f3 := inject_Z (Qfloor (r3 * 25))) in *.
  assert (E1 : Qeq_bool (f1 + 50) 0 = false)
    by (apply not_true_iff_false; rewrite Qeq_bool_iff; lra).
  assert (E2 : Qeq_bool (f2 + 60) 0 = false)
    by (apply not_true_iff_false; rewrite Qeq_bool_iff; lra).
  assert (L2 : JS.ltb (f2 + 60) 90 = true) by (apply ltb_lt; lra).
  rewrite E1, E2, L2.
  assert (Hd : forall x y : Q, (((x / 100 + y / 100) / 2)
                                == (x + y) * (1 # 200))%Q)
    by (intros; field).
  split; [lra | ]. split; [lra | ]. split; [lra | ].
  split; [apply calculateSigmaLevel_middle; rewrite Hd; lra | ].
  split.
  { apply Math_round_range; rewrite Hd;
      [change (inject_Z 210000) with 210000%Q
      | change (inject_Z 450000) with 450000%Q]; lra. }
  split.
  - destruct (JS.ltb (f1 + 50) 70); vm_compute; auto.
  - destruct (JS.ltb (f1 + 50) 70), depth; reflexivity.
Qed.

(** X16: the timeline of an implementation plan is the sum of the
    durations of its phases. *)
Theorem plan_timeline_is_the_sum_of_its_phases (solution : ScoredSolution) :
  timeline (createImplementationPlan solution)
  = fold_left (fun sum ph => sum + duration ph)
      (phases (createImplementationPlan solution)) 0.
Proof.
  unfold createImplementationPlan. now destruct (effort (scored solution)).
Qed.

(** X17: whatever approach the Improve tool is called with, the solution
    it selects is one of low effort, so the plan it stores is the one of
    30 days; the solutions of the redesign and of the innovative
    approach are generated but never selected. *)
Theorem improve_always_selects_a_low_effort_solution
    (approach : SolutionApproach) :
  exists s,
    selected_solution (evaluateSolutions (generateSolutions approach))
    = Some s
    /\ effort (scored s) = lvLOW
    /\ timeline (createImplementationPlan s) = 30
    /\ sol_name (scored s)
       = match approach with
         | incremental => "Quick Wins Package"
         | _ => "Monitoring Enhancement"
         end.
Proof. destruct approach; eexists; repeat split. Qed.

Lemma server_score_ge_trans :
  Transitive GateInputs.server_score_ge.
Proof. intros a b c. unfold GateInputs.server_score_ge. lra. Qed.

(** X18: [evaluateSolutions] selects a solution of the list whose score
    no other solution of the list exceeds; only for the empty list does
    it select none. *)
Theorem evaluateSolutions_selects_a_best_solution (solutions : list Solution) :
  match selected_solution (evaluateSolutions solutions) with
  | Some s =>
      In (scored s) solutions
      /\ s = scoreSolution (scored s)
      /\ Forall (fun x => (score (scoreSolution x) <= score s)%Q) solutions
  | None => solutions = []
  end.
Proof.
  destruct (evaluateSolutions_ranking solutions) as [Hperm [Hsort [Hsel Hall]]].
  rewrite Hsel.
  destruct (all_solutions (evaluateSolutions solutions)) as [ | s rest] eqn:E;
    cbn [head].
  - apply Permutation_sym, Permutation_nil in Hperm.
    now destruct solutions.
  - assert (Hin : In s (map scoreSolution solutions)).
    { eapply Permutation_in; [apply Permutation_sym, Hperm | now left]. }
    apply in_map_iff in Hin as [x [Hx Hxin]].
    apply (Sorted_StronglySorted server_score_ge_trans) in Hsort.
    apply StronglySorted_inv in Hsort as [_ Hrest].
    split; [now rewrite <- Hx | ]. split; [now rewrite <- Hx | ].
    apply Forall_forall. intros y Hy. apply list_elem_of_In in Hy.
    assert (Hy' : In (scoreSolution y) (s :: rest)).
    { eapply Permutation_in; [apply Hperm | now apply in_map]. }
    destruct Hy' as [<- | Hy']; [lra | ].
    rewrite Forall_forall in Hrest.
    apply list_elem_of_In, Hrest in Hy'. exact Hy'.
Qed.

End ServerAnalysisFacts.

(** The project of the full run: its stored score is 68. *)
Lemma server_score_never_exceeds_68_witness :
  Server.quality_score
    (Server.metrics (ServerCallInputs.project_after ServerCallInputs.calls))
  = 68
  /\ Server.current_phase
       (ServerCallInputs.project_after ServerCallInputs.calls)
     <> Schema.MEASURE.
Proof.
  destruct (server_score_never_exceeds_68 ServerCallInputs.calls "proj_1"
              (ServerCallInputs.project_after ServerCallInputs.calls))
    as [_ [_ [_ H]]]; [vm_compute; reflexivity | ].
  split; [vm_compute; reflexivity | exact H].
Defined.

(** After the Define tool the project is in DEFINE and the gate check
    passes; at the end of the full run it does not. *)
Lemma gate_check_passes_in_DEFINE_only_witness :
  Server.checkPhaseGate "proj_1"
    (ServerCalls.run ServerCallInputs.calls_define) = Ok (Some true)
  /\ Server.checkPhaseGate "proj_1" (ServerCalls.run ServerCallInputs.calls)
     <> Ok (Some true).
Proof.
  split.
  - apply (gate_check_passes_in_DEFINE_only ServerCallInputs.calls_define
             "proj_1"
             (ServerCallInputs.project_after ServerCallInputs.calls_define));
      [vm_compute; reflexivity | ].
    split; [reflexivity | vm_compute; eauto].
  - vm_compute. discriminate.
Defined.

(** The Define tool called twice on the project of the run. *)
Lemma definePhase_can_be_repeated_witness :
  Server.definePhase "t9" "proj_1"
    (ServerCalls.run ServerCallInputs.calls_define)
  = Server.definePhase "t9" "proj_1" ServerRun.created.
Proof.
  destruct (definePhase_can_be_repeated "t1" "t9" "proj_1" ServerRun.created
              (ServerCalls.run ServerCallInputs.calls_define)) as [H _];
    [vm_compute; reflexivity | exact H].
Defined.

(** The draws 1/2, 0 and 9/10: the scores are 65, 60 and 77. *)
Lemma simulated_baselines_stay_at_2_or_3_sigma_witness :
  (50 <= ServerAnalysis.performance_score
           (ServerAnalysis.establishBaselines (1 # 2) 0 (9 # 10)) <= 79)%Q
  /\ ServerAnalysis.sigma_level
       (ServerAnalysis.performStatisticalAnalysis
          (Some (ServerAnalysis.establishBaselines (1 # 2) 0 (9 # 10))))
     = ServerAnalysis.sigma_2.
Proof.
  destruct (simulated_baselines_stay_at_2_or_3_sigma (1 # 2) 0 (9 # 10)
              Server.standard) as [H _];
    [split; [discriminate | reflexivity] ..| ].
  split; [exact H | reflexivity].
Defined.

(** ** The TypeScript server: the Define gate, the Define tool called
    again, and the ranges of the capability indices *)

Section TsServerFacts.
Import TsServer.

Lemma gt0_true {A : Type} (l : list A) : gt0 l = true <-> l <> [].
Proof.
  destruct l; [split; [discriminate | congruence] | ].
  split; [discriminate | reflexivity].
Qed.

Lemma gt0_false {A : Type} (l : list A) : gt0 l = false <-> l = [].
Proof. destruct l; [now split | split; discriminate]. Qed.

Lemma missing_items_spec (cr : list (string * bool)) (c : string) :
  In c (fst <$> filter (fun c => Is_true (negb c.2)) cr) <-> In (c, false) cr.
Proof.
  induction cr as [ | [n b] cr IH]; [reflexivity | ].
  rewrite filter_cons. cbn [snd In].
  destruct b; cbn [negb].
  - rewrite decide_False by (intros []). rewrite IH.
    split; [now right | ]. intros [[=] | H]; exact H.
  - rewrite decide_True by exact I. cbn [fmap list_fmap fst In].
    rewrite IH. split; (intros [H | H]; [left; congruence | now right]).
Qed.

Lemma every_passed_spec (cr : list (string * bool)) :
  forallb (fun result => result) (snd <$> cr) = true
  <-> fst <$> filter (fun c => Is_true (negb c.2)) cr = [].
Proof.
  induction cr as [ | [n b] cr IH]; [now split | ].
  rewrite filter_cons. cbn [fmap list_fmap snd forallb].
  destruct b; cbn [negb andb].
  - rewrite decide_False by (intros []). exact IH.
  - rewrite decide_True by exact I. split; discriminate.
Qed.

(** X19: the Define gate passes exactly when no criterion is listed as
    missing, and the missing items are the names of the failed
    criteria; recommendations exist for the first three criteria only,
    so the gate fails without any recommendation exactly when these
    three hold and the SIPOC diagram has no process step or the priority
    matrix no must-have. *)
Theorem define_gate_can_fail_without_recommendation
    (artifacts : DefineArtifacts) :
  (passed (checkDefinePhaseQualityGate artifacts) = true
   <-> missing_items (checkDefinePhaseQualityGate artifacts) = [])
  /\ (forall c,
        In c (missing_items (checkDefinePhaseQualityGate artifacts))
        <-> In (c, false)
              (criteria_results (checkDefinePhaseQualityGate artifacts)))
  /\ (passed (checkDefinePhaseQualityGate artifacts) = false
      /\ recommendations (checkDefinePhaseQualityGate artifacts) = []
      <-> (functional_requirements (voc_analysis artifacts) <> []
           /\ (performance (ctq_tree artifacts) <> []
               \/ reliability (ctq_tree artifacts) <> [])
           /\ deployment (constraints artifacts) <> "Not specified")
          /\ (process_steps (sipoc_diagram artifacts) = []
              \/ must_have (voc_analysis artifacts) = [])).
Proof.
  unfold checkDefinePhaseQualityGate.
  cbn [passed missing_items criteria_results recommendations].
  split; [apply every_passed_spec | ].
  split; [intros c; apply missing_items_spec | ].
  rewrite <- !gt0_true, <- !gt0_false, <- orb_true_iff.
  rewrite <- (String.eqb_neq (deployment (constraints artifacts))).
  set (b1 := gt0 (functional_requirements (voc_analysis artifacts))).
  set (b2 := gt0 (performance (ctq_tree artifacts))
             || gt0 (reliability (ctq_tree artifacts))).
  set (b3 := String.eqb (deployment (constraints artifacts))
                "Not specified").
  set (b4 := gt0 (process_steps (sipoc_diagram artifacts))).
  set (b5 := gt0 (must_have (voc_analysis artifacts))).
  clearbody b1 b2 b3 b4 b5.
  destruct b1, b2, b3, b4, b5; vm_compute; intuition congruence.
Qed.


Lemma rate_in_unit_interval (d o : Z) :
  0 <= d <= o -> 0 < o -> (0 <= inject_Z d / inject_Z o <= 1)%Q.
Proof.
  intros Hd Ho. destruct o as [ | p | p]; try lia.
  unfold Qle, Qdiv, Qmult, Qinv, inject_Z. cbn [Qnum Qden Z.mul Pos.mul].
  split; lia.
Qed.

(** X20: whenever the capability analysis gives a result, Cp lies
    between 0.5 and 1.33, Cpk between 0.4 and 1.197 and never above Cp,
    the sigma level between 1 and 6, and the defects per million between
    0 and 1,000,000. *)
Theorem process_capability_ranges (md : MeasureArtifacts)
    (pc : ProcessCapability) :
  analyzeProcessCapability md = Some pc ->
  ((1 # 2) <= cp pc <= (133 # 100))%Q
  /\ ((4 # 10) <= cpk pc <= (1197 # 1000))%Q
  /\ (cpk pc <= cp pc)%Q
  /\ 1 <= sigma_level pc <= 6
  /\ (0 <= defects_per_million pc <= 1000000)%Q.
Proof.
  unfold analyzeProcessCapability. rewrite fold_count_kpi, !Z.add_0_l.
  destruct (Z.of_nat (length (kpis md)) =? 0) eqn:E; [discriminate | ].
  apply Z.eqb_neq in E. intros [= <-].
  cbn [cp cpk sigma_level defects_per_million].
  pose proof (List.filter_length_le (Capability.defective md) (kpis md)) as Hle.
  assert (Hr := rate_in_unit_interval
                  (Z.of_nat (length (List.filter (Capability.defective md)
                                       (kpis md))))
                  (Z.of_nat (length (kpis md))) ltac:(lia) ltac:(lia)).
  set (rate := (inject_Z _ / inject_Z _)%Q) in *.
  unfold JS.Math_max.
  split; [ | split; [ | split; [ | split]]].
  - destruct (Qle_bool (1 # 2) ((133 # 100) - rate * 2)) eqn:E1;
      [apply Qle_bool_iff in E1 | ]; lra.
  - destruct (Qle_bool (4 # 10) (((133 # 100) - rate * 2) * (9 # 10))) eqn:E1;
      [apply Qle_bool_iff in E1 | ]; lra.
  - destruct (Qle_bool (1 # 2) ((133 # 100) - rate * 2)) eqn:E1;
      [apply Qle_bool_iff in E1 | apply Qle_bool_false in E1];
      destruct (Qle_bool (4 # 10) (((133 # 100) - rate * 2) * (9 # 10)))
        eqn:E2;
      [apply Qle_bool_iff in E2 | apply Qle_bool_false in E2
       | apply Qle_bool_iff in E2 | apply Qle_bool_false in E2]; lra.
  - unfold sigmaLevel.
    repeat match goal with
           | |- context [JS.gtb ?x ?y] => destruct (JS.gtb x y)
           end; lia.
  - lra.
Qed.

End TsServerFacts.

Section DefineToolAgain.
Import TsServer.
Context {Stakeholders : Type}.
Variable performVOCAnalysis : list string -> option Stakeholders -> VOCAnalysis.
Variable generateCTQTree : VOCAnalysis -> CTQTree.
Variable createSIPOCDiagram : ProjectState -> SIPOCDiagram.

Let tool := definePhase Stakeholders performVOCAnalysis generateCTQTree
              createSIPOCDiagram.

(** X21: after a successful call of the Define tool the stored gate
    result decides what a second call does: when the gate passed the
    project is in MEASURE and the second call is rejected; when it
    failed the project is still in DEFINE and the tool runs again.  The
    other projects are left as they were. *)
Theorem ts_definePhase_second_call (pid : string)
    (sh sh2 : option Stakeholders) (st st1 : ServerState) :
  tool pid sh st = Ok st1 ->
  exists project1 g,
    projectState st1 !! pid = Some project1
    /\ quality_gates_define project1 = Some g
    /\ (passed g = true ->
        tool pid sh2 st1
        = Throw "Project is in MEASURE phase. Expected DEFINE phase.")
    /\ (passed g = false ->
        current_phase project1 = DEFINE
        /\ exists st2, tool pid sh2 st1 = Ok st2)
    /\ (forall pid2, pid2 <> pid ->
          projectState st1 !! pid2 = projectState st !! pid2).
Proof.
  unfold tool, definePhase at 1.
  destruct (projectState st !! pid) as [project | ] eqn:Hl; [ | discriminate].
  destruct (bool_decide (current_phase project = DEFINE)) eqn:Hph;
    cbn [negb]; [ | discriminate].
  apply bool_decide_eq_true in Hph. cbv zeta.
  remember (checkDefinePhaseQualityGate _) as g eqn:Hg. clear Hg.
  intros [= <-].
  cbn [projectState]. rewrite lookup_insert_eq.
  do 2 eexists. split; [reflexivity | ].
  cbn [quality_gates_define]. split; [reflexivity | ].
  split; [ | split].
  - intros Hp. unfold definePhase. cbn [projectState].
    rewrite lookup_insert_eq. cbn [current_phase]. rewrite Hp. reflexivity.
  - intros Hp. cbn [current_phase]. rewrite Hp, Hph.
    split; [reflexivity | ].
    unfold definePhase. cbn [projectState].
    rewrite lookup_insert_eq. cbn [current_phase].
    rewrite bool_decide_eq_true_2 by reflexivity. cbn [negb]. eauto.
  - intros pid2 Hne. now rewrite lookup_insert_ne by congruence.
Qed.

End DefineToolAgain.

(** Four KPIs of which one is a defect. *)
Lemma process_capability_ranges_witness :
  exists pc,
    TsServer.analyzeProcessCapability MeasureInputs.four_kpis = Some pc
    /\ (TsServer.cpk pc <= TsServer.cp pc)%Q.
Proof.
  eexists. split; [reflexivity | ].
  eapply (process_capability_ranges MeasureInputs.four_kpis); reflexivity.
Defined.

(** The Define tool called twice for the project of the inputs, whose
    gate passes. *)
Lemma ts_definePhase_second_call_witness :
  exists st1,
    TsServer.definePhase unit TsInputs.voc TsInputs.ctq TsInputs.sipoc
      "proj_1" None (TsInputs.state_in TsServer.DEFINE) = Ok st1
    /\ TsServer.definePhase unit TsInputs.voc TsInputs.ctq TsInputs.sipoc
         "proj_1" None st1
       = Throw "Project is in MEASURE phase. Expected DEFINE phase.".
Proof.
  eexists. split; [reflexivity | ].
  destruct (ts_definePhase_second_call TsInputs.voc TsInputs.ctq
              TsInputs.sipoc "proj_1" None None
              (TsInputs.state_in TsServer.DEFINE) _ eq_refl)
    as [project1 [g [Hl [Hg [H _]]]]].
  apply H. vm_compute in Hl. injection Hl as <-.
  vm_compute in Hg. injection Hg as <-. reflexivity.
Defined.

(** ** The dashboard: displayed statuses, the handlers of the phase
    components, and the overview metrics *)

Section DashboardFacts.
Import Schema Dashboard DashboardOverview.

(** X23: the statuses ProjectDetails displays for the five phases: the
    phases before the current one are completed, the current one is
    active, the later ones pending; for a COMPLETED project, which is
    not in the list of phases, all five are displayed as pending. *)
Theorem displayed_phase_statuses (project : Project) :
  map (getPhaseStatus project) [0; 1; 2; 3; 4]
  = match current_phase project with
    | DEFINE => [st_active; st_pending; st_pending; st_pending; st_pending]
    | MEASURE => [st_completed; st_active; st_pending; st_pending; st_pending]
    | ANALYZE =>
        [st_completed; st_completed; st_active; st_pending; st_pending]
    | IMPROVE =>
        [st_completed; st_completed; st_completed; st_active; st_pending]
    | CONTROL =>
        [st_completed; st_completed; st_completed; st_completed; st_active]
    | COMPLETED =>
        [st_pending; st_pending; st_pending; st_pending; st_pending]
    end.
Proof.
  unfold getPhaseStatus, currentPhaseIndex.
  now destruct (current_phase project).
Qed.

(** *** AnalyzePhase *)

Lemma by_rpn_desc_anti (x y : FMEAItem) :
  (0 < by_rpn_desc x y)%Q -> (by_rpn_desc y x <= 0)%Q.
Proof.
  unfold by_rpn_desc. change 0%Q with (inject_Z 0).
  rewrite <- Zlt_Qlt, <- Zle_Qle. lia.
Qed.

Lemma sorted_by_rpn (l : list FMEAItem) :
  StronglySorted (fun a b => rpn b <= rpn a) (Array_sort by_rpn_desc l).
Proof.
  apply Sorted_StronglySorted; [intros a b c; lia | ].
  eapply Sorted_ind with (P := Sorted (fun a b => rpn b <= rpn a));
    [constructor | | apply (Array_sort_sorted _ by_rpn_desc_anti)].
  intros a l' _ IH Hd. constructor; [exact IH | ].
  destruct Hd as [ | b l'' Hab]; constructor.
  unfold precedes, by_rpn_desc in Hab. change 0%Q with (inject_Z 0) in Hab.
  rewrite <- Zle_Qle in Hab. lia.
Qed.

(** X24: an item added with a failure mode and inputs in [1,10] is
    displayed together with the items displayed before, the list in
    descending order of the risk priority number; its number is the
    product of its inputs and lies in [1,1000]. *)
Theorem addFmea_displays_by_descending_rpn (id : string) (f : fmea_form)
    (w : AnalyzeWorld) :
  f_failure_mode f <> "" ->
  1 <= f_severity f <= 10 -> 1 <= f_occurrence f <= 10 ->
  1 <= f_detection f <= 10 ->
  exists row,
    fmea_id row = id
    /\ rpn row = f_severity f * f_occurrence f * f_detection f
    /\ 1 <= rpn row <= 1000
    /\ Permutation (fmeaItems w ++ [row])%list (fmeaItems (addFmea id f w))
    /\ StronglySorted (fun a b => rpn b <= rpn a)
         (fmeaItems (addFmea id f w)).
Proof.
  intros Hf Hs Ho Hd. unfold addFmea, fmea_items_insert.
  cbn [ins_rpn ins_severity ins_occurrence ins_detection ins_failure_mode
         ins_effects ins_causes].
  destruct (String.eqb_spec (f_failure_mode f) "") as [E | _];
    [contradiction | ].
  pose proof Hs as Hs'. pose proof Ho as Ho'. pose proof Hd as Hd'.
  apply check_1_10_spec in Hs', Ho', Hd'. rewrite Hs', Ho', Hd'.
  cbn [andb fmeaItems].
  match goal with
  | |- context [Array_sort _ (_ ++ [?d])%list] => exists d
  end.
  split; [reflexivity | ]. split; [reflexivity | ].
  cbn [rpn]. split.
  { assert (1 <= f_severity f * f_occurrence f <= 100) by nia. nia. }
  split; [apply Array_sort_perm | apply sorted_by_rpn].
Qed.

(** X25: when one of the inputs is outside [1,10] the table refuses the
    item: nothing is stored and the displayed list stays, but the risk
    level of the project is still rewritten from the displayed list. *)
Theorem addFmea_refused_item (id : string) (f : fmea_form) (w : AnalyzeWorld) :
  f_failure_mode f <> "" ->
  ~ (1 <= f_severity f <= 10 /\ 1 <= f_occurrence f <= 10
     /\ 1 <= f_detection f <= 10) ->
  db_fmea_items (addFmea id f w) = db_fmea_items w
  /\ fmeaItems (addFmea id f w) = fmeaItems w
  /\ db_project (addFmea id f w)
     = updateProjectRisk (fmeaItems w) (db_project w).
Proof.
  intros Hf Hno. unfold addFmea, fmea_items_insert.
  cbn [ins_rpn ins_severity ins_occurrence ins_detection].
  destruct (String.eqb_spec (f_failure_mode f) "") as [E | _];
    [contradiction | ].
  destruct (check_1_10 (f_severity f) && check_1_10 (f_occurrence f)
            && check_1_10 (f_detection f)) eqn:E; [ | now repeat split].
  exfalso. apply Hno.
  rewrite !andb_true_iff, !check_1_10_spec in E. tauto.
Qed.

Lemma filter_keep_In {A : Type} (key : A -> string) (id : string)
    (l : list A) (x : A) :
  In x (filter (fun y => Is_true (negb (String.eqb (key y) id))) l)
  <-> In x l /\ key x <> id.
Proof.
  rewrite <- !list_elem_of_In, list_elem_of_filter.
  destruct (String.eqb_spec (key x) id) as [E | E]; cbn; tauto.
Qed.

Lemma filter_keep_sorted {A : Type} (R : A -> A -> Prop) (P : A -> Prop)
    `{forall x, Decision (P x)} (l : list A) :
  StronglySorted R l -> StronglySorted R (filter P l).
Proof.
  intros Hs. induction Hs as [ | a l Hl IH Ha]; [constructor | ].
  rewrite filter_cons. destruct (decide _); [ | exact IH].
  constructor; [exact IH | ].
  apply Forall_forall. intros b Hb.
  apply list_elem_of_filter in Hb as [_ Hb].
  rewrite Forall_forall in Ha. now apply Ha.
Qed.

(** X26: [deleteFmea] removes the items with the given identifier from
    the table and from the display and keeps the others in their order;
    the risk level it writes to the project is the one of the list
    displayed before the deletion, whatever was deleted. *)
Theorem deleteFmea_removes_and_writes_the_old_level (id : string)
    (w : AnalyzeWorld) :
  (forall r, In r (fmeaItems (deleteFmea id w))
             <-> In r (fmeaItems w) /\ fmea_id r <> id)
  /\ (forall r, In r (db_fmea_items (deleteFmea id w))
                <-> In r (db_fmea_items w) /\ fmea_id r <> id)
  /\ (StronglySorted (fun a b => rpn b <= rpn a) (fmeaItems w) ->
      StronglySorted (fun a b => rpn b <= rpn a)
        (fmeaItems (deleteFmea id w)))
  /\ risk_level (db_project (deleteFmea id w))
     = riskLevel (avgRpn (fmeaItems w)).
Proof.
  unfold deleteFmea. cbn [fmeaItems db_fmea_items db_project].
  split; [intros r; apply (filter_keep_In fmea_id) | ].
  split; [intros r; apply (filter_keep_In fmea_id) | ].
  split; [apply filter_keep_sorted | reflexivity].
Qed.


(** *** ImprovePhase *)

(** X27: [addSolution] either changes nothing or stores one solution
    with the given identifier, status proposed, the four scores in
    [0,10] and a total score in [-30,20]; a form without title or with a
    score outside [0,10] changes nothing. *)
Theorem addSolution_stores_scores_in_range (id : string) (f : solution_form)
    (w : ImproveWorld) :
  (addSolution id f w = w
   \/ exists s,
        db_solutions (addSolution id f w) = (db_solutions w ++ [s])%list
        /\ sol_id s = id /\ status s = proposed
        /\ (0 <= impact_score s <= 10)%Q /\ (0 <= effort_score s <= 10)%Q
        /\ (0 <= risk_score s <= 10)%Q /\ (0 <= cost_score s <= 10)%Q
        /\ (-30 <= total_score s <= 20)%Q)
  /\ (f_title f = ""
      \/ ~ ((0 <= f_impact_score f <= 10)%Q /\ (0 <= f_effort_score f <= 10)%Q
            /\ (0 <= f_risk_score f <= 10)%Q /\ (0 <= f_cost_score f <= 10)%Q)
      -> addSolution id f w = w).
Proof.
  unfold addSolution, solutions_insert.
  cbn [ins_impact_score ins_effort_score ins_risk_score ins_cost_score
         ins_total_score ins_status ins_title ins_description ins_approach].
  destruct (String.eqb_spec (f_title f) "") as [E | E];
    [split; [now left | reflexivity] | ].
  destruct (check_0_10 (f_impact_score f) && check_0_10 (f_effort_score f)
            && check_0_10 (f_risk_score f) && check_0_10 (f_cost_score f))
    eqn:Hc.
  - rewrite !andb_true_iff, !check_0_10_spec in Hc.
    destruct Hc as [[[Hi He] Hr] Hk]. split.
    + right. eexists. split; [reflexivity | ].
      cbn [sol_id status impact_score effort_score risk_score cost_score
             total_score default from_option].
      unfold calculateTotalScore, Datatypes.id.
      repeat split; try tauto; lra.
    + intros [Ht | Hno]; [contradiction | ]. exfalso. apply Hno. tauto.
  - split; [now left | reflexivity].
Qed.

Lemma canComplete_Permutation (l l' : list Solution) :
  Permutation l l' ->
  ImprovePhase_canComplete l = ImprovePhase_canComplete l'.
Proof.
  intros Hp. apply eq_true_iff_eq.
  rewrite !ImprovePhase_canComplete_spec.
  split; intros [x [Hin H]]; exists x; (split; [ | exact H]).
  - eapply Permutation_in; [exact Hp | exact Hin].
  - eapply Permutation_in; [apply Permutation_sym, Hp | exact Hin].
Qed.

(** X28: adding a solution never opens the gate of the Improve phase,
    since a new solution is proposed; setting a displayed solution to
    approved or implemented opens it, and setting a solution back to
    proposed never does. *)
Theorem only_a_status_change_opens_the_improve_gate (id : string)
    (f : solution_form) (st : Status) (w : ImproveWorld) (s : Solution) :
  ImprovePhase_canComplete (solutions (addSolution id f w))
  = ImprovePhase_canComplete (solutions w)
  /\ (In s (solutions w) -> st <> proposed ->
      ImprovePhase_canComplete (solutions (updateStatus (sol_id s) st w))
      = true)
  /\ (ImprovePhase_canComplete (solutions (updateStatus id proposed w)) = true
      -> ImprovePhase_canComplete (solutions w) = true).
Proof.
  split; [ | split].
  - unfold addSolution, solutions_insert.
    destruct (String.eqb (f_title f) ""); [reflexivity | ].
    destruct (_ && _); [ | reflexivity].
    cbn [solutions]. rewrite <- (canComplete_Permutation _ _
                                   (Array_sort_perm by_total_score_desc _)).
    unfold ImprovePhase_canComplete.
    rewrite existsb_app. cbn. now rewrite !orb_false_r.
  - intros Hin Hst. apply ImprovePhase_canComplete_spec.
    exists (set_status st s). split.
    + unfold updateStatus. cbn [solutions]. apply in_map_iff.
      exists s. split; [ | exact Hin]. now rewrite String.eqb_refl.
    + cbn [set_status status]. destruct st; [contradiction | auto ..].
  - rewrite !ImprovePhase_canComplete_spec. intros [x [Hin H]].
    unfold updateStatus in Hin. cbn [solutions] in Hin.
    apply in_map_iff in Hin as [y [Hy Hin]]. exists y. split; [exact Hin | ].
    destruct (String.eqb (sol_id y) id); subst x; [ | exact H].
    cbn in H. destruct H; discriminate.
Qed.

(** *** Gates under adding and deleting *)

Lemma filter_length_gate {A : Type} (f : A -> bool) (l : list A) (n : Z) :
  (n <=? Z.of_nat (length (List.filter f l))) = true ->
  (n <=? Z.of_nat (length l)) = true.
Proof.
  rewrite !Z.leb_le. pose proof (List.filter_length_le f l). lia.
Qed.

Lemma filter_length_gt0 {A : Type} (f : A -> bool) (l : list A) :
  (0 <? Z.of_nat (length (List.filter f l))) = true ->
  (0 <? Z.of_nat (length l)) = true.
Proof.
  rewrite !Z.ltb_lt. pose proof (List.filter_length_le f l). lia.
Qed.

Lemma stdpp_filter_length_le {A : Type} (P : A -> Prop)
    `{forall x, Decision (P x)} (l : list A) :
  (length (filter P l) <= length l)%nat.
Proof.
  induction l as [ | x l IH]; [reflexivity | ].
  rewrite filter_cons. destruct (decide _); cbn; lia.
Qed.

(** X29: deleting never opens a gate: when the gate of a phase holds
    after a requirement, CTQ item, constraint, KPI, risk item or
    solution was deleted, it held before. *)
Theorem deleting_never_opens_a_gate (id : string)
    (requirements : list Requirement) (ctqItems : list CTQItem)
    (constraints : list Constraint) (kpis : list KPI) (aw : AnalyzeWorld)
    (iw : ImproveWorld) :
  (DefinePhase_canComplete (deleteRequirement id requirements) ctqItems
     constraints = true
   \/ DefinePhase_canComplete requirements (deleteCtq id ctqItems)
        constraints = true
   \/ DefinePhase_canComplete requirements ctqItems
        (deleteConstraint id constraints) = true
   -> DefinePhase_canComplete requirements ctqItems constraints = true)
  /\ (MeasurePhase_canComplete (deleteKpi id kpis) = true ->
      MeasurePhase_canComplete kpis = true)
  /\ (AnalyzePhase_canComplete (fmeaItems (deleteFmea id aw)) = true ->
      AnalyzePhase_canComplete (fmeaItems aw) = true)
  /\ (ImprovePhase_canComplete (solutions (deleteSolution id iw)) = true ->
      ImprovePhase_canComplete (solutions iw) = true).
Proof.
  split; [ | split; [ | split]].
  - unfold DefinePhase_canComplete, deleteRequirement, deleteCtq,
      deleteConstraint.
    rewrite !andb_true_iff.
    intros [[[H1 H2] H3] | [[[H1 H2] H3] | [[H1 H2] H3]]];
      repeat split; try assumption; eapply filter_length_gt0; eassumption.
  - unfold MeasurePhase_canComplete, deleteKpi. apply filter_length_gate.
  - unfold AnalyzePhase_canComplete, deleteFmea. cbn [fmeaItems].
    rewrite !Z.leb_le.
    pose proof (stdpp_filter_length_le
                  (fun f : FMEAItem =>
                     Is_true (negb (String.eqb (fmea_id f) id)))
                  (fmeaItems aw)).
    lia.
  - rewrite !ImprovePhase_canComplete_spec. intros [x [Hin H]].
    exists x. split; [ | exact H].
    unfold deleteSolution in Hin. cbn [solutions] in Hin.
    apply list_elem_of_In, list_elem_of_filter in Hin as [_ Hin].
    now apply list_elem_of_In.
Qed.

(** *** The overview metrics *)

Lemma count_split (f : Project -> bool) (l : list Project) :
  count f l + count (fun p => negb (f p)) l = Z.of_nat (length l).
Proof.
  unfold count. induction l as [ | p l IH]; [reflexivity | ].
  cbn [List.filter]. destruct (f p); cbn [negb length]; lia.
Qed.

Lemma count_disjoint (f g : Project -> bool) (l : list Project) :
  (forall p, f p = true -> g p = false) ->
  count f l + count g l <= Z.of_nat (length l).
Proof.
  intros Hfg. unfold count. induction l as [ | p l IH]; [reflexivity | ].
  cbn [List.filter]. specialize (Hfg p).
  destruct (f p); [rewrite Hfg by reflexivity | destruct (g p)];
    cbn [length]; lia.
Qed.

Lemma sum_quality_range (l : list Project) (a : Q) :
  Forall (fun p => (0 <= quality_score p <= 100)%Q) l ->
  (a <= fold_left (fun sum p => sum + quality_score p) l a
   <= a + 100 * inject_Z (Z.of_nat (length l)))%Q.
Proof.
  intros Hall. revert a.
  induction Hall as [ | p l Hp Hall IH]; intros a; cbn [fold_left length].
  - change (inject_Z (Z.of_nat 0)) with 0%Q. lra.
  - specialize (IH (a + quality_score p)%Q).
    rewrite Nat2Z.inj_succ, <- Z.add_1_r, inject_Z_plus.
    change (inject_Z 1) with 1%Q. lra.
Qed.

(** X30: in the overview the active and the completed projects add up
    to the total, no project is counted both as high risk and as on
    track, the average quality score of no projects is 0, and the
    average of scores in [0,100] lies in [0,100]. *)
Theorem dashboard_metrics_are_consistent (projectList : list Project) :
  active_projects (dashboardMetrics projectList)
  + completed_projects (dashboardMetrics projectList)
  = total_projects (dashboardMetrics projectList)
  /\ high_risk_projects (dashboardMetrics projectList)
     + projects_on_track (dashboardMetrics projectList)
     <= total_projects (dashboardMetrics projectList)
  /\ (projectList = [] ->
      average_quality_score (dashboardMetrics projectList) = 0%Q)
  /\ (Forall (fun p => (0 <= quality_score p <= 100)%Q) projectList ->
      (0 <= average_quality_score (dashboardMetrics projectList) <= 100)%Q).
Proof.
  unfold dashboardMetrics.
  cbn [active_projects completed_projects total_projects high_risk_projects
         projects_on_track average_quality_score].
  split; [ | split; [ | split]].
  - rewrite Z.add_comm. apply count_split.
  - apply count_disjoint. intros p Hp. now rewrite Hp, andb_false_r.
  - now intros ->.
  - intros Hall. destruct (0 <? Z.of_nat (length projectList)) eqn:E;
      [ | lra].
    apply Z.ltb_lt in E.
    assert (Hn : (0 < inject_Z (Z.of_nat (length projectList)))%Q)
      by (change 0%Q with (inject_Z 0); now rewrite <- Zlt_Qlt).
    pose proof (sum_quality_range projectList 0 Hall) as [Hlo Hhi].
    split.
    + apply Qle_shift_div_l; [exact Hn | lra].
    + apply Qle_shift_div_r; [exact Hn | lra].
Qed.

End DashboardFacts.

(** The form of scenario B, added to the empty display. *)
Lemma addFmea_displays_by_descending_rpn_witness :
  exists row,
    Schema.rpn row = 378
    /\ Permutation [row]
         (Dashboard.fmeaItems
            (Dashboard.addFmea "f1" Scenarios.formB Scenarios.worldB)).
Proof.
  destruct (addFmea_displays_by_descending_rpn "f1" Scenarios.formB
              Scenarios.worldB) as [row [_ [H1 [_ [H2 _]]]]];
    [discriminate | simpl; lia | simpl; lia | simpl; lia | ].
  exists row. split; [exact H1 | exact H2].
Defined.

(** A detection of 11 is refused. *)
Lemma addFmea_refused_item_witness :
  Dashboard.db_fmea_items
    (Dashboard.addFmea "f1" DashboardInputs.form_out_of_range Scenarios.worldB)
  = [].
Proof.
  destruct (addFmea_refused_item "f1" DashboardInputs.form_out_of_range
              Scenarios.worldB) as [H _];
    [discriminate | simpl; lia | exact H].
Defined.

(** ** The TypeScript server: the Measure gate *)

Section TsMeasureFacts.
Import TsServer TsMeasure.

Lemma obj_set_nonempty {K V : Type} `{EqDecision K} (k : K) (v : V)
    (o : list (K * V)) : obj_set k v o <> [].
Proof.
  destruct o as [ | [k0 v0] o]; cbn; [ | destruct (decide _)]; discriminate.
Qed.

Lemma establishBaselines_gt0 (simulated : TsMeasure.KPI -> Q)
    (kpis : list TsMeasure.KPI) :
  gt0 (establishBaselines simulated kpis) = gt0 kpis.
Proof.
  unfold establishBaselines.
  destruct kpis as [ | k kpis _] using rev_ind; [reflexivity | ].
  rewrite fold_left_app. cbn [fold_left].
  transitivity true; [ | symmetry]; apply gt0_true.
  - apply obj_set_nonempty.
  - now destruct kpis.
Qed.

Lemma plan_metrics (kpis : list TsMeasure.KPI) (plan : DataCollectionPlan) :
  metrics (fold_left plan_kpi kpis plan) = metrics plan.
Proof.
  revert plan. induction kpis as [ | k kpis IH]; intros plan; [reflexivity | ].
  cbn [fold_left]. now rewrite IH.
Qed.

Lemma plan_frequency_gt0 (kpis : list TsMeasure.KPI)
    (plan : DataCollectionPlan) :
  kpis <> [] -> gt0 (frequency (fold_left plan_kpi kpis plan)) = true.
Proof.
  destruct kpis as [ | k kpis _] using rev_ind; [congruence | ].
  intros _. rewrite fold_left_app. cbn [fold_left plan_kpi frequency].
  apply gt0_true, obj_set_nonempty.
Qed.

Lemma msa_acceptable (r1 r2 r3 r4 r5 : Q) :
  (0 <= r1 < 1)%Q -> (0 <= r2 < 1)%Q ->
  JS.gtb (repeatability (performMSA r1 r2 r3 r4 r5)) (9 # 10)
  && JS.gtb (reproducibility (performMSA r1 r2 r3 r4 r5)) (9 # 10) = true.
Proof.
  intros H1 H2. cbn [performMSA repeatability reproducibility].
  apply andb_true_iff. split; apply gtb_gt; lra.
Qed.

(** X22: for the artifacts the Measure tool builds, whatever the random
    draws, the gate passes exactly when at least one KPI was defined:
    the measurement system analysis is always acceptable, and baselines,
    plan and frequencies exist as soon as a KPI does.  Hence the Measure
    gate passes for every CTQ tree that passed the Define gate. *)
Theorem ts_measure_gate_needs_one_kpi (ctqTree : TsMeasure.CTQTree)
    (custom_kpis : option (list CustomKPI)) (simulated : TsMeasure.KPI -> Q)
    (r1 r2 r3 r4 r5 : Q) (define : DefineArtifacts) :
  (0 <= r1 < 1)%Q -> (0 <= r2 < 1)%Q ->
  (passed (checkMeasurePhaseQualityGate
             (measureArtifacts ctqTree custom_kpis simulated r1 r2 r3 r4 r5))
   = true
   <-> defineKPIs ctqTree custom_kpis <> [])
  /\ ~ In "MSA Acceptable"
         (missing_items
            (checkMeasurePhaseQualityGate
               (measureArtifacts ctqTree custom_kpis simulated r1 r2 r3 r4
                  r5)))
  /\ (ctq_tree define = keys ctqTree ->
      passed (checkDefinePhaseQualityGate define) = true ->
      passed (checkMeasurePhaseQualityGate
                (measureArtifacts ctqTree custom_kpis simulated r1 r2 r3 r4
                   r5))
      = true).
Proof.
  intros H1 H2.
  assert (Hpass :
            passed (checkMeasurePhaseQualityGate
                      (measureArtifacts ctqTree custom_kpis simulated r1 r2
                         r3 r4 r5)) = true
            <-> defineKPIs ctqTree custom_kpis <> []).
  { unfold checkMeasurePhaseQualityGate, measureArtifacts.
    cbn [passed TsMeasure.kpis baselines measurement_system_analysis
           data_collection_plan fmap list_fmap snd forallb].
    rewrite (msa_acceptable r1 r2 r3 r4 r5 H1 H2), establishBaselines_gt0.
    unfold createDataCollectionPlan. rewrite plan_metrics.
    cbn [metrics].
    destruct (defineKPIs ctqTree custom_kpis) as [ | k ks] eqn:E.
    - cbn. split; [discriminate | congruence].
    - rewrite plan_frequency_gt0 by discriminate.
      split; [discriminate | reflexivity]. }
  split; [exact Hpass | ]. split.
  - unfold checkMeasurePhaseQualityGate. cbn [missing_items].
    rewrite missing_items_spec. unfold measureArtifacts.
    cbn [measurement_system_analysis].
    rewrite (msa_acceptable r1 r2 r3 r4 r5 H1 H2). cbn [In].
    intros H.
    repeat (destruct H as [H | H]; [discriminate H | ]). destruct H.
  - intros Hk Hd. apply Hpass.
    unfold checkDefinePhaseQualityGate in Hd. cbn [passed] in Hd.
    cbn [fmap list_fmap snd forallb] in Hd.
    apply andb_true_iff in Hd as [_ Hd]. apply andb_true_iff in Hd as [Hd _].
    rewrite Hk in Hd. cbn [keys TsServer.performance TsServer.reliability] in Hd.
    unfold defineKPIs.
    apply orb_true_iff in Hd as [Hd | Hd]; apply gt0_true in Hd.
    + destruct (TsMeasure.performance ctqTree) as [ | [m s] l];
        [now contradiction Hd | discriminate].
    + destruct (TsMeasure.reliability ctqTree) as [ | [m s] l];
        [now contradiction Hd | ].
      destruct (TsMeasure.performance ctqTree) as [ | [m0 s0] l0]; discriminate.
Qed.

End TsMeasureFacts.

(** The performance metrics the server generates, with the draws 1/2:
    three KPIs, and the gate passes. *)
Lemma ts_measure_gate_needs_one_kpi_witness :
  TsServer.passed
    (TsMeasure.checkMeasurePhaseQualityGate
       (TsMeasure.measureArtifacts TsMeasureInputs.tree None
          TsMeasureInputs.simulated (1 # 2) (1 # 2) (1 # 2) (1 # 2) (1 # 2)))
  = true.
Proof.
  destruct (ts_measure_gate_needs_one_kpi TsMeasureInputs.tree None
              TsMeasureInputs.simulated (1 # 2) (1 # 2) (1 # 2) (1 # 2)
              (1 # 2) TsMeasureInputs.define_artifacts)
    as [_ [_ H]]; [split; [discriminate | reflexivity] ..| ].
  apply H; reflexivity.
Defined.
